(** * Listen: recording / transcription session logic

    A shallow embedding of the stateful core of the [listen_app] package:

    - [recorder.py]  : [AudioRecorder] (frame buffer, start/stop, WAV encoding),
    - [cli.py]       : [ListenApp] (hotkey handlers, the transcription worker),
    - [gui.py]       : [ListenGUI] (record button, worker, completion callback).

    Python objects are records, methods are functions from the object to the
    updated object together with what the call returned or raised.  Threads
    started with [threading.Thread(...).start()] are kept as a pool of program
    counters that an explicit schedule advances one shared-state access at a
    time.  The speech model and the audio device are collaborators: the device
    is a flag saying whether the input stream can be opened, the model is an
    oracle consulted when a transcription call returns, and so is the console
    when [console.print] returns.  The clipboard is taken to accept every
    text.  A Python [str] is the [string] of its UTF-8 bytes. *)

From Stdlib Require Import ZArith List Bool String Ascii Lia.
From Stdlib Require Import Strings.Byte.
Import ListNotations.
Local Open Scope Z_scope.

Set Implicit Arguments.

(** ** Calls that may raise *)

Inductive Exn :=
| StructError            (* struct.error raised by struct.pack *)
| DeviceError            (* OSError from the audio device layer *)
| ModelError (cause : string)   (* any Exception out of the speech model *)
| MarkupError (message : string).  (* rich.errors.MarkupError raised by
                                      console.print *)

Inductive outcome (A : Type) :=
| Returned (a : A)
| Raised (e : Exn).

Arguments Returned {A} a.
Arguments Raised {A} e.

Definition bind {A B} (o : outcome A) (k : A -> outcome B) : outcome B :=
  match o with
  | Returned a => k a
  | Raised e => Raised e
  end.

Notation "x <- o ;; k" := (bind o (fun x => k))
  (at level 61, o at next level, right associativity).

Definition bytes := list byte.

Definition blen (b : bytes) : Z := Z.of_nat (List.length b).

(** [bytes.join] over the chunks *)
Definition join (chunks : list bytes) : bytes := List.concat chunks.

(** ** The container writer of Python's [wave] module

    [recorder.py] hands the joined frames to [wave.open(buffer, "wb")].  The
    library writes the canonical 44-byte RIFF/WAVE header followed by the
    data; the two size fields are produced by [struct.pack('<L', ...)], which
    raises [struct.error] outside 0..4294967295. *)
Module Wave.

Definition byte_of_Z (z : Z) : byte :=
  match Byte.of_N (Z.to_N (z mod 256)) with
  | Some b => b
  | None => x00
  end.

Fixpoint little_endian (width : nat) (x : Z) : bytes :=
  match width with
  | O => []
  | S w => byte_of_Z x :: little_endian w (x / 256)
  end.

(** [struct.pack('<L', x)] and [struct.pack('<H', x)] *)
Definition pack (width : nat) (x : Z) : outcome bytes :=
  if (0 <=? x) && (x <? 256 ^ Z.of_nat width)
  then Returned (little_endian width x)
  else Raised StructError.

(** Largest value of a [<L] field. *)
Definition RIFF_LIMIT : Z := 4294967295.

Definition pack_L := pack 4.
Definition pack_H := pack 2.

Definition tag (s : string) : bytes := list_byte_of_string s.

Definition WAVE_FORMAT_PCM : Z := 1.

(** The 44 bytes [Wave_write._write_header] puts in front of the data,
    for a data chunk announced as [datalength] bytes. *)
Definition header (nchannels sampwidth framerate datalength : Z)
  : outcome bytes :=
  form_length <- pack_L (36 + datalength) ;;
  fmt_size <- pack_L 16 ;;
  fmt_tag <- pack_H WAVE_FORMAT_PCM ;;
  channels <- pack_H nchannels ;;
  rate <- pack_L framerate ;;
  byte_rate <- pack_L (nchannels * framerate * sampwidth) ;;
  block_align <- pack_H (nchannels * sampwidth) ;;
  bits <- pack_H (sampwidth * 8) ;;
  data_length <- pack_L datalength ;;
  Returned (tag "RIFF" ++ form_length ++ tag "WAVE" ++ tag "fmt "
            ++ fmt_size ++ fmt_tag ++ channels ++ rate ++ byte_rate
            ++ block_align ++ bits ++ tag "data" ++ data_length).

(** [setnchannels; setsampwidth; setframerate; writeframes(data); close]:
    the header is first written for the whole sample frames contained in
    [data]; when that differs from the bytes written, [_patchheader]
    rewrites both size fields with the byte count. *)
Definition write (nchannels sampwidth framerate : Z) (data : bytes)
  : outcome bytes :=
  let nframes := blen data / (nchannels * sampwidth) in
  let datalength := nframes * nchannels * sampwidth in
  first <- header nchannels sampwidth framerate datalength ;;
  if datalength =? blen data
  then Returned (first ++ data)
  else patched <- header nchannels sampwidth framerate (blen data) ;;
       Returned (patched ++ data).

End Wave.

(** ** recorder.py *)
Module Recorder.

(** The [pyaudio.PyAudio()] handle: whether the default input device can be
    opened, and whether [terminate()] was called on it. *)
Record PyAudio := mkPyAudio {
  input_available : bool;
  terminated : bool
}.

Inductive Stream := StreamOpen | StreamClosed.

Record AudioRecorder := mkAudioRecorder {
  _audio : PyAudio;
  _stream : option Stream;
  _frames : list bytes;
  _is_recording : bool;
  _on_status_change : bool;   (* a status callback is installed *)
  _on_audio_chunk : bool      (* a chunk observer is installed *)
}.

Definition SAMPLE_RATE : Z := 16000.
Definition CHANNELS : Z := 1.
Definition CHUNK_SIZE : Z := 1024.
(** [self._audio.get_sample_size(pyaudio.paInt16)] *)
Definition SAMPLE_SIZE : Z := 2.
(** The bytes the stream hands to [_audio_callback] at a time: the stream is
    opened with [frames_per_buffer=CHUNK_SIZE], [CHANNELS] samples a frame. *)
Definition CHUNK_BYTES : Z := CHUNK_SIZE * CHANNELS * SAMPLE_SIZE.

(** [AudioRecorder(on_status_change=..., on_audio_chunk=...)] *)
Definition __init__ (device : PyAudio) (status chunk : bool) : AudioRecorder :=
  mkAudioRecorder device None [] false status chunk.

Definition set_stream (s : option Stream) (r : AudioRecorder) :=
  mkAudioRecorder (_audio r) s (_frames r) (_is_recording r)
                  (_on_status_change r) (_on_audio_chunk r).
Definition set_frames (f : list bytes) (r : AudioRecorder) :=
  mkAudioRecorder (_audio r) (_stream r) f (_is_recording r)
                  (_on_status_change r) (_on_audio_chunk r).
Definition set_is_recording (b : bool) (r : AudioRecorder) :=
  mkAudioRecorder (_audio r) (_stream r) (_frames r) b
                  (_on_status_change r) (_on_audio_chunk r).
Definition set_on_audio_chunk (b : bool) (r : AudioRecorder) :=
  mkAudioRecorder (_audio r) (_stream r) (_frames r) (_is_recording r)
                  (_on_status_change r) b.
Definition set_audio (a : PyAudio) (r : AudioRecorder) :=
  mkAudioRecorder a (_stream r) (_frames r) (_is_recording r)
                  (_on_status_change r) (_on_audio_chunk r).

(** What a method call leaves behind: the recorder afterwards, what the
    call returned or raised, and the statuses passed to the status
    callback during the call, oldest first. *)
Record Call (A : Type) := mkCall {
  after : AudioRecorder;
  result : outcome A;
  notified : list string
}.

(** [_notify_status] *)
Definition _notify_status (r : AudioRecorder) (status : string) : list string :=
  if _on_status_change r then [status] else [].

Definition start (r : AudioRecorder) : Call unit :=
  if _is_recording r then mkCall r (Returned tt) []
  else
    let r1 := set_is_recording true (set_frames [] r) in
    if input_available (_audio r1)
    then mkCall (set_stream (Some StreamOpen) r1) (Returned tt)
                (_notify_status r1 "recording")
    else mkCall r1 (Raised DeviceError) [].

(** Returns the recorder and the chunk handed to the observer, if any. *)
Definition _audio_callback (r : AudioRecorder) (in_data : bytes)
  : AudioRecorder * list bytes :=
  if _is_recording r
  then (set_frames (_frames r ++ [in_data]) r,
        if _on_audio_chunk r then [in_data] else [])
  else (r, []).

Definition _frames_to_wav (r : AudioRecorder) : outcome bytes :=
  Wave.write CHANNELS SAMPLE_SIZE SAMPLE_RATE (join (_frames r)).

Definition stop (r : AudioRecorder) : Call bytes :=
  if negb (_is_recording r) then mkCall r (Returned []) []
  else
    let r1 := set_is_recording false r in
    let r2 := match _stream r1 with
              | Some _ => set_stream None r1
              | None => r1
              end in
    mkCall r2 (_frames_to_wav r2) (_notify_status r2 "stopped").

(** The bytes written to [filepath]. *)
Definition save_to_file (r : AudioRecorder) (filepath : string)
  : outcome (string * bytes) :=
  wav_data <- _frames_to_wav r ;;
  Returned (filepath, wav_data).

Definition is_recording (r : AudioRecorder) : bool := _is_recording r.

Definition terminate (r : AudioRecorder) : AudioRecorder :=
  let r1 := match _stream r with
            | Some _ => set_stream (Some StreamClosed) r
            | None => r
            end in
  set_audio (mkPyAudio (input_available (_audio r1)) true) r1.

(** *** Sequences of calls on one recorder *)
Inductive Op :=
| CallStart
| Deliver (in_data : bytes)       (* the stream callback *)
| CallStop
| CallSave (filepath : string)
| CallIsRecording
| CallTerminate.

Definition apply (r : AudioRecorder) (op : Op) : AudioRecorder :=
  match op with
  | CallStart => after (start r)
  | Deliver in_data => fst (_audio_callback r in_data)
  | CallStop => after (stop r)
  | CallSave _ => r
  | CallIsRecording => r
  | CallTerminate => terminate r
  end.

Definition perform (r : AudioRecorder) (ops : list Op) : AudioRecorder :=
  fold_left apply ops r.

(** The chunks the device handed over during [ops], in delivery order. *)
Fixpoint delivered (ops : list Op) : list bytes :=
  match ops with
  | [] => []
  | Deliver in_data :: rest => in_data :: delivered rest
  | _ :: rest => delivered rest
  end.

Definition is_stop (op : Op) : bool :=
  match op with CallStop => true | _ => false end.

Definition is_start (op : Op) : bool :=
  match op with CallStart => true | _ => false end.

End Recorder.

(** ** cli.py *)
Module Cli.
Import Recorder.

(** The keys the handlers tell apart; every other [pynput] key object is
    [other_key]. *)
Inductive Key := ctrl_l | ctrl_r | space | other_key (name : string).

Record ListenApp := mkListenApp {
  toggle_mode : bool;
  auto_copy : bool;
  _recording : bool;
  _processing : bool;
  _last_transcription : string;
  _recorder : AudioRecorder;
  _ctrl_pressed : bool;
  _space_pressed : bool
}.

(** [ListenApp(toggle_mode=..., auto_copy=...)] on a given audio device. *)
Definition __init__ (device : PyAudio) (toggle copy : bool) : ListenApp :=
  mkListenApp toggle copy false false EmptyString
              (Recorder.__init__ device true false) false false.

Definition set_recording (b : bool) (a : ListenApp) :=
  mkListenApp (toggle_mode a) (auto_copy a) b (_processing a)
              (_last_transcription a) (_recorder a)
              (_ctrl_pressed a) (_space_pressed a).
Definition set_processing (b : bool) (a : ListenApp) :=
  mkListenApp (toggle_mode a) (auto_copy a) (_recording a) b
              (_last_transcription a) (_recorder a)
              (_ctrl_pressed a) (_space_pressed a).
Definition set_last_transcription (t : string) (a : ListenApp) :=
  mkListenApp (toggle_mode a) (auto_copy a) (_recording a) (_processing a)
              t (_recorder a) (_ctrl_pressed a) (_space_pressed a).
Definition set_recorder (r : AudioRecorder) (a : ListenApp) :=
  mkListenApp (toggle_mode a) (auto_copy a) (_recording a) (_processing a)
              (_last_transcription a) r (_ctrl_pressed a) (_space_pressed a).
Definition set_ctrl_pressed (b : bool) (a : ListenApp) :=
  mkListenApp (toggle_mode a) (auto_copy a) (_recording a) (_processing a)
              (_last_transcription a) (_recorder a) b (_space_pressed a).
Definition set_space_pressed (b : bool) (a : ListenApp) :=
  mkListenApp (toggle_mode a) (auto_copy a) (_recording a) (_processing a)
              (_last_transcription a) (_recorder a) (_ctrl_pressed a) b.

(** What a handler or a worker step does to the world outside the
    [ListenApp] object, in program order. *)
Inductive Effect :=
| CalledStart (o : outcome unit)  (* self._recorder.start() ran; an
                                     exception leaves the handler *)
| CalledStop (o : outcome bytes)  (* self._recorder.stop() ran *)
| Spawned                         (* Thread(target=
                                     _stop_recording_and_transcribe).start() *)
| GatewayInvoked (audio_data : bytes)   (* transcriber.transcribe entered *)
| Copied (text : string)          (* pyperclip.copy *)
| Printed (markup : string).      (* console.print(markup) returned *)

(** [_on_recording_status], the recorder's status callback. *)
Definition _on_recording_status (a : ListenApp) (status : string) : ListenApp :=
  set_recording (String.eqb status "recording") a.

(** The recorder object after a call, with the callbacks it made applied. *)
Definition settle_call {A} (c : Call A) (a : ListenApp) : ListenApp :=
  fold_left _on_recording_status (notified c) (set_recorder (after c) a).

(** The status line [_get_display] renders. *)
Inductive Phase := Idle | Recording | Processing.

Definition phase (a : ListenApp) : Phase :=
  if _processing a then Processing
  else if _recording a then Recording
  else Idle.

Definition _start_recording (a : ListenApp) : ListenApp * list Effect :=
  if negb (_recording a) && negb (_processing a)
  then let c := Recorder.start (_recorder a) in
       (settle_call c a, [CalledStart (result c)])
  else (a, []).

Definition _on_key_press (a : ListenApp) (key : Key)
  : ListenApp * list Effect :=
  let a1 := match key with
            | ctrl_l | ctrl_r => set_ctrl_pressed true a
            | space => set_space_pressed true a
            | other_key _ => a
            end in
  if _ctrl_pressed a1 && _space_pressed a1
  then if toggle_mode a1
       then if _recording a1 then (a1, [Spawned])
            else _start_recording a1
       else _start_recording a1
  else (a1, []).

Definition _on_key_release (a : ListenApp) (key : Key)
  : ListenApp * list Effect :=
  match key with
  | ctrl_l | ctrl_r =>
      let a1 := set_ctrl_pressed false a in
      if negb (toggle_mode a1) && _recording a1
      then (a1, [Spawned]) else (a1, [])
  | space =>
      let a1 := set_space_pressed false a in
      if negb (toggle_mode a1) && _recording a1
      then (a1, [Spawned]) else (a1, [])
  | other_key _ => (a, [])
  end.

(** *** The worker thread: [_stop_recording_and_transcribe]

    One program counter per access to shared state; [audio_data] is the
    thread's local variable. *)
Inductive WorkerPc :=
| AtCheck                        (* if self._recording: *)
| AtSetProcessing                (* self._processing = True *)
| AtStop                         (* audio_data = self._recorder.stop() *)
| AfterStop (audio_data : bytes) (* if len(audio_data) > 1000: *)
| InGateway (audio_data : bytes) (* inside transcriber.transcribe(...) *)
| AtPrint (e : Exn)              (* except Exception as e: inside
                                    console.print(...) *)
| AtClear                        (* self._processing = False *)
| Finished
| Died (e : Exn).                (* an exception left the thread *)

Definition NO_AUDIO : string := "(no audio captured)".

(** Python's truth value of a [str]. *)
Definition truthy (s : string) : bool :=
  match s with EmptyString => false | _ => true end.

Definition error_text (e : Exn) : string :=
  match e with
  | StructError => "struct.error"
  | DeviceError => "device unavailable"
  | ModelError cause => cause
  | MarkupError message => message
  end.

(** The console markup the worker prints for an exception: the message is
    spliced between the tags as it is, unescaped. *)
Definition error_markup (e : Exn) : string :=
  "[red]Error: " ++ error_text e ++ "[/red]".

(** One step of a worker.  [reply] is what the call the worker is inside
    answers when the step taken is the return from it: the speech model at
    [InGateway], and at [AtPrint] the console, of which only whether it
    returned or raised is used.  An exception out of [console.print] is
    raised inside the [except] block, so it leaves the thread before
    [_processing] is cleared. *)
Definition worker_step (reply : outcome string) (a : ListenApp)
           (pc : WorkerPc) : ListenApp * WorkerPc * list Effect :=
  match pc with
  | AtCheck =>
      if _recording a then (a, AtSetProcessing, []) else (a, Finished, [])
  | AtSetProcessing => (set_processing true a, AtStop, [])
  | AtStop =>
      let c := Recorder.stop (_recorder a) in
      (settle_call c a,
       match result c with
       | Returned audio_data => AfterStop audio_data
       | Raised e => Died e
       end,
       [CalledStop (result c)])
  | AfterStop audio_data =>
      if 1000 <? blen audio_data
      then (a, InGateway audio_data, [GatewayInvoked audio_data])
      else (set_last_transcription NO_AUDIO a, AtClear, [])
  | InGateway _ =>
      match reply with
      | Returned text =>
          (set_last_transcription text a, AtClear,
           if auto_copy a && truthy text then [Copied text] else [])
      | Raised e => (a, AtPrint e, [])
      end
  | AtPrint e =>
      match reply with
      | Returned _ => (a, AtClear, [Printed (error_markup e)])
      | Raised e' => (a, Died e', [])
      end
  | AtClear => (set_processing false a, Finished, [])
  | Finished => (a, Finished, [])
  | Died e => (a, Died e, [])
  end.

(** *** The running program: the object, its threads, the effect log *)
Record System := mkSystem {
  app : ListenApp;
  threads : list WorkerPc;
  log : list Effect
}.

(** What reaches the object from the listener and device threads. *)
Inductive Input :=
| Press (key : Key)                 (* listener thread: on_press *)
| Release (key : Key)               (* listener thread: on_release *)
| Frame (in_data : bytes).          (* device thread: stream callback *)

Inductive Event :=
| In (i : Input)
| Step (tid : nat) (reply : outcome string).  (* worker [tid] advances *)

Definition boot (device : PyAudio) (toggle copy : bool) : System :=
  mkSystem (__init__ device toggle copy) [] [].

Fixpoint spawned (effects : list Effect) : list WorkerPc :=
  match effects with
  | [] => []
  | Spawned :: rest => AtCheck :: spawned rest
  | _ :: rest => spawned rest
  end.

Definition handle (a : ListenApp) (i : Input) : ListenApp * list Effect :=
  match i with
  | Press key => _on_key_press a key
  | Release key => _on_key_release a key
  | Frame in_data =>
      (set_recorder (fst (_audio_callback (_recorder a) in_data)) a, [])
  end.

Fixpoint replace_nth {A} (n : nat) (x : A) (l : list A) : list A :=
  match l, n with
  | [], _ => []
  | _ :: t, O => x :: t
  | h :: t, S m => h :: replace_nth m x t
  end.

(** One event: the system afterwards and the effects of that event. *)
Definition step (s : System) (ev : Event) : System * list Effect :=
  match ev with
  | In i =>
      let '(a, effects) := handle (app s) i in
      (mkSystem a (threads s ++ spawned effects) (log s ++ effects), effects)
  | Step tid reply =>
      match nth_error (threads s) tid with
      | Some pc =>
          let '(a, pc', effects) := worker_step reply (app s) pc in
          (mkSystem a (replace_nth tid pc' (threads s)) (log s ++ effects),
           effects)
      | None => (s, [])
      end
  end.

Definition exec (s : System) (ev : Event) : System := fst (step s ev).

Definition run (s : System) (schedule : list Event) : System :=
  fold_left exec schedule s.

(** The effects of each event of a schedule, in order. *)
Fixpoint trace (s : System) (schedule : list Event) : list (list Effect) :=
  match schedule with
  | [] => []
  | ev :: rest => snd (step s ev) :: trace (exec s ev) rest
  end.

Definition in_gateway (pc : WorkerPc) : bool :=
  match pc with InGateway _ => true | _ => false end.

(** Number of transcription calls in flight. *)
Definition in_flight (s : System) : nat :=
  List.length (filter in_gateway (threads s)).

Definition is_start (e : Effect) : bool :=
  match e with CalledStart _ => true | _ => false end.

(** *** Runs in which every worker finishes before the next event *)

(** A worker from [AtCheck] reaches [Finished] or [Died] in seven steps.
    [console] is what [console.print] does with a markup, [gateway] what the
    speech model does with a payload. *)
Fixpoint drive (console : string -> outcome unit)
         (gateway : bytes -> outcome string) (fuel : nat)
         (a : ListenApp) (pc : WorkerPc) (acc : list Effect)
  : ListenApp * WorkerPc * list Effect :=
  match fuel with
  | O => (a, pc, acc)
  | S fuel' =>
      let reply := match pc with
                   | InGateway audio_data => gateway audio_data
                   | AtPrint e => _ <- console (error_markup e) ;;
                                  Returned EmptyString
                   | _ => Raised (ModelError EmptyString)
                   end in
      let '(a', pc', effects) := worker_step reply a pc in
      drive console gateway fuel' a' pc' (acc ++ effects)
  end.

Definition _stop_recording_and_transcribe
           (console : string -> outcome unit)
           (gateway : bytes -> outcome string) (a : ListenApp)
  : ListenApp * WorkerPc * list Effect :=
  drive console gateway 7 a AtCheck [].

(** One input handled with the thread it starts, if any, run to its end
    before anything else happens. *)
Definition quiet_step (console : string -> outcome unit)
           (gateway : bytes -> outcome string) (a : ListenApp)
           (i : Input) : ListenApp * list Effect :=
  let '(a1, effects) := handle a i in
  fold_left (fun st _ =>
               let '(a2, _, more) :=
                 _stop_recording_and_transcribe console gateway (fst st) in
               (a2, snd st ++ more))
            (spawned effects) (a1, effects).

(** The effects of each input of a quiet run, in order. *)
Fixpoint quiet_run (console : string -> outcome unit)
         (gateway : bytes -> outcome string) (a : ListenApp)
         (inputs : list Input) : list (list Effect) :=
  match inputs with
  | [] => []
  | i :: rest =>
      let '(a', effects) := quiet_step console gateway a i in
      effects :: quiet_run console gateway a' rest
  end.

(** Bytes delivered by the device during a run. *)
Fixpoint chunk_bytes (inputs : list Input) : Z :=
  match inputs with
  | [] => 0
  | Frame in_data :: rest => blen in_data + chunk_bytes rest
  | _ :: rest => chunk_bytes rest
  end.

End Cli.

(** ** The input gate as the specification words it

    A second definition, written from the specification's sentences and not
    from [cli.py], against which the handlers are compared: two booleans, a
    begin signal on the rising edge of their conjunction, an end signal when
    a release finds both set. *)
Module InputGate.

Inductive Signal := BeginSignal | EndSignal.

Record KeyState := mkKeyState { modifier : bool; trigger : bool }.

Definition both (k : KeyState) : bool := modifier k && trigger k.

Definition idle : KeyState := mkKeyState false false.

Definition update (key : Cli.Key) (held : bool) (k : KeyState) : KeyState :=
  match key with
  | Cli.ctrl_l | Cli.ctrl_r => mkKeyState held (trigger k)
  | Cli.space => mkKeyState (modifier k) held
  | Cli.other_key _ => k
  end.

Definition recognised (key : Cli.Key) : bool :=
  match key with Cli.other_key _ => false | _ => true end.

Definition on_press (k : KeyState) (key : Cli.Key)
  : KeyState * list Signal :=
  let k' := update key true k in
  (k', if recognised key && both k' && negb (both k)
       then [BeginSignal] else []).

Definition on_release (k : KeyState) (key : Cli.Key)
  : KeyState * list Signal :=
  let k' := update key false k in
  (k', if recognised key && both k then [EndSignal] else []).

Definition on_input (k : KeyState) (i : Cli.Input)
  : KeyState * list Signal :=
  match i with
  | Cli.Press key => on_press k key
  | Cli.Release key => on_release k key
  | Cli.Frame _ => (k, [])
  end.

(** The signals of each input, in order. *)
Fixpoint signals (k : KeyState) (inputs : list Cli.Input)
  : list (list Signal) :=
  match inputs with
  | [] => []
  | i :: rest =>
      let '(k', out) := on_input k i in
      out :: signals k' rest
  end.

(** The same along a schedule; worker steps are not key events. *)
Fixpoint along (k : KeyState) (schedule : list Cli.Event)
  : list (list Signal) :=
  match schedule with
  | [] => []
  | Cli.In i :: rest =>
      let '(k', out) := on_input k i in
      out :: along k' rest
  | Cli.Step _ _ :: rest => [] :: along k rest
  end.

(** The signals visible in what the terminal front end did: a capture that
    was started, a stop worker that was launched. *)
Fixpoint observed (effects : list Cli.Effect) : list Signal :=
  match effects with
  | [] => []
  | Cli.CalledStart (Returned _) :: rest => BeginSignal :: observed rest
  | Cli.Spawned :: rest => EndSignal :: observed rest
  | _ :: rest => observed rest
  end.

(** The terminal front end at rest in push-to-talk mode, in step with the
    gate: nothing processing, a capture running exactly while both keys are
    held, and a microphone that opens. *)
Definition in_step (k : KeyState) (a : Cli.ListenApp) : Prop :=
  Cli.toggle_mode a = false
  /\ Cli._processing a = false
  /\ Cli._recording a = both k
  /\ Recorder._is_recording (Cli._recorder a) = both k
  /\ Cli._ctrl_pressed a = modifier k
  /\ Cli._space_pressed a = trigger k
  /\ Recorder.input_available (Recorder._audio (Cli._recorder a)) = true
  /\ Recorder._on_status_change (Cli._recorder a) = true.

(** Bytes held by the capture in progress. *)
Definition buffered (a : Cli.ListenApp) : Z :=
  if Recorder._is_recording (Cli._recorder a)
  then blen (join (Recorder._frames (Cli._recorder a)))
  else 0.

End InputGate.

(** ** gui.py *)
Module Gui.
Import Recorder.

(** The window after [_on_activate]: the recorder exists, the widgets that
    carry state are their text or sensitivity.  Button labels, style
    classes and the waveform are rendering only and are left out. *)
Record ListenGUI := mkListenGUI {
  auto_copy : bool;
  _recorder : AudioRecorder;
  _recording : bool;
  _processing : bool;
  status_label : string;
  result_label : string;
  record_button_sensitive : bool
}.

Definition set_recorder (r : AudioRecorder) (g : ListenGUI) :=
  mkListenGUI (auto_copy g) r (_recording g) (_processing g)
              (status_label g) (result_label g) (record_button_sensitive g).
Definition set_recording (b : bool) (g : ListenGUI) :=
  mkListenGUI (auto_copy g) (_recorder g) b (_processing g)
              (status_label g) (result_label g) (record_button_sensitive g).
Definition set_processing (b : bool) (g : ListenGUI) :=
  mkListenGUI (auto_copy g) (_recorder g) (_recording g) b
              (status_label g) (result_label g) (record_button_sensitive g).
Definition set_status (t : string) (g : ListenGUI) :=
  mkListenGUI (auto_copy g) (_recorder g) (_recording g) (_processing g)
              t (result_label g) (record_button_sensitive g).
Definition set_result (t : string) (g : ListenGUI) :=
  mkListenGUI (auto_copy g) (_recorder g) (_recording g) (_processing g)
              (status_label g) t (record_button_sensitive g).
Definition set_sensitive (b : bool) (g : ListenGUI) :=
  mkListenGUI (auto_copy g) (_recorder g) (_recording g) (_processing g)
              (status_label g) (result_label g) b.

Inductive Effect :=
| CalledStart (o : outcome unit)
| CalledStop (o : outcome bytes)
| Spawned                              (* Thread(target=_transcribe_audio) *)
| GatewayInvoked (audio_data : bytes)
| Copied (text : string)
| IdleAdd (text : string).   (* GLib.idle_add(_on_transcription_complete, text) *)

(** [_on_recording_status] is [pass]: notifications change nothing. *)
Definition settle_call {A} (c : Call A) (g : ListenGUI) : ListenGUI :=
  set_recorder (after c) g.

Definition _start_recording (g : ListenGUI) : ListenGUI * list Effect :=
  let g1 := set_result EmptyString (set_status "Recording..." (set_recording true g)) in
  let g2 := set_recorder (set_on_audio_chunk true (_recorder g1)) g1 in
  let c := Recorder.start (_recorder g2) in
  (settle_call c g2, [CalledStart (result c)]).

Definition _stop_recording (g : ListenGUI) : ListenGUI * list Effect :=
  let g1 := set_processing true (set_recording false g) in
  (set_status "Processing audio..." (set_sensitive false g1), [Spawned]).

Definition _on_record_clicked (g : ListenGUI) : ListenGUI * list Effect :=
  if _processing g then (g, [])
  else if negb (_recording g) then _start_recording g
       else _stop_recording g.

Definition NO_AUDIO : string := "(no audio captured)".

Definition quote : string := String (ascii_of_nat 34) EmptyString.

(** [str.strip()] removes the characters [str.isspace()] accepts.  On the
    UTF-8 bytes of the text these are the single bytes of U+0009..U+000D,
    U+001C..U+001F and U+0020, *)
Definition is_space (c : ascii) : bool :=
  let n := nat_of_ascii c in
  ((9 <=? n) && (n <=? 13) || (28 <=? n) && (n <=? 32))%nat.

(** the two bytes of U+0085 and U+00A0, *)
Definition is_space2 (c1 c2 : ascii) : bool :=
  let n1 := nat_of_ascii c1 in
  let n2 := nat_of_ascii c2 in
  ((n1 =? 194) && ((n2 =? 133) || (n2 =? 160)))%nat.

(** and the three bytes of U+1680, U+2000..U+200A, U+2028, U+2029, U+202F,
    U+205F and U+3000. *)
Definition is_space3 (c1 c2 c3 : ascii) : bool :=
  let n1 := nat_of_ascii c1 in
  let n2 := nat_of_ascii c2 in
  let n3 := nat_of_ascii c3 in
  ((n1 =? 225) && (n2 =? 154) && (n3 =? 128)
   || (n1 =? 226) && (n2 =? 128)
      && ((128 <=? n3) && (n3 <=? 138)
          || (n3 =? 168) || (n3 =? 169) || (n3 =? 175))
   || (n1 =? 226) && (n2 =? 129) && (n3 =? 159)
   || (n1 =? 227) && (n2 =? 128) && (n3 =? 128))%nat.

Fixpoint lstrip (s : string) : string :=
  match s with
  | String c1 rest1 =>
      if is_space c1 then lstrip rest1
      else match rest1 with
           | String c2 rest2 =>
               if is_space2 c1 c2 then lstrip rest2
               else match rest2 with
                    | String c3 rest3 =>
                        if is_space3 c1 c2 c3 then lstrip rest3 else s
                    | EmptyString => s
                    end
           | EmptyString => s
           end
  | EmptyString => EmptyString
  end.

(** What is left of [s] from a position on is dropped when it is white
    space to the end. *)
Fixpoint rstrip (s : string) : string :=
  match s with
  | String c rest =>
      match lstrip s with
      | EmptyString => EmptyString
      | _ => String c (rstrip rest)
      end
  | EmptyString => EmptyString
  end.

Definition strip (s : string) : string := rstrip (lstrip s).

Definition _on_transcription_complete (g : ListenGUI) (text : string)
  : ListenGUI :=
  let g1 := set_sensitive true (set_processing false g) in
  if Cli.truthy text && negb (String.prefix "Error:" text)
  then set_result (quote ++ text ++ quote)
         (set_status (if auto_copy g1 then "✓ Copied to clipboard" else "Ready")
                     g1)
  else set_result text (set_status "Ready" g1).

(** The worker thread: [_transcribe_audio]. *)
Inductive WorkerPc :=
| AtStop                         (* audio_data = self._recorder.stop() *)
| AfterStop (audio_data : bytes) (* if len(audio_data) < 1000: *)
| InGateway (audio_data : bytes) (* inside self._transcriber.transcribe *)
| Finished
| Died (e : Exn).

Definition worker_step (reply : outcome string) (g : ListenGUI)
           (pc : WorkerPc) : ListenGUI * WorkerPc * list Effect :=
  match pc with
  | AtStop =>
      let c := Recorder.stop (_recorder g) in
      (settle_call c g,
       match result c with
       | Returned audio_data => AfterStop audio_data
       | Raised e => Died e
       end,
       [CalledStop (result c)])
  | AfterStop audio_data =>
      if blen audio_data <? 1000
      then (g, Finished, [IdleAdd NO_AUDIO])
      else (g, InGateway audio_data, [GatewayInvoked audio_data])
  | InGateway _ =>
      match reply with
      | Returned result_text =>
          let text := strip result_text in
          (g, Finished,
           (if auto_copy g && Cli.truthy text then [Copied text] else [])
           ++ [IdleAdd text])
      | Raised e =>
          (g, Finished, [IdleAdd ("Error: " ++ Cli.error_text e)])
      end
  | Finished => (g, Finished, [])
  | Died e => (g, Died e, [])
  end.

End Gui.

(** ** One stopped payload in both front ends *)
Module FrontEnds.

(** Both workers hand [audio_data] to the speech model. *)
Definition both_transcribe (audio_data : bytes) : Prop :=
  (forall reply a,
      Cli.worker_step reply a (Cli.AfterStop audio_data)
      = (a, Cli.InGateway audio_data, [Cli.GatewayInvoked audio_data]))
  /\ (forall reply g,
         Gui.worker_step reply g (Gui.AfterStop audio_data)
         = (g, Gui.InGateway audio_data, [Gui.GatewayInvoked audio_data])).

(** Both workers report "(no audio captured)" and call no model. *)
Definition both_skip (audio_data : bytes) : Prop :=
  (forall reply a,
      Cli.worker_step reply a (Cli.AfterStop audio_data)
      = (Cli.set_last_transcription Cli.NO_AUDIO a, Cli.AtClear, []))
  /\ (forall reply g,
         Gui.worker_step reply g (Gui.AfterStop audio_data)
         = (g, Gui.Finished, [Gui.IdleAdd Gui.NO_AUDIO])).

End FrontEnds.

(** ** Concrete inputs used by the examples below *)
Module Examples.
Import Recorder.

(** A working microphone. *)
Definition mic : PyAudio := mkPyAudio true false.

Definition fresh : AudioRecorder := Recorder.__init__ mic true false.

(** A recording in progress that received two three-byte chunks. *)
Definition capturing : AudioRecorder :=
  perform fresh [CallStart; Deliver [x01; x02; x03]; Deliver [x04; x05; x06]].

(** A 1100-byte chunk and a 956-byte one. *)
Definition loud : bytes := repeat x01 1100.
Definition brief : bytes := repeat x00 956.

(** U+3000, the ideographic space, as its UTF-8 bytes. *)
Definition ideographic_space : string :=
  String (ascii_of_nat 227)
         (String (ascii_of_nat 128) (String (ascii_of_nat 128) EmptyString)).

(** A payload of exactly 1000 bytes. *)
Definition thousand : bytes := repeat x00 1000.

(** The terminal front end in push-to-talk mode. *)
Definition hold_mode : Cli.System := Cli.boot mic false true.

(** Ctrl+Space held, one chunk recorded, Space released, and the worker
    advanced until it sits inside the speech model. *)
Definition to_gateway : list Cli.Event :=
  [Cli.In (Cli.Press Cli.ctrl_l); Cli.In (Cli.Press Cli.space);
   Cli.In (Cli.Frame loud); Cli.In (Cli.Release Cli.space);
   Cli.Step 0 (Returned EmptyString); Cli.Step 0 (Returned EmptyString);
   Cli.Step 0 (Returned EmptyString); Cli.Step 0 (Returned EmptyString)].

Definition transcribing : Cli.System := Cli.run hold_mode to_gateway.

(** The window once the model is loaded, and after a record click followed
    by a stop click. *)
Definition window : Gui.ListenGUI :=
  Gui.mkListenGUI true fresh false false "Ready" EmptyString true.

Definition window_processing : Gui.ListenGUI :=
  fst (Gui._on_record_clicked (fst (Gui._on_record_clicked window))).

(** Space released, then Ctrl, with no worker step in between. *)
Definition double_release : list Cli.Event :=
  [Cli.In (Cli.Press Cli.ctrl_l); Cli.In (Cli.Press Cli.space);
   Cli.In (Cli.Release Cli.space); Cli.In (Cli.Release Cli.ctrl_l)].

(** Space pressed again while the model still runs, kept down while the
    worker finishes, and then repeated by the keyboard. *)
Definition held_through_processing : list Cli.Event :=
  to_gateway
  ++ [Cli.In (Cli.Press Cli.space);
      Cli.Step 0 (Returned "hello"%string);
      Cli.Step 0 (Returned EmptyString);
      Cli.In (Cli.Press Cli.space)].

(** A speech model that always hears the same word, and one push-to-talk
    gesture with a repeated Space press in the middle. *)
Definition hears_hello (audio_data : bytes) : outcome string :=
  Returned "hello"%string.

Definition one_gesture : list Cli.Input :=
  [Cli.Press Cli.ctrl_l; Cli.Press Cli.space; Cli.Frame loud;
   Cli.Press Cli.space; Cli.Release Cli.ctrl_l; Cli.Release Cli.space].

(** What the device hands over per callback: [CHUNK_SIZE] frames of one
    16-bit channel. *)
Definition chunk : bytes := repeat x01 2048.

(** A console that prints whatever it is given. *)
Definition prints_all (markup : string) : outcome unit := Returned tt.

(** The terminal front end in toggle mode. *)
Definition toggle : Cli.System := Cli.boot mic true true.

(** Toggle mode with Ctrl held: Space starts a capture, Space again launches
    the stop worker, and the worker has set [_processing] but has not yet
    called [stop()]. *)
Definition stop_requested : list Cli.Event :=
  [Cli.In (Cli.Press Cli.ctrl_l); Cli.In (Cli.Press Cli.space);
   Cli.In (Cli.Frame chunk); Cli.In (Cli.Press Cli.space);
   Cli.Step 0 (Returned EmptyString); Cli.Step 0 (Returned EmptyString)].

(** Space is pressed once more at that point.  The first worker stops the
    capture and enters the model; the second finds nothing to stop and
    clears [_processing].  Two more presses start and stop a new capture,
    whose worker enters the model as well. *)
Definition pressed_during_processing : list Cli.Event :=
  stop_requested
  ++ [Cli.In (Cli.Press Cli.space);
      Cli.Step 1 (Returned EmptyString);
      Cli.Step 0 (Returned EmptyString); Cli.Step 0 (Returned EmptyString);
      Cli.Step 1 (Returned EmptyString); Cli.Step 1 (Returned EmptyString);
      Cli.Step 1 (Returned EmptyString); Cli.Step 1 (Returned EmptyString);
      Cli.In (Cli.Press Cli.space); Cli.In (Cli.Frame chunk);
      Cli.In (Cli.Press Cli.space);
      Cli.Step 2 (Returned EmptyString); Cli.Step 2 (Returned EmptyString);
      Cli.Step 2 (Returned EmptyString); Cli.Step 2 (Returned EmptyString)].

(** Push-to-talk: one gesture whose transcription fails with a message that
    holds a closing tag, which the console refuses. *)
Definition unprintable_failure : list Cli.Event :=
  [Cli.In (Cli.Press Cli.ctrl_l); Cli.In (Cli.Press Cli.space);
   Cli.In (Cli.Frame chunk); Cli.In (Cli.Release Cli.space);
   Cli.Step 0 (Returned EmptyString); Cli.Step 0 (Returned EmptyString);
   Cli.Step 0 (Returned EmptyString); Cli.Step 0 (Returned EmptyString);
   Cli.Step 0 (Raised (ModelError "bad tag [/y]"));
   Cli.Step 0 (Raised (MarkupError
     "closing tag '[/y]' at position 20 doesn't match any open tag"))].

End Examples.

(** * Further models *)

(** ** Measures over runs of the terminal front end *)
Module CliRuns.
Import Recorder.

(** The front end at the end of a quiet run. *)
Definition quiet_end (console : string -> outcome unit)
           (gateway : bytes -> outcome string) (a : Cli.ListenApp)
           (inputs : list Cli.Input) : Cli.ListenApp :=
  fold_left (fun st i => fst (Cli.quiet_step console gateway st i)) inputs a.

Definition is_gateway_call (e : Cli.Effect) : bool :=
  match e with Cli.GatewayInvoked _ => true | _ => false end.

(** Calls of [transcriber.transcribe] and of [recorder.start()] so far. *)
Definition gateway_calls (effects : list Cli.Effect) : nat :=
  List.length (filter is_gateway_call effects).

Definition start_calls (effects : list Cli.Effect) : nat :=
  List.length (filter Cli.is_start effects).

(** A worker that holds a stopped payload long enough for the model. *)
Definition holds_long_audio (pc : Cli.WorkerPc) : bool :=
  match pc with
  | Cli.AfterStop audio_data => 1000 <? blen audio_data
  | _ => false
  end.

Definition about_to_transcribe (s : Cli.System) : nat :=
  List.length (filter holds_long_audio (Cli.threads s)).

Definition capturing (s : Cli.System) : nat :=
  if _is_recording (Cli._recorder (Cli.app s)) then 1%nat else 0%nat.

(** What the log may contain for a front end built with [auto_copy = copy]:
    audio handed to the model is longer than 1000 bytes, text is copied only
    when [copy] is set and the text is not empty. *)
Definition tidy (copy : bool) (e : Cli.Effect) : bool :=
  match e with
  | Cli.GatewayInvoked audio_data => 1000 <? blen audio_data
  | Cli.Copied text => copy && Cli.truthy text
  | _ => true
  end.

(** The front end's [_recording] flag mirrors the recorder, and the stream is
    open exactly while the recorder captures. *)
Definition mirrored (a : Cli.ListenApp) : Prop :=
  Cli._recording a = _is_recording (Cli._recorder a)
  /\ _stream (Cli._recorder a)
     = (if _is_recording (Cli._recorder a) then Some StreamOpen else None).

End CliRuns.

(** ** The window with its worker threads and the main loop's idle queue *)
Module GuiSystem.
Import Recorder.

(** [idle] holds the texts of the pending
    [GLib.idle_add(self._on_transcription_complete, text)] calls, oldest
    first.  A click is handed to the handler whether or not the button is
    sensitive. *)
Record System := mkSystem {
  window : Gui.ListenGUI;
  threads : list Gui.WorkerPc;
  idle : list string;
  log : list Gui.Effect
}.

Inductive Event :=
| Click                                  (* main loop: record button *)
| Frame (in_data : bytes)                (* device thread: stream callback *)
| Step (tid : nat) (reply : outcome string)  (* worker [tid] advances *)
| Idle.                                  (* main loop: next idle callback *)

Definition boot (g : Gui.ListenGUI) : System := mkSystem g [] [] [].

Fixpoint spawned (effects : list Gui.Effect) : list Gui.WorkerPc :=
  match effects with
  | [] => []
  | Gui.Spawned :: rest => Gui.AtStop :: spawned rest
  | _ :: rest => spawned rest
  end.

Fixpoint queued (effects : list Gui.Effect) : list string :=
  match effects with
  | [] => []
  | Gui.IdleAdd text :: rest => text :: queued rest
  | _ :: rest => queued rest
  end.

Definition exec (s : System) (ev : Event) : System :=
  match ev with
  | Click =>
      let '(g, effects) := Gui._on_record_clicked (window s) in
      mkSystem g (threads s ++ spawned effects) (idle s) (log s ++ effects)
  | Frame in_data =>
      mkSystem (Gui.set_recorder
                  (fst (_audio_callback (Gui._recorder (window s)) in_data))
                  (window s))
               (threads s) (idle s) (log s)
  | Step tid reply =>
      match nth_error (threads s) tid with
      | Some pc =>
          let '(g, pc', effects) := Gui.worker_step reply (window s) pc in
          mkSystem g (Cli.replace_nth tid pc' (threads s))
                   (idle s ++ queued effects) (log s ++ effects)
      | None => s
      end
  | Idle =>
      match idle s with
      | text :: rest =>
          mkSystem (Gui._on_transcription_complete (window s) text)
                   (threads s) rest (log s)
      | [] => s
      end
  end.

Definition run (s : System) (schedule : list Event) : System :=
  fold_left exec schedule s.

Definition alive (pc : Gui.WorkerPc) : bool :=
  match pc with
  | Gui.Finished | Gui.Died _ => false
  | _ => true
  end.

Definition in_gateway (pc : Gui.WorkerPc) : bool :=
  match pc with Gui.InGateway _ => true | _ => false end.

(** Workers still running, and transcription calls in flight. *)
Definition live (s : System) : nat :=
  List.length (filter alive (threads s)).

Definition in_flight (s : System) : nat :=
  List.length (filter in_gateway (threads s)).

End GuiSystem.

(** ** Reading the fields of a container header back *)
Module WaveFields.

(** [struct.unpack('<L', b)] and [struct.unpack('<H', b)]: the unsigned
    little-endian value of the bytes. *)
Fixpoint unpack (b : bytes) : Z :=
  match b with
  | [] => 0
  | x :: rest => Z.of_N (Byte.to_N x) + 256 * unpack rest
  end.

(** [b[first:first+n]] *)
Definition slice (first n : nat) (b : bytes) : bytes :=
  firstn n (skipn first b).

End WaveFields.

(** ** gui.py: the waveform widget's sample window *)
Module Waveform.
Section Amplitude.

(** The amplitude [min(rms / 32768.0 * 3, 1.0)] of a chunk is floating
    point arithmetic; the widget only stores it, so it is kept as a
    function of the chunk's samples. *)
Variable amplitude : Type.
Variable normalized : list Z -> amplitude.

Definition _max_samples : nat := 100.

Record WaveformDrawingArea := mkWaveform { _samples : list amplitude }.

Definition __init__ : WaveformDrawingArea := mkWaveform [].

(** One signed 16-bit sample from its two bytes, low byte first. *)
Definition sample (lo hi : byte) : Z :=
  let u := Z.of_N (Byte.to_N lo) + 256 * Z.of_N (Byte.to_N hi) in
  if u <? 32768 then u else u - 65536.

Fixpoint samples_of (audio_data : bytes) : list Z :=
  match audio_data with
  | lo :: hi :: rest => sample lo hi :: samples_of rest
  | _ => []
  end.

(** [struct.unpack(f"{len(audio_data) // 2}h", audio_data)] raises when the
    buffer is not exactly two bytes per sample. *)
Definition unpack_h (audio_data : bytes) : outcome (list Z) :=
  if Nat.even (List.length audio_data)
  then Returned (samples_of audio_data)
  else Raised StructError.

(** [samples[-_max_samples:]] *)
Definition recent (samples : list amplitude) : list amplitude :=
  skipn (List.length samples - _max_samples) samples.

Definition add_samples (w : WaveformDrawingArea) (audio_data : bytes)
  : outcome WaveformDrawingArea :=
  samples <- unpack_h audio_data ;;
  Returned
    match samples with
    | [] => w
    | _ =>
        let grown := _samples w ++ [normalized samples] in
        if (_max_samples <? List.length grown)%nat
        then mkWaveform (recent grown)
        else mkWaveform grown
    end.

Definition clear (w : WaveformDrawingArea) : WaveformDrawingArea :=
  mkWaveform [].

(** The idle callbacks [add_samples] of a run of chunks; one that raises
    leaves the widget as it was. *)
Definition feed (w : WaveformDrawingArea) (chunks : list bytes)
  : WaveformDrawingArea :=
  fold_left (fun w audio_data =>
               match add_samples w audio_data with
               | Returned w' => w'
               | Raised _ => w
               end) chunks w.

(** The chunks that put an amplitude on the display: a whole number of
    samples, and at least one. *)
Definition shown (audio_data : bytes) : bool :=
  Nat.even (List.length audio_data) && (2 <=? List.length audio_data)%nat.

End Amplitude.
End Waveform.

(** ** transcriber.py: choosing and loading the model *)
Module Transcriber.

Inductive WhisperModel :=
| whisper (model_size device compute_type : string).

Record Transcriber := mkTranscriber {
  model_size : string;
  device : string;
  compute_type : string;
  _model : WhisperModel
}.

(** What the machine offers: the CUDA device count [ctranslate2] reports and
    whether [torch] sees CUDA, each [None] when the import fails; and what
    [WhisperModel(size, device=..., compute_type=...)] does, [None] when it
    loads and the exception otherwise. *)
Record Machine := mkMachine {
  ctranslate2_cuda_devices : option Z;
  torch_cuda_available : option bool;
  load_error : string -> string -> string -> option Exn
}.

(** [MODEL_RECOMMENDATIONS.get(key, default)] *)
Definition MODEL_RECOMMENDATIONS_get (key default : string) : string :=
  if String.eqb key "cpu" then "tiny"%string
  else if String.eqb key "cuda" then "base"%string
  else default.

Definition _detect_device (m : Machine) : string :=
  let torch := match torch_cuda_available m with
               | Some true => "cuda"%string
               | _ => "cpu"%string
               end in
  match ctranslate2_cuda_devices m with
  | Some n => if 0 <? n then "cuda"%string else torch
  | None => torch
  end.

(** [str.lower()] on ASCII letters. *)
Definition lower_char (c : ascii) : ascii :=
  let n := nat_of_ascii c in
  if ((65 <=? n) && (n <=? 90))%nat then ascii_of_nat (n + 32) else c.

Fixpoint lower (s : string) : string :=
  match s with
  | EmptyString => EmptyString
  | String c rest => String (lower_char c) (lower rest)
  end.

(** [needle in haystack] *)
Fixpoint contains (needle haystack : string) : bool :=
  String.prefix needle haystack
  || match haystack with
     | EmptyString => false
     | String _ rest => contains needle rest
     end.

Definition WhisperModel_new (m : Machine) (size dev compute : string)
  : outcome WhisperModel :=
  match load_error m size dev compute with
  | None => Returned (whisper size dev compute)
  | Some e => Raised e
  end.

(** [Transcriber(model_size, device, compute_type)]; the warning printed on
    the fallback path is left out. *)
Definition __init__ (m : Machine) (size : option string) (dev : string)
           (compute : option string) : outcome Transcriber :=
  let dev := if String.eqb dev "auto" then _detect_device m else dev in
  let size := match size with
              | None => MODEL_RECOMMENDATIONS_get dev "tiny"
              | Some s => s
              end in
  let compute := match compute with
                 | None => if String.eqb dev "cuda"
                           then "float16"%string else "int8"%string
                 | Some c => c
                 end in
  match WhisperModel_new m size dev compute with
  | Returned model => Returned (mkTranscriber size dev compute model)
  | Raised e =>
      let error_str := lower (Cli.error_text e) in
      if contains "cuda" error_str || contains "cublas" error_str
         || contains "cudnn" error_str
      then
        let size' := MODEL_RECOMMENDATIONS_get "cpu" "tiny" in
        model <- WhisperModel_new m size' "cpu" "int8" ;;
        Returned (mkTranscriber size' "cpu" "int8" model)
      else Raised e
  end.

(** [transcribe]: the [text] of the result, from the texts of the segments
    the model yields for the audio. *)
Definition transcribe (segments : list string) : string :=
  String.concat " " (map Gui.strip segments).

(** [get_model_info]: the entries of the dictionary its callers read,
    [info['model_size']] and [info['device']]. *)
Definition get_model_info (t : Transcriber) : string * string :=
  (model_size t, device t).

(** *** src/transcriber.py, the earlier copy of the module *)
Module Legacy.

Definition MODEL_RECOMMENDATIONS_get (key default : string) : string :=
  if String.eqb key "cpu" then "tiny"%string
  else if String.eqb key "gpu" then "base"%string
  else default.

Definition _detect_device (m : Machine) : string :=
  match torch_cuda_available m with
  | Some true => "cuda"%string
  | _ => "cpu"%string
  end.

Definition __init__ (m : Machine) (size : option string) (dev : string)
           (compute : option string) : outcome Transcriber :=
  let dev := if String.eqb dev "auto" then _detect_device m else dev in
  let size := match size with
              | None => MODEL_RECOMMENDATIONS_get dev "tiny"
              | Some s => s
              end in
  let compute := match compute with
                 | None => if String.eqb dev "cuda"
                           then "float16"%string else "int8"%string
                 | Some c => c
                 end in
  model <- WhisperModel_new m size dev compute ;;
  Returned (mkTranscriber size dev compute model).

End Legacy.

End Transcriber.

(** ** test_recorder.py *)
Module TestRecorder.
Import Recorder.

Inductive Line :=
| Text (s : string)
| Recorded (n : Z)        (* f"Recorded {len(wav_data)} bytes." *)
| Error (e : Exn).        (* f"Error: {e}" *)

(** [with AudioRecorder() as recorder: ...]: [__exit__] calls [terminate()]
    on the way out, whether the block ended or raised.  [during] are the
    chunks the device delivers while the script sleeps.  Returns what was
    printed and the recorder left behind. *)
Definition script (device : PyAudio) (during : list bytes)
  : list Line * AudioRecorder :=
  let recorder := Recorder.__init__ device false false in
  let opening := [Text "Initializing Recorder..."; Text "Recorder Initialized.";
                  Text "Starting recording..."] in
  let started := start recorder in
  match result started with
  | Raised e => (opening ++ [Error e], terminate (after started))
  | Returned _ =>
      let slept := fold_left (fun r in_data => fst (_audio_callback r in_data))
                             during (after started) in
      let stopped := stop slept in
      let middle := [Text "Recording for 2 seconds...";
                     Text "Stopping recording..."] in
      match result stopped with
      | Raised e => (opening ++ middle ++ [Error e], terminate (after stopped))
      | Returned wav_data =>
          (opening ++ middle ++ [Recorded (blen wav_data)],
           terminate (after stopped))
      end
  end.

End TestRecorder.

(** ** cli.py: the status panel *)
Module Display.

(** The status line, without its glyph and style: "Processing...",
    "Recording... (release to transcribe)" or
    "Ready - {mode} Ctrl+Space to record". *)
Inductive Status :=
| Processing
| Recording
| Ready (mode : string).

Definition newline : string := String (ascii_of_nat 10) EmptyString.

(** [_get_display]: the status line and the pieces appended after it. *)
Definition _get_display (a : Cli.ListenApp) : Status * list string :=
  let status :=
    if Cli._processing a then Processing
    else if Cli._recording a then Recording
    else Ready (if Cli.toggle_mode a then "Press" else "Hold") in
  (status,
   if Cli.truthy (Cli._last_transcription a)
   then [(newline ++ newline)%string;
         ("Last transcription:" ++ newline)%string;
         (Gui.quote ++ Cli._last_transcription a ++ Gui.quote)%string]
        ++ (if Cli.auto_copy a
            then [" "%string; "(copied to clipboard)"%string]
            else [])
   else []).

End Display.

(** ** Texts made of ASCII white space only *)

(** Every byte is one of U+0009..U+000D, U+001C..U+001F and U+0020. *)
Definition blank (s : string) : bool :=
  forallb Gui.is_space (list_ascii_of_string s).

(** [" " * n] *)
Definition spaces (n : nat) : string :=
  string_of_list_ascii (repeat " "%char n).

(** ** gui.py: the window at start-up *)
Module GuiStartup.
Import Recorder.

(** [ListenGUI(auto_copy=...)] once [_on_activate] has built the window. *)
Definition _on_activate (device : PyAudio) (auto_copy : bool)
  : Gui.ListenGUI :=
  Gui.mkListenGUI auto_copy (Recorder.__init__ device true false)
                  false false "Loading model..." EmptyString false.

(** [_load_model], with the window as it is once the callbacks it queued
    have run, and the transcriber it stored. *)
Definition _load_model (m : Transcriber.Machine) (model_size : option string)
           (g : Gui.ListenGUI) : Gui.ListenGUI * option Transcriber.Transcriber :=
  match Transcriber.__init__ m model_size "auto" None with
  | Returned t =>
      let '(size, dev) := Transcriber.get_model_info t in
      (Gui.set_sensitive true
         (Gui.set_status ("Ready • " ++ size ++ " model on " ++ dev) g),
       Some t)
  | Raised e => (Gui.set_status ("Error: " ++ Cli.error_text e) g, None)
  end.

End GuiStartup.

(** * Properties *)

(** ** The container writer *)
Section WaveFacts.
Import Wave Recorder.

Lemma little_endian_length : forall width x,
  List.length (little_endian width x) = width.
Proof.
  induction width as [|w IH]; intro x; simpl; [reflexivity|].
  now rewrite IH.
Qed.

Lemma pack_in_range : forall width x,
  0 <= x < 256 ^ Z.of_nat width ->
  pack width x = Returned (little_endian width x).
Proof.
  intros width x [Hlo Hhi]. unfold pack.
  apply Z.leb_le in Hlo. apply Z.ltb_lt in Hhi.
  now rewrite Hlo, Hhi.
Qed.

Lemma pack_L_too_large : forall x,
  RIFF_LIMIT < x -> pack_L x = Raised StructError.
Proof.
  intros x H. unfold pack_L, pack, RIFF_LIMIT in *.
  replace (x <? 256 ^ Z.of_nat 4) with false.
  - now rewrite andb_false_r.
  - symmetry. apply Z.ltb_ge. change (256 ^ Z.of_nat 4) with 4294967296. lia.
Qed.

(** The header of this recorder's format exists exactly when the form
    length fits 32 bits, and it is 44 bytes long. *)
Lemma header_fits : forall datalength,
  0 <= datalength -> 36 + datalength <= RIFF_LIMIT ->
  exists h, header CHANNELS SAMPLE_SIZE SAMPLE_RATE datalength = Returned h
            /\ blen h = 44.
Proof.
  intros d Hlo Hhi. unfold RIFF_LIMIT in Hhi. unfold header, pack_L.
  rewrite (@pack_in_range 4 (36 + d))
    by (change (256 ^ Z.of_nat 4) with 4294967296; lia).
  rewrite (@pack_in_range 4 d)
    by (change (256 ^ Z.of_nat 4) with 4294967296; lia).
  cbn [bind]. eexists. split; [reflexivity|].
  unfold blen. rewrite !length_app, !little_endian_length. reflexivity.
Qed.

Lemma header_overflow : forall datalength,
  RIFF_LIMIT < 36 + datalength ->
  header CHANNELS SAMPLE_SIZE SAMPLE_RATE datalength = Raised StructError.
Proof.
  intros d H. unfold header. now rewrite pack_L_too_large.
Qed.

Lemma blen_nonneg : forall b : bytes, 0 <= blen b.
Proof. intro b. unfold blen. lia. Qed.

Lemma blen_app : forall a b : bytes, blen (a ++ b) = blen a + blen b.
Proof. intros a b. unfold blen. rewrite length_app. lia. Qed.

Lemma write_fits : forall data,
  36 + blen data <= RIFF_LIMIT ->
  exists h, header CHANNELS SAMPLE_SIZE SAMPLE_RATE (blen data) = Returned h
            /\ blen h = 44
            /\ write CHANNELS SAMPLE_SIZE SAMPLE_RATE data
               = Returned (h ++ data).
Proof.
  intros data Hfit.
  pose proof (blen_nonneg data) as Hnn.
  destruct (header_fits Hnn Hfit) as (h & Hh & Hlen).
  exists h. split; [exact Hh|]. split; [exact Hlen|].
  unfold write.
  set (whole := blen data / (CHANNELS * SAMPLE_SIZE) * CHANNELS * SAMPLE_SIZE).
  assert (Hwhole : 0 <= whole <= blen data).
  { unfold whole, CHANNELS, SAMPLE_SIZE.
    change (1 * 2) with 2.
    pose proof (Z.mul_div_le (blen data) 2 ltac:(lia)).
    pose proof (Z.div_pos (blen data) 2 Hnn ltac:(lia)). lia. }
  destruct (Z.eqb_spec whole (blen data)) as [Heq|Hne].
  - rewrite Heq, Hh. cbn [bind]. reflexivity.
  - destruct (@header_fits whole) as (h0 & Hh0 & _); [lia | lia |].
    rewrite Hh0. cbn [bind]. rewrite Hh. reflexivity.
Qed.

Lemma write_overflow : forall data,
  RIFF_LIMIT < 36 + blen data ->
  write CHANNELS SAMPLE_SIZE SAMPLE_RATE data = Raised StructError.
Proof.
  intros data Hbig. unfold write.
  set (whole := blen data / (CHANNELS * SAMPLE_SIZE) * CHANNELS * SAMPLE_SIZE).
  destruct (Z.eqb_spec whole (blen data)) as [Heq|Hne].
  - rewrite Heq. now rewrite header_overflow.
  - destruct (header CHANNELS SAMPLE_SIZE SAMPLE_RATE whole) as [h0|e] eqn:E.
    + cbn [bind]. now rewrite header_overflow.
    + cbn [bind]. unfold header in E.
      destruct (pack_L (36 + whole)) eqn:P; cbn [bind] in E.
      * unfold pack_L in *.
        destruct (pack 4 whole) eqn:P2; cbn in E; [discriminate|].
        unfold pack in P2.
        destruct ((0 <=? whole) && (whole <? 256 ^ Z.of_nat 4));
          congruence.
      * unfold pack_L, pack in P.
        destruct ((0 <=? 36 + whole) && (36 + whole <? 256 ^ Z.of_nat 4));
          congruence.
Qed.

Lemma write_returns_header_and_data : forall data wav,
  write CHANNELS SAMPLE_SIZE SAMPLE_RATE data = Returned wav ->
  exists h, blen h = 44 /\ wav = h ++ data.
Proof.
  intros data wav H.
  destruct (Z_le_gt_dec (36 + blen data) RIFF_LIMIT) as [Hfit|Hbig].
  - destruct (write_fits data Hfit) as (h & _ & Hlen & Hw).
    rewrite Hw in H. inversion H. now exists h.
  - rewrite write_overflow in H by lia. discriminate.
Qed.

End WaveFacts.

(** ** The recorder *)
Import Recorder.

Lemma join_uniform_length : forall (frames : list bytes) (F : Z),
  Forall (fun f => blen f = F) frames ->
  blen (join frames) = Z.of_nat (List.length frames) * F.
Proof.
  intros frames F H. induction H as [|f rest Hf _ IH].
  - reflexivity.
  - unfold join in *. cbn [List.concat List.length].
    rewrite blen_app, IH, Hf. lia.
Qed.

Lemma start_when_recording_aux : forall r,
  _is_recording r = true -> after (start r) = r.
Proof. intros r H. unfold start. now rewrite H. Qed.

Lemma start_when_idle : forall r,
  _is_recording r = false ->
  _frames (after (start r)) = []
  /\ _is_recording (after (start r)) = true
  /\ _audio (after (start r)) = _audio r
  /\ _on_status_change (after (start r)) = _on_status_change r
  /\ (input_available (_audio r) = true ->
      result (start r) = Returned tt
      /\ _stream (after (start r)) = Some StreamOpen
      /\ notified (start r) = _notify_status r "recording").
Proof.
  intros r H. unfold start. rewrite H. cbn.
  destruct (input_available (_audio r)); cbn; repeat split;
    try reflexivity; intros; try discriminate.
Qed.

Lemma stop_when_not_recording_aux : forall r,
  _is_recording r = false -> after (stop r) = r.
Proof. intros r H. unfold stop. now rewrite H. Qed.

Lemma stop_while_recording : forall r,
  _is_recording r = true ->
  _frames (after (stop r)) = _frames r
  /\ _is_recording (after (stop r)) = false
  /\ _stream (after (stop r)) = None
  /\ _audio (after (stop r)) = _audio r
  /\ _on_status_change (after (stop r)) = _on_status_change r
  /\ result (stop r)
     = Wave.write CHANNELS SAMPLE_SIZE SAMPLE_RATE (join (_frames r))
  /\ notified (stop r) = _notify_status r "stopped".
Proof.
  intros r H. unfold stop. rewrite H. cbn [negb].
  destruct r as [au st fr rec sc ch]; cbn in *.
  destruct st; cbn; repeat split; reflexivity.
Qed.

(** C5: while recording with N buffered frames of F bytes each, the container
    [stop()] returns is 44 header bytes followed by N*F payload bytes; it is
    returned whenever that size fits the 32-bit RIFF length field; and with no
    frame at all [stop()] returns the bare 44-byte header without raising. *)
Theorem stop_container_length :
  forall (r : AudioRecorder) (F : Z),
    _is_recording r = true ->
    Forall (fun f => blen f = F) (_frames r) ->
    let N := Z.of_nat (List.length (_frames r)) in
    (forall wav, result (stop r) = Returned wav -> blen wav = 44 + N * F)
    /\ (36 + N * F <= Wave.RIFF_LIMIT ->
        exists wav, result (stop r) = Returned wav)
    /\ (N = 0 ->
        exists h, Wave.header CHANNELS SAMPLE_SIZE SAMPLE_RATE 0 = Returned h
                  /\ blen h = 44
                  /\ result (stop r) = Returned h).
Proof.
  intros r F Hrec Hall N.
  destruct (stop_while_recording r Hrec) as (_ & _ & _ & _ & _ & Hres & _).
  pose proof (join_uniform_length Hall) as Hlen. fold N in Hlen.
  rewrite Hres. split; [|split].
  - intros wav Hw.
    destruct (write_returns_header_and_data _ Hw) as (h & Hh & ->).
    rewrite blen_app, Hh, Hlen. reflexivity.
  - intro Hfit. rewrite <- Hlen in Hfit.
    destruct (write_fits _ Hfit) as (h & _ & _ & Hw).
    eexists. exact Hw.
  - intro HN.
    assert (Hnil : _frames r = []).
    { destruct (_frames r); [reflexivity|]. subst N. cbn in HN. lia. }
    rewrite Hnil. cbn [join List.concat].
    destruct (@write_fits []) as (h & Hh & Hh44 & Hw).
    + cbn. unfold Wave.RIFF_LIMIT. lia.
    + exists h. rewrite app_nil_r in Hw. auto.
Qed.

Lemma stop_container_length_witness :
  exists wav, result (stop Examples.capturing) = Returned wav
              /\ blen wav = 50.
Proof.
  destruct (@stop_container_length Examples.capturing 3) as (Hlen & Hret & _).
  - reflexivity.
  - repeat constructor.
  - destruct Hret as (wav & Hw).
    + cbn. unfold Wave.RIFF_LIMIT. lia.
    + exists wav. split; [exact Hw|]. exact (Hlen wav Hw).
Defined.

(** C8: [stop()] on a recorder that is not capturing returns the empty
    payload, raises nothing, notifies nobody and leaves the recorder as it
    was. *)
Theorem stop_when_not_recording :
  forall r : AudioRecorder,
    _is_recording r = false ->
    stop r = mkCall r (Returned []) [].
Proof.
  intros r H. unfold stop. now rewrite H.
Qed.

Lemma stop_when_not_recording_witness :
  stop Examples.fresh = mkCall Examples.fresh (Returned []) [].
Proof.
  apply stop_when_not_recording. reflexivity.
Defined.

(** C9: [start()] on a recorder that is already capturing is a no-op that
    returns normally: no exception, no restart, no notification, and the
    frame buffer, the stream and the recording flag are what they were. *)
Theorem start_when_recording :
  forall r : AudioRecorder,
    _is_recording r = true ->
    start r = mkCall r (Returned tt) [].
Proof.
  intros r H. unfold start. now rewrite H.
Qed.

Lemma start_when_recording_witness :
  start Examples.capturing = mkCall Examples.capturing (Returned tt) []
  /\ _frames (after (start Examples.capturing))
     = [[x01; x02; x03]; [x04; x05; x06]].
Proof.
  split.
  - apply start_when_recording. reflexivity.
  - rewrite (@start_when_recording Examples.capturing); reflexivity.
Defined.

(** While a capture runs and [stop()] is not called, the flag stays set and
    the buffer grows by exactly the chunks delivered, in delivery order. *)
Lemma perform_while_recording : forall ops r,
  _is_recording r = true ->
  forallb (fun op => negb (is_stop op)) ops = true ->
  _is_recording (perform r ops) = true
  /\ _frames (perform r ops) = _frames r ++ delivered ops.
Proof.
  induction ops as [|op ops IH]; intros r Hrec Hops.
  - cbn. now rewrite app_nil_r.
  - cbn [forallb] in Hops. apply andb_true_iff in Hops as [Hop Hops].
    change (perform r (op :: ops)) with (perform (apply r op) ops).
    destruct op; cbn [is_stop negb] in Hop; try discriminate;
      cbn [apply delivered].
    + rewrite (start_when_recording_aux r Hrec). now apply IH.
    + unfold _audio_callback. rewrite Hrec. cbn [fst].
      destruct (IH (set_frames (_frames r ++ [in_data]) r)) as [A B];
        [exact Hrec | exact Hops |].
      split; [exact A|]. rewrite B. cbn. now rewrite <- app_assoc.
    + now apply IH.
    + now apply IH.
    + destruct (IH (terminate r)) as [A B]; [|exact Hops|].
      * unfold terminate. destruct (_stream r); exact Hrec.
      * split; [exact A|]. rewrite B. unfold terminate.
        destruct (_stream r); reflexivity.
Qed.

(** C6: start a capture on an idle recorder, whatever its buffer held before;
    let any calls but [stop()] follow, among them the device callbacks; then
    the buffer is exactly the chunks delivered since that [start()], in
    delivery order, [stop()] encodes exactly their concatenation behind the
    header, and a chunk arriving after [stop()] is not added. *)
Theorem stop_payload_is_delivered :
  forall (r : AudioRecorder) (ops : list Op),
    _is_recording r = false ->
    forallb (fun op => negb (is_stop op)) ops = true ->
    let capture := perform (after (start r)) ops in
    _frames capture = delivered ops
    /\ result (stop capture)
       = Wave.write CHANNELS SAMPLE_SIZE SAMPLE_RATE (join (delivered ops))
    /\ (36 + blen (join (delivered ops)) <= Wave.RIFF_LIMIT ->
        exists h, blen h = 44
                  /\ result (stop capture)
                     = Returned (h ++ join (delivered ops)))
    /\ (forall late,
           _frames (fst (_audio_callback (after (stop capture)) late))
           = delivered ops).
Proof.
  intros r ops Hidle Hops capture.
  destruct (start_when_idle r Hidle) as (Hfr & Hrec & _).
  destruct (perform_while_recording ops _ Hrec Hops) as [Hrec' Hfr'].
  fold capture in Hrec', Hfr'. rewrite Hfr in Hfr'. cbn [app] in Hfr'.
  destruct (stop_while_recording capture Hrec')
    as (Hkeep & Hoff & _ & _ & _ & Hres & _).
  rewrite Hfr' in Hres.
  split; [exact Hfr'|]. split; [exact Hres|]. split.
  - intro Hfit. destruct (write_fits _ Hfit) as (h & _ & Hh & Hw).
    exists h. split; [exact Hh|]. now rewrite Hres.
  - intro late. unfold _audio_callback. rewrite Hoff. cbn [fst].
    now rewrite Hkeep.
Qed.

Lemma stop_payload_is_delivered_witness :
  exists h, blen h = 44
            /\ result (stop Examples.capturing)
               = Returned (h ++ [x01; x02; x03; x04; x05; x06]).
Proof.
  destruct (@stop_payload_is_delivered Examples.fresh
              [Deliver [x01; x02; x03]; Deliver [x04; x05; x06]])
    as (_ & _ & Hfit & _).
  - reflexivity.
  - reflexivity.
  - apply Hfit. cbn. unfold Wave.RIFF_LIMIT. lia.
Defined.

(** After [stop()] and until the next [start()], nothing changes the
    buffer. *)
Lemma perform_while_idle : forall ops r,
  _is_recording r = false ->
  forallb (fun op => negb (is_start op)) ops = true ->
  _is_recording (perform r ops) = false
  /\ _frames (perform r ops) = _frames r.
Proof.
  induction ops as [|op ops IH]; intros r Hidle Hops.
  - now cbn.
  - cbn [forallb] in Hops. apply andb_true_iff in Hops as [Hop Hops].
    change (perform r (op :: ops)) with (perform (apply r op) ops).
    destruct op; cbn [is_start negb] in Hop; try discriminate; cbn [apply].
    + unfold _audio_callback. rewrite Hidle. cbn [fst]. now apply IH.
    + rewrite (stop_when_not_recording_aux r Hidle). now apply IH.
    + now apply IH.
    + now apply IH.
    + destruct (IH (terminate r)) as [A B]; [|exact Hops|].
      * unfold terminate. destruct (_stream r); exact Hidle.
      * split; [exact A|]. rewrite B. unfold terminate.
        destruct (_stream r); reflexivity.
Qed.

(** C7, as the code has it: [stop()] keeps the frames of the finished
    recording in the buffer.  [save_to_file] afterwards encodes that same
    recording again, no call other than [start()] changes the buffer, and
    the next [start()] replaces it with an empty one. *)
Theorem stop_keeps_frames_until_next_start :
  forall (r : AudioRecorder) (ops : list Op),
    _is_recording r = true ->
    forallb (fun op => negb (is_start op)) ops = true ->
    let stopped := after (stop r) in
    _frames stopped = _frames r
    /\ (forall filepath,
           save_to_file stopped filepath
           = (wav_data <- result (stop r) ;; Returned (filepath, wav_data)))
    /\ _frames (perform stopped ops) = _frames r
    /\ _frames (after (start (perform stopped ops))) = [].
Proof.
  intros r ops Hrec Hops stopped.
  destruct (stop_while_recording r Hrec) as (Hkeep & Hoff & _ & _ & _ & Hres & _).
  fold stopped in Hkeep, Hoff.
  destruct (perform_while_idle ops stopped Hoff Hops) as [Hoff' Hkeep'].
  split; [exact Hkeep|]. split; [|split].
  - intro filepath. unfold save_to_file, _frames_to_wav.
    now rewrite Hkeep, Hres.
  - now rewrite Hkeep'.
  - now destruct (start_when_idle _ Hoff') as (Hnil & _).
Qed.

Lemma stop_keeps_frames_until_next_start_witness :
  _frames (perform (after (stop Examples.capturing))
                   [Deliver [x07]; CallStop; CallSave "last.wav"])
  = [[x01; x02; x03]; [x04; x05; x06]].
Proof.
  destruct (@stop_keeps_frames_until_next_start Examples.capturing
              [Deliver [x07]; CallStop; CallSave "last.wav"])
    as (_ & _ & Hkeep & _).
  - reflexivity.
  - reflexivity.
  - exact Hkeep.
Defined.

(** C7 as stated fails: after [stop()] returned the container the buffer is
    not empty, and [save_to_file] writes the finished recording out again. *)
Lemma stop_does_not_discard_frames :
  _frames (after (stop Examples.capturing)) <> []
  /\ exists wav,
       result (stop Examples.capturing) = Returned wav
       /\ skipn 44 wav = [x01; x02; x03; x04; x05; x06]
       /\ save_to_file (after (stop Examples.capturing)) "last.wav"
          = Returned ("last.wav"%string, wav).
Proof.
  split; [discriminate|].
  eexists. split; [vm_compute; reflexivity|]. split; reflexivity.
Qed.

(** ** The terminal and window front ends *)

Lemma in_flight_after_spawn : forall (threads : list Cli.WorkerPc) effects,
  filter Cli.in_gateway (threads ++ Cli.spawned effects)
  = filter Cli.in_gateway threads.
Proof.
  intros threads effects. rewrite filter_app.
  assert (H : filter Cli.in_gateway (Cli.spawned effects) = []).
  { induction effects as [|e rest IH]; [reflexivity|].
    destruct e; cbn; exact IH. }
  rewrite H. apply app_nil_r.
Qed.

Lemma start_recording_blocked : forall a,
  Cli._processing a = true -> Cli._start_recording a = (a, []).
Proof.
  intros a H. unfold Cli._start_recording. rewrite H.
  now rewrite andb_false_r.
Qed.

(** A key press while [_processing] is set only updates the two key flags;
    the one thing it can still do is launch a stop worker, in toggle mode
    with [_recording] set. *)
Lemma press_while_processing : forall a key,
  Cli._processing a = true ->
  let a1 := fst (Cli._on_key_press a key) in
  let effects := snd (Cli._on_key_press a key) in
  Cli._recorder a1 = Cli._recorder a
  /\ Cli._processing a1 = true
  /\ Cli._recording a1 = Cli._recording a
  /\ Cli._last_transcription a1 = Cli._last_transcription a
  /\ (effects = []
      \/ effects = [Cli.Spawned]
         /\ Cli.toggle_mode a && Cli._recording a = true).
Proof.
  intros a key H. unfold Cli._on_key_press.
  set (a1 := match key with
             | Cli.ctrl_l | Cli.ctrl_r => Cli.set_ctrl_pressed true a
             | Cli.space => Cli.set_space_pressed true a
             | Cli.other_key _ => a
             end).
  assert (Hsame : Cli._recorder a1 = Cli._recorder a
                  /\ Cli._processing a1 = true
                  /\ Cli._recording a1 = Cli._recording a
                  /\ Cli._last_transcription a1 = Cli._last_transcription a
                  /\ Cli.toggle_mode a1 = Cli.toggle_mode a).
  { subst a1. destruct key; cbn; auto. }
  destruct Hsame as (Hr & Hp & Hrec & Hl & Ht).
  rewrite (start_recording_blocked a1 Hp).
  destruct (Cli._ctrl_pressed a1 && Cli._space_pressed a1);
    [destruct (Cli.toggle_mode a1) eqn:T;
     [destruct (Cli._recording a1) eqn:R|]|];
    cbn; repeat split; try congruence; auto.
  right. split; [reflexivity|]. now rewrite <- Ht, <- Hrec.
Qed.

(** C1: the single-flight guarantee fails in toggle mode.  With Ctrl held,
    Space starts a capture and Space again launches the stop worker; once
    that worker has set [_processing] and before it has called [stop()] the
    phase is Processing with [_recording] still set.  A further Space press
    there is not ignored: it calls no [start()] but launches a second stop
    worker.  That worker finds nothing to stop and clears [_processing]
    while the first is inside the speech model, so the next two presses
    start and stop a new capture and a second call of the model runs beside
    the first. *)
Theorem toggle_press_during_processing_is_not_ignored :
  let s := Cli.run Examples.toggle Examples.stop_requested in
  let s' := Cli.run Examples.toggle Examples.pressed_during_processing in
  Cli.phase (Cli.app s) = Cli.Processing
  /\ Cli._recording (Cli.app s) = true
  /\ Cli.threads s = [Cli.AtStop]
  /\ snd (Cli.step s (Cli.In (Cli.Press Cli.space))) = [Cli.Spawned]
  /\ Cli.phase (Cli.app (Cli.exec s (Cli.In (Cli.Press Cli.space))))
     = Cli.Processing
  /\ map Cli.in_gateway (Cli.threads s') = [true; false; true]
  /\ Cli.in_flight s' = 2%nat.
Proof.
  cbv zeta. repeat split; vm_compute; reflexivity.
Qed.

Lemma drive_finished : forall console gateway fuel a acc,
  Cli.drive console gateway fuel a Cli.Finished acc = (a, Cli.Finished, acc).
Proof.
  induction fuel as [|fuel IH]; intros a acc; [reflexivity|].
  cbn. rewrite app_nil_r. apply IH.
Qed.

(** C3: with a stopped payload shorter than 1000 bytes, the terminal worker
    stores the text "(no audio captured)" and runs to its end without ever
    entering the speech model, whatever the model would have answered; the
    window worker ends at once, entering no model call, and queues the
    completion callback with the same text, which the result label then
    shows between quotes. *)
Theorem short_audio_skips_gateway :
  forall audio_data : bytes,
    blen audio_data < 1000 ->
    (forall reply a,
        Cli.worker_step reply a (Cli.AfterStop audio_data)
        = (Cli.set_last_transcription "(no audio captured)" a,
           Cli.AtClear, []))
    /\ (forall console gateway fuel a,
           Cli.drive console gateway (S (S fuel)) a
                     (Cli.AfterStop audio_data) []
           = (Cli.set_processing false
                (Cli.set_last_transcription "(no audio captured)" a),
              Cli.Finished, []))
    /\ (forall reply g,
           Gui.worker_step reply g (Gui.AfterStop audio_data)
           = (g, Gui.Finished, [Gui.IdleAdd "(no audio captured)"]))
    /\ (forall g,
           Gui.result_label
             (Gui._on_transcription_complete g "(no audio captured)")
           = (Gui.quote ++ "(no audio captured)" ++ Gui.quote)%string
           /\ Gui._processing
                (Gui._on_transcription_complete g "(no audio captured)")
              = false).
Proof.
  intros audio_data Hshort.
  assert (Hcli : (1000 <? blen audio_data) = false) by (apply Z.ltb_ge; lia).
  assert (Hgui : (blen audio_data <? 1000) = true) by (apply Z.ltb_lt; lia).
  split; [|split; [|split]].
  - intros reply a. cbn. now rewrite Hcli.
  - intros console gateway fuel a. cbn. rewrite Hcli. cbn.
    apply drive_finished.
  - intros reply g. cbn. now rewrite Hgui.
  - intro g. unfold Gui._on_transcription_complete. cbn.
    destruct (Gui.auto_copy g); split; reflexivity.
Qed.

Lemma short_audio_skips_gateway_witness :
  Cli._last_transcription
    (fst (fst (Cli.worker_step (Returned "hello"%string) (Cli.app Examples.hold_mode)
                               (Cli.AfterStop [x01; x02]))))
  = "(no audio captured)"%string
  /\ snd (Gui.worker_step (Returned "hello"%string) Examples.window_processing
                          (Gui.AfterStop [x01; x02]))
     = [Gui.IdleAdd "(no audio captured)"].
Proof.
  destruct (@short_audio_skips_gateway [x01; x02]) as (Hcli & _ & Hgui & _).
  - cbn. lia.
  - split.
    + now rewrite Hcli.
    + now rewrite Hgui.
Defined.

(** Away from the boundary the two length tests agree. *)
Lemma length_tests_agree_off_boundary : forall audio_data : bytes,
  blen audio_data <> 1000 ->
  (1000 <? blen audio_data) = negb (blen audio_data <? 1000).
Proof.
  intros audio_data H.
  destruct (Z.ltb_spec 1000 (blen audio_data));
    destruct (Z.ltb_spec (blen audio_data) 1000); cbn; lia.
Qed.

(** The buffer only ever holds chunks the device delivered. *)
Lemma frames_are_delivered_chunks : forall (P : bytes -> Prop) ops r,
  Forall P (_frames r) ->
  Forall P (delivered ops) ->
  Forall P (_frames (perform r ops)).
Proof.
  intros P. induction ops as [|op ops IH]; intros r Hr Hops; [exact Hr|].
  change (perform r (op :: ops)) with (perform (apply r op) ops).
  destruct op; cbn [delivered apply] in *.
  - apply IH; [|exact Hops]. unfold start.
    destruct (_is_recording r); [exact Hr|].
    destruct (input_available _); cbn; constructor.
  - inversion Hops as [|x l Hx Hrest]; subst.
    apply IH; [|exact Hrest]. unfold _audio_callback.
    destruct (_is_recording r); cbn [fst]; [|exact Hr].
    cbn. apply Forall_app. split; [exact Hr|]. now constructor.
  - apply IH; [|exact Hops]. unfold stop.
    destruct (_is_recording r); cbn [negb]; [|exact Hr].
    destruct r as [au st fr rec sc ch]; destruct st; exact Hr.
  - now apply IH.
  - now apply IH.
  - apply IH; [|exact Hops].
    destruct r as [au st fr rec sc ch]; destruct st; exact Hr.
Qed.

(** C10, as the code has it: whatever is called on a recorder, with the
    device delivering its chunks of [CHUNK_BYTES] bytes, the payload [stop()]
    returns is never 1000 bytes long, and on it the terminal worker and the
    window worker decide alike: both call the speech model or both report
    "(no audio captured)".  They decide alike on every payload whose length
    is not 1000. *)
Theorem stopped_payloads_get_the_same_decision :
  forall (device : PyAudio) (status observer : bool) (ops : list Op)
         (audio_data : bytes),
    Forall (fun in_data => blen in_data = CHUNK_BYTES) (delivered ops) ->
    result (stop (perform (Recorder.__init__ device status observer) ops))
    = Returned audio_data ->
    blen audio_data <> 1000
    /\ (FrontEnds.both_transcribe audio_data
        \/ FrontEnds.both_skip audio_data)
    /\ (forall other : bytes,
           blen other <> 1000 ->
           FrontEnds.both_transcribe other \/ FrontEnds.both_skip other).
Proof.
  intros device status observer ops audio_data Hchunks Hstop.
  assert (Hoff : forall other : bytes,
             blen other <> 1000 ->
             FrontEnds.both_transcribe other \/ FrontEnds.both_skip other).
  { intros other Hne.
    pose proof (length_tests_agree_off_boundary other Hne) as Hagree.
    unfold FrontEnds.both_transcribe, FrontEnds.both_skip.
    cbn [Cli.worker_step Gui.worker_step].
    destruct (blen other <? 1000); cbn [negb] in Hagree; rewrite Hagree.
    - right. split; intros; reflexivity.
    - left. split; intros; reflexivity. }
  assert (Hlen : blen audio_data <> 1000).
  { set (r := perform (Recorder.__init__ device status observer) ops) in *.
    assert (Hsized : Forall (fun in_data => blen in_data = CHUNK_BYTES)
                            (_frames r)).
    { apply frames_are_delivered_chunks; [constructor | exact Hchunks]. }
    pose proof (join_uniform_length Hsized) as Hjoin.
    unfold stop in Hstop.
    destruct (_is_recording r); cbn [negb result] in Hstop.
    - assert (Hw : Wave.write CHANNELS SAMPLE_SIZE SAMPLE_RATE
                              (join (_frames r)) = Returned audio_data).
      { destruct r as [au st fr rec sc ch]; destruct st; exact Hstop. }
      destruct (write_returns_header_and_data _ Hw) as (h & Hh & ->).
      rewrite blen_app, Hh, Hjoin.
      unfold CHUNK_BYTES, CHUNK_SIZE, CHANNELS, SAMPLE_SIZE. lia.
    - inversion Hstop. cbn. lia. }
  split; [exact Hlen|]. split; [now apply Hoff | exact Hoff].
Qed.

Lemma stopped_payloads_get_the_same_decision_witness :
  exists audio_data,
    result (stop (perform Examples.fresh
                          [CallStart; Deliver Examples.chunk]))
    = Returned audio_data
    /\ blen audio_data = 2092
    /\ FrontEnds.both_transcribe audio_data.
Proof.
  eexists. split; [vm_compute; reflexivity|].
  split; [vm_compute; reflexivity|].
  match goal with
  | |- FrontEnds.both_transcribe ?wav =>
      destruct (@stopped_payloads_get_the_same_decision
                  Examples.mic true false
                  [CallStart; Deliver Examples.chunk] wav)
        as (_ & [Hboth | [Hskip _]] & _)
  end.
  - repeat constructor.
  - vm_compute. reflexivity.
  - exact Hboth.
  - specialize (Hskip (Returned EmptyString) (Cli.app Examples.hold_mode)).
    vm_compute in Hskip. discriminate.
Defined.

(** C10 as stated fails at the length it singles out: on a payload of
    exactly 1000 bytes the terminal worker ([len > 1000]) stores
    "(no audio captured)" and calls no model, while the window worker
    ([len < 1000]) calls it. *)
Lemma front_ends_disagree_at_1000_bytes :
  blen Examples.thousand = 1000
  /\ (forall reply a,
         Cli.worker_step reply a (Cli.AfterStop Examples.thousand)
         = (Cli.set_last_transcription "(no audio captured)" a,
            Cli.AtClear, []))
  /\ (forall reply g,
         Gui.worker_step reply g (Gui.AfterStop Examples.thousand)
         = (g, Gui.InGateway Examples.thousand,
            [Gui.GatewayInvoked Examples.thousand])).
Proof.
  split; [vm_compute; reflexivity|]. split; intros; reflexivity.
Qed.

(** With nothing recording and nothing processing, [_start_recording] opens
    the capture and the status callback sets [_recording]. *)
Lemma start_recording_idle : forall a,
  Cli._recording a = false ->
  Cli._processing a = false ->
  _is_recording (Cli._recorder a) = false ->
  input_available (_audio (Cli._recorder a)) = true ->
  _on_status_change (Cli._recorder a) = true ->
  Cli._start_recording a
  = (Cli.set_recording true
       (Cli.set_recorder (after (start (Cli._recorder a))) a),
     [Cli.CalledStart (Returned tt)]).
Proof.
  intros a Hrec Hproc Hidle Hmic Hcb.
  unfold Cli._start_recording. rewrite Hrec, Hproc. cbn [negb andb].
  destruct (start_when_idle _ Hidle) as (_ & _ & _ & _ & Hok).
  destruct (Hok Hmic) as (Hres & _ & Hnote).
  unfold Cli.settle_call. rewrite Hres, Hnote.
  unfold _notify_status. rewrite Hcb. reflexivity.
Qed.

(** Push-to-talk with [_processing] set, nothing recording and the one
    worker dead: no event changes the flags, the threads or the log. *)
Lemma dead_worker_blocks : forall (s : Cli.System) (e : Exn) (ev : Cli.Event),
  Cli.toggle_mode (Cli.app s) = false ->
  Cli._processing (Cli.app s) = true ->
  Cli._recording (Cli.app s) = false ->
  Cli.threads s = [Cli.Died e] ->
  Cli.toggle_mode (Cli.app (Cli.exec s ev)) = false
  /\ Cli._processing (Cli.app (Cli.exec s ev)) = true
  /\ Cli._recording (Cli.app (Cli.exec s ev)) = false
  /\ Cli.threads (Cli.exec s ev) = [Cli.Died e]
  /\ Cli.log (Cli.exec s ev) = Cli.log s
  /\ Cli._last_transcription (Cli.app (Cli.exec s ev))
     = Cli._last_transcription (Cli.app s).
Proof.
  intros [a th lg] e ev Htg Hpr Hrc Hth. cbn in Htg, Hpr, Hrc, Hth. subst th.
  destruct a as [tg cp rc pr last r ctrl sp]. cbn in Htg, Hpr, Hrc. subst.
  destruct ev as [[key|key|in_data]|tid reply]; unfold Cli.exec, Cli.step.
  - destruct key, ctrl, sp; cbn; rewrite ?app_nil_r; repeat split.
  - destruct key, ctrl, sp; cbn; rewrite ?app_nil_r; repeat split.
  - cbn. rewrite ?app_nil_r. repeat split.
  - destruct tid as [|[|tid]]; cbn; rewrite ?app_nil_r; repeat split.
Qed.

(** C4: recovery fails when the error cannot be printed.  The speech model
    raises an exception whose message is "bad tag [/y]".  The worker catches
    it and prints it as console markup, and the console raises on the
    closing tag that nothing opened.  That exception leaves the thread from
    inside the handler, before [_processing] is cleared: the phase stays
    Processing, the next Space press with Ctrl held starts nothing, and
    whatever keys, chunks and thread steps follow, the flags, the dead
    worker and the log stay as they are. *)
Theorem unprintable_failure_blocks_the_session :
  let s := Cli.run Examples.hold_mode Examples.unprintable_failure in
  Cli.threads s
  = [Cli.Died (MarkupError
       "closing tag '[/y]' at position 20 doesn't match any open tag")]
  /\ Cli.phase (Cli.app s) = Cli.Processing
  /\ Cli._last_transcription (Cli.app s) = EmptyString
  /\ filter Cli.is_start (Cli.log s) = [Cli.CalledStart (Returned tt)]
  /\ snd (Cli.step s (Cli.In (Cli.Press Cli.space))) = []
  /\ (forall schedule : list Cli.Event,
         Cli.phase (Cli.app (Cli.run s schedule)) = Cli.Processing
         /\ Cli.threads (Cli.run s schedule) = Cli.threads s
         /\ Cli.log (Cli.run s schedule) = Cli.log s).
Proof.
  cbv zeta.
  set (s := Cli.run Examples.hold_mode Examples.unprintable_failure).
  assert (Hth : Cli.threads s
                = [Cli.Died (MarkupError
                     "closing tag '[/y]' at position 20 doesn't match any open tag")])
    by (vm_compute; reflexivity).
  split; [exact Hth|].
  split; [vm_compute; reflexivity|].
  split; [vm_compute; reflexivity|].
  split; [vm_compute; reflexivity|].
  split; [vm_compute; reflexivity|].
  assert (Htg : Cli.toggle_mode (Cli.app s) = false)
    by (vm_compute; reflexivity).
  assert (Hpr : Cli._processing (Cli.app s) = true)
    by (vm_compute; reflexivity).
  assert (Hrc : Cli._recording (Cli.app s) = false)
    by (vm_compute; reflexivity).
  clearbody s. intro schedule. revert s Hth Htg Hpr Hrc.
  induction schedule as [|ev rest IH]; intros s Hth Htg Hpr Hrc.
  - cbn. unfold Cli.phase. rewrite Hpr. auto.
  - change (Cli.run s (ev :: rest)) with (Cli.run (Cli.exec s ev) rest).
    destruct (dead_worker_blocks s ev Htg Hpr Hrc Hth)
      as (Htg' & Hpr' & Hrc' & Hth' & Hlog & _).
    destruct (IH (Cli.exec s ev) Hth' Htg' Hpr' Hrc') as (A & B & C).
    rewrite A, B, C, Hth, Hth', Hlog. auto.
Qed.

(** ** Push-to-talk against the input gate *)

Lemma observed_app : forall e1 e2,
  InputGate.observed (e1 ++ e2)
  = InputGate.observed e1 ++ InputGate.observed e2.
Proof.
  induction e1 as [|e rest IH]; intro e2; [reflexivity|].
  destruct e as [[u|x]| | | | |]; cbn; rewrite IH; reflexivity.
Qed.

(** A stop worker started while a capture runs, left alone until it ends,
    with a console that prints the model's errors: it ends normally, emits
    no signal, and leaves nothing recording and nothing processing. *)
Lemma worker_runs_to_end : forall console gateway a,
  (forall audio_data e,
      gateway audio_data = Raised e ->
      console (Cli.error_markup e) = Returned tt) ->
  Cli._recording a = true ->
  _is_recording (Cli._recorder a) = true ->
  _on_status_change (Cli._recorder a) = true ->
  36 + blen (join (_frames (Cli._recorder a))) <= Wave.RIFF_LIMIT ->
  exists a' effects,
    Cli._stop_recording_and_transcribe console gateway a
    = (a', Cli.Finished, effects)
    /\ InputGate.observed effects = []
    /\ Cli.toggle_mode a' = Cli.toggle_mode a
    /\ Cli._recording a' = false
    /\ Cli._processing a' = false
    /\ Cli._recorder a' = after (stop (Cli._recorder a))
    /\ Cli._ctrl_pressed a' = Cli._ctrl_pressed a
    /\ Cli._space_pressed a' = Cli._space_pressed a.
Proof.
  intros console gateway a Hprint Hrec Hcap Hcb Hfit.
  destruct (stop_while_recording _ Hcap)
    as (_ & _ & _ & _ & _ & Hres & Hnote).
  destruct (write_fits _ Hfit) as (h & _ & _ & Hw).
  rewrite Hw in Hres. unfold _notify_status in Hnote. rewrite Hcb in Hnote.
  unfold Cli._stop_recording_and_transcribe.
  cbn [Cli.drive Cli.worker_step]. rewrite Hrec.
  cbn [Cli.drive Cli.worker_step app Cli._recorder Cli.set_processing].
  rewrite Hres. unfold Cli.settle_call. rewrite Hnote.
  cbn [fold_left Cli._on_recording_status String.eqb Ascii.eqb Bool.eqb].
  cbn [Cli.drive Cli.worker_step app].
  set (wav := h ++ join (_frames (Cli._recorder a))).
  destruct (1000 <? blen wav).
  - cbn [Cli.drive Cli.worker_step app].
    destruct (gateway wav) as [text|e] eqn:Hreply;
      cbn [Cli.drive Cli.worker_step app];
      try rewrite (Hprint wav e Hreply);
      cbn [bind Cli.drive Cli.worker_step app];
      try match goal with
          | |- context [if ?b then [Cli.Copied _] else []] => destruct b
          end;
      eexists; eexists; (split; [reflexivity|]); cbn; repeat split;
      reflexivity.
  - cbn [Cli.drive Cli.worker_step app].
    eexists; eexists; (split; [reflexivity|]); cbn; repeat split; reflexivity.
Qed.

Lemma chunk_bytes_nonneg : forall inputs, 0 <= Cli.chunk_bytes inputs.
Proof.
  induction inputs as [|i rest IH]; cbn; [lia|].
  destruct i; try exact IH. pose proof (blen_nonneg in_data). lia.
Qed.

Lemma buffered_nonneg : forall a, 0 <= InputGate.buffered a.
Proof.
  intro a. unfold InputGate.buffered.
  destruct (_is_recording (Cli._recorder a)); [apply blen_nonneg | lia].
Qed.

Lemma join_snoc : forall (frames : list bytes) (chunk : bytes),
  blen (join (frames ++ [chunk])) = blen (join frames) + blen chunk.
Proof.
  intros frames chunk. unfold join.
  rewrite concat_app, blen_app. cbn. now rewrite app_nil_r.
Qed.

Opaque Cli._stop_recording_and_transcribe.

(** One input of a quiet push-to-talk run keeps the front end in step with
    the gate and shows exactly the gate's signal. *)
Lemma quiet_step_in_step : forall console gateway a k i,
  (forall audio_data e,
      gateway audio_data = Raised e ->
      console (Cli.error_markup e) = Returned tt) ->
  InputGate.in_step k a ->
  36 + InputGate.buffered a + Cli.chunk_bytes [i] <= Wave.RIFF_LIMIT ->
  InputGate.in_step (fst (InputGate.on_input k i))
                    (fst (Cli.quiet_step console gateway a i))
  /\ InputGate.observed (snd (Cli.quiet_step console gateway a i))
     = snd (InputGate.on_input k i)
  /\ InputGate.buffered (fst (Cli.quiet_step console gateway a i))
     <= InputGate.buffered a + Cli.chunk_bytes [i].
Proof.
  intros console gateway a k i Hprint Hstep Hfit.
  destruct a as [tg cp rc pr last r ctrl sp].
  destruct r as [[mic_ok term] st fr cap scb ccb].
  destruct k as [m t].
  unfold InputGate.in_step in Hstep. cbn in Hstep.
  destruct Hstep as (-> & -> & -> & -> & -> & -> & -> & ->).
  unfold InputGate.buffered in *.
  cbn [Cli._recorder _is_recording _frames InputGate.both
       InputGate.modifier InputGate.trigger] in Hfit.
  pose proof (blen_nonneg (join fr)) as Hnn.
  destruct i as [key|key|in_data].
  - (* press *)
    destruct key, m, t; cbn -[Z.add]; unfold InputGate.in_step;
      cbn -[Z.add]; repeat split; try reflexivity; try lia.
  - (* release *)
    destruct m, t, key;
      try (cbn -[Z.add]; unfold InputGate.in_step; cbn -[Z.add];
           repeat split; try reflexivity; lia).
    all: cbn [Cli.chunk_bytes InputGate.both InputGate.modifier
              InputGate.trigger andb] in Hfit.
    all: match goal with
         | |- context [Cli.quiet_step ?c ?g ?a0 (Cli.Release ?key)] =>
             destruct (@worker_runs_to_end c g
                         (fst (Cli._on_key_release a0 key)))
               as (a' & effects & Hrun & Hobs & Htg & Hrc & Hpr & Hrec
                   & Hctrl & Hsp);
             [exact Hprint | reflexivity | reflexivity | reflexivity
             | cbn -[Z.add]; unfold join in *; lia |];
             unfold Cli.quiet_step, Cli.handle;
             cbn [Cli._on_key_release Cli.toggle_mode Cli._recording negb
                  andb Cli.set_ctrl_pressed Cli.set_space_pressed
                  Cli.spawned fold_left fst snd InputGate.both
                  InputGate.modifier InputGate.trigger] in *;
             rewrite Hrun
         end.
    all: cbn -[Wave.write] in Htg, Hrc, Hpr, Hrec, Hctrl, Hsp.
    all: destruct st; cbn -[Wave.write] in Hrec.
    all: unfold InputGate.in_step, InputGate.buffered;
      cbn -[Z.add]; rewrite Htg, Hrc, Hpr, Hrec, Hctrl, Hsp, Hobs;
      cbn -[Z.add]; repeat split; try reflexivity; unfold join in *; lia.
  - (* frame *)
    pose proof (join_snoc fr in_data) as Hsnoc.
    pose proof (blen_nonneg in_data) as Hin.
    destruct m, t; cbn -[Z.add join] in *; unfold InputGate.in_step;
      cbn -[Z.add join]; repeat split; try reflexivity; lia.
Qed.

Transparent Cli._stop_recording_and_transcribe.

Lemma quiet_run_in_step : forall console gateway inputs a k,
  (forall audio_data e,
      gateway audio_data = Raised e ->
      console (Cli.error_markup e) = Returned tt) ->
  InputGate.in_step k a ->
  36 + InputGate.buffered a + Cli.chunk_bytes inputs <= Wave.RIFF_LIMIT ->
  map InputGate.observed (Cli.quiet_run console gateway a inputs)
  = InputGate.signals k inputs.
Proof.
  intros console gateway inputs a k Hprint. revert a k.
  induction inputs as [|i rest IH]; intros a k Hstep Hfit; [reflexivity|].
  assert (Hsplit : Cli.chunk_bytes (i :: rest)
                   = Cli.chunk_bytes [i] + Cli.chunk_bytes rest).
  { destruct i; cbn -[Z.add]; lia. }
  pose proof (chunk_bytes_nonneg rest) as Hrest.
  pose proof (chunk_bytes_nonneg [i]) as Hone.
  destruct (@quiet_step_in_step console gateway a k i Hprint Hstep)
    as (Hnext & Hobs & Hbuf); [lia|].
  cbn [Cli.quiet_run InputGate.signals].
  destruct (Cli.quiet_step console gateway a i) as [a' effects].
  destruct (InputGate.on_input k i) as [k' out].
  cbn [fst snd] in *. cbn [map]. rewrite Hobs. f_equal.
  apply IH; [exact Hnext | lia].
Qed.

(** C2, as the code has it: in push-to-talk mode, with a microphone that
    opens, a console that prints every error the speech model raises, and
    each stop worker left to finish before the next key or audio event
    arrives, every run of key presses, key releases and audio chunks
    starts a capture exactly where the gate emits a begin signal (the
    press that completes the chord, never a repeated press) and launches
    the stop worker exactly where the gate emits an end signal (the release
    that breaks the chord).  The chunks of the run stay within the size a
    container can announce. *)
Theorem quiet_hold_mode_follows_the_gate :
  forall (console : string -> outcome unit)
         (gateway : bytes -> outcome string) (device : PyAudio)
         (copy : bool) (inputs : list Cli.Input),
    (forall audio_data e,
        gateway audio_data = Raised e ->
        console (Cli.error_markup e) = Returned tt) ->
    input_available device = true ->
    36 + Cli.chunk_bytes inputs <= Wave.RIFF_LIMIT ->
    map InputGate.observed
        (Cli.quiet_run console gateway (Cli.__init__ device false copy)
                       inputs)
    = InputGate.signals InputGate.idle inputs.
Proof.
  intros console gateway device copy inputs Hprint Hmic Hfit.
  apply quiet_run_in_step.
  - exact Hprint.
  - unfold InputGate.in_step. cbn. auto 10.
  - unfold InputGate.buffered. cbn -[Z.add]. lia.
Qed.

Lemma quiet_hold_mode_follows_the_gate_witness :
  map InputGate.observed
      (Cli.quiet_run Examples.prints_all Examples.hears_hello
                     (Cli.__init__ Examples.mic false true)
                     Examples.one_gesture)
  = [[]; [InputGate.BeginSignal]; []; []; [InputGate.EndSignal]; []].
Proof.
  rewrite (@quiet_hold_mode_follows_the_gate
             Examples.prints_all Examples.hears_hello Examples.mic true
             Examples.one_gesture).
  - reflexivity.
  - reflexivity.
  - reflexivity.
  - unfold Wave.RIFF_LIMIT. cbn. lia.
Defined.

(** C2 as stated fails on schedules in which a worker has not finished.
    Releasing Space and then Ctrl before the worker ran launches the stop
    worker twice, the second time on a release that found only one key
    held.  And a chord pressed while the model still runs starts nothing at
    the press that completes it; the capture starts later, at a repeated
    press that finds both keys already held. *)
Lemma hold_mode_is_not_edge_triggered :
  map InputGate.observed (Cli.trace Examples.hold_mode Examples.double_release)
  = [[]; [InputGate.BeginSignal]; [InputGate.EndSignal];
     [InputGate.EndSignal]]
  /\ InputGate.along InputGate.idle Examples.double_release
     = [[]; [InputGate.BeginSignal]; [InputGate.EndSignal]; []]
  /\ skipn 8 (map InputGate.observed
                  (Cli.trace Examples.hold_mode
                             Examples.held_through_processing))
     = [[]; []; []; [InputGate.BeginSignal]]
  /\ skipn 8 (InputGate.along InputGate.idle
                              Examples.held_through_processing)
     = [[InputGate.BeginSignal]; []; []; []].
Proof.
  repeat split; vm_compute; reflexivity.
Qed.

(** * Further properties *)

(** ** The recorder when the microphone does not open *)

(** X1: [start()] on an idle recorder whose device cannot be opened raises,
    notifies nobody, and leaves the recording flag set with an empty buffer
    and the stream untouched.  From there a further [start()] returns at
    once without opening anything, even on a device that would open, until
    [stop()] is called; that [stop()] returns the bare 44-byte header and
    clears the flag. *)
Theorem failed_start_leaves_the_flag_set :
  forall r : AudioRecorder,
    _is_recording r = false ->
    input_available (_audio r) = false ->
    let failed := after (start r) in
    result (start r) = Raised DeviceError
    /\ notified (start r) = []
    /\ _is_recording failed = true
    /\ _frames failed = []
    /\ _stream failed = _stream r
    /\ (forall device,
           start (set_audio device failed)
           = mkCall (set_audio device failed) (Returned tt) [])
    /\ (exists h, result (stop failed) = Returned h /\ blen h = 44)
    /\ _is_recording (after (stop failed)) = false.
Proof.
  intros r Hidle Hmic failed.
  assert (Hfailed : failed = set_is_recording true (set_frames [] r)
                    /\ result (start r) = Raised DeviceError
                    /\ notified (start r) = []).
  { subst failed. unfold start. rewrite Hidle. cbn. rewrite Hmic. auto. }
  destruct Hfailed as (Hf & Hres & Hnote).
  split; [exact Hres|]. split; [exact Hnote|].
  rewrite Hf. cbn [_is_recording _frames _stream set_is_recording set_frames].
  split; [reflexivity|]. split; [reflexivity|]. split; [reflexivity|].
  split; [intro device; reflexivity|].
  destruct (stop_while_recording (set_is_recording true (set_frames [] r)))
    as (_ & Hoff & _ & _ & _ & Hstop & _); [reflexivity|].
  split; [|exact Hoff].
  rewrite Hstop. cbn [_frames set_is_recording set_frames join List.concat].
  destruct (@write_fits []) as (h & _ & Hh & Hw).
  - cbn. unfold Wave.RIFF_LIMIT. lia.
  - exists h. rewrite app_nil_r in Hw. auto.
Qed.

Lemma failed_start_leaves_the_flag_set_witness :
  let dead := Recorder.__init__ (mkPyAudio false false) true false in
  result (start dead) = Raised DeviceError
  /\ start (set_audio Examples.mic (after (start dead)))
     = mkCall (set_audio Examples.mic (after (start dead))) (Returned tt) [].
Proof.
  destruct (@failed_start_leaves_the_flag_set
              (Recorder.__init__ (mkPyAudio false false) true false))
    as (Hres & _ & _ & _ & _ & Hnoop & _).
  - reflexivity.
  - reflexivity.
  - split; [exact Hres | apply Hnoop].
Defined.

(** ** The header read back *)

Lemma to_N_byte_of_Z : forall x,
  Z.of_N (Byte.to_N (Wave.byte_of_Z x)) = x mod 256.
Proof.
  intro x. unfold Wave.byte_of_Z.
  pose proof (Z.mod_pos_bound x 256 ltac:(lia)) as Hb.
  destruct (Byte.of_N (Z.to_N (x mod 256))) as [b|] eqn:E.
  - apply Byte.to_of_N in E. rewrite E. lia.
  - apply Byte.of_N_None_iff in E. lia.
Qed.

Lemma unpack_little_endian : forall width x,
  0 <= x < 256 ^ Z.of_nat width ->
  WaveFields.unpack (Wave.little_endian width x) = x.
Proof.
  induction width as [|w IH]; intros x Hx.
  - cbn in *. lia.
  - cbn [Wave.little_endian WaveFields.unpack].
    rewrite to_N_byte_of_Z, IH.
    + pose proof (Z.div_mod x 256 ltac:(lia)). lia.
    + rewrite Nat2Z.inj_succ, Z.pow_succ_r in Hx by lia.
      split; [apply Z.div_pos; lia|].
      apply Z.div_lt_upper_bound; lia.
Qed.

(** X2: the container [stop()] returns describes itself.  Read back with
    little-endian [struct.unpack], its header says RIFF/WAVE, PCM format 1,
    one channel, 16000 frames per second, 32000 bytes per second, 2-byte
    blocks of 16 bits, a form length of 36 plus the payload size and a data
    length equal to the payload size; the payload, the joined frames,
    starts at byte 44. *)
Theorem stopped_container_describes_itself :
  forall (r : AudioRecorder) (wav : bytes),
    _is_recording r = true ->
    result (stop r) = Returned wav ->
    let payload := join (_frames r) in
    WaveFields.slice 0 4 wav = Wave.tag "RIFF"
    /\ WaveFields.unpack (WaveFields.slice 4 4 wav) = 36 + blen payload
    /\ WaveFields.slice 8 8 wav = Wave.tag "WAVEfmt "
    /\ WaveFields.unpack (WaveFields.slice 16 4 wav) = 16
    /\ WaveFields.unpack (WaveFields.slice 20 2 wav) = 1
    /\ WaveFields.unpack (WaveFields.slice 22 2 wav) = 1
    /\ WaveFields.unpack (WaveFields.slice 24 4 wav) = 16000
    /\ WaveFields.unpack (WaveFields.slice 28 4 wav) = 32000
    /\ WaveFields.unpack (WaveFields.slice 32 2 wav) = 2
    /\ WaveFields.unpack (WaveFields.slice 34 2 wav) = 16
    /\ WaveFields.slice 36 4 wav = Wave.tag "data"
    /\ WaveFields.unpack (WaveFields.slice 40 4 wav) = blen payload
    /\ skipn 44 wav = payload.
Proof.
  intros r wav Hrec Hwav payload.
  destruct (stop_while_recording r Hrec) as (_ & _ & _ & _ & _ & Hres & _).
  rewrite Hres in Hwav. fold payload in Hwav.
  destruct (Z_le_gt_dec (36 + blen payload) Wave.RIFF_LIMIT) as [Hfit|Hbig];
    [|rewrite write_overflow in Hwav by lia; discriminate].
  destruct (write_fits payload Hfit) as (h & Hh & _ & Hw).
  rewrite Hw in Hwav. inversion Hwav; subst wav; clear Hwav.
  pose proof (blen_nonneg payload) as Hnn. unfold Wave.RIFF_LIMIT in Hfit.
  unfold Wave.header, Wave.pack_L in Hh.
  rewrite (@pack_in_range 4 (36 + blen payload)) in Hh
    by (change (256 ^ Z.of_nat 4) with 4294967296; lia).
  rewrite (@pack_in_range 4 (blen payload)) in Hh
    by (change (256 ^ Z.of_nat 4) with 4294967296; lia).
  cbn [bind] in Hh. inversion Hh; subst h; clear Hh.
  assert (Hform : WaveFields.unpack (Wave.little_endian 4 (36 + blen payload))
                  = 36 + blen payload)
    by (apply unpack_little_endian;
        change (256 ^ Z.of_nat 4) with 4294967296; lia).
  assert (Hdata : WaveFields.unpack (Wave.little_endian 4 (blen payload))
                  = blen payload)
    by (apply unpack_little_endian;
        change (256 ^ Z.of_nat 4) with 4294967296; lia).
  repeat split; try reflexivity; try exact Hform; exact Hdata.
Qed.

Lemma stopped_container_describes_itself_witness :
  exists wav,
    result (stop Examples.capturing) = Returned wav
    /\ WaveFields.unpack (WaveFields.slice 40 4 wav) = 6
    /\ skipn 44 wav = [x01; x02; x03; x04; x05; x06].
Proof.
  eexists. split; [vm_compute; reflexivity|].
  match goal with
  | |- WaveFields.unpack (WaveFields.slice 40 4 ?w) = _ /\ _ =>
      destruct (@stopped_container_describes_itself Examples.capturing w)
        as (_ & _ & _ & _ & _ & _ & _ & _ & _ & _ & _ & Hlen & Hpay)
  end.
  - reflexivity.
  - vm_compute. reflexivity.
  - split; [exact Hlen | exact Hpay].
Defined.

(** ** Every schedule of the terminal front end *)

Lemma cli_run_invariant : forall (P : Cli.System -> Prop),
  (forall s ev, P s -> P (Cli.exec s ev)) ->
  forall schedule s, P s -> P (Cli.run s schedule).
Proof.
  intros P Hstep. induction schedule as [|ev rest IH]; intros s Hs.
  - exact Hs.
  - apply (IH (Cli.exec s ev)). now apply Hstep.
Qed.

Opaque Wave.write.

Lemma mirrored_step : forall s ev,
  (input_available (_audio (Cli._recorder (Cli.app s))) = true
   /\ _on_status_change (Cli._recorder (Cli.app s)) = true
   /\ CliRuns.mirrored (Cli.app s)) ->
  (input_available (_audio (Cli._recorder (Cli.app (Cli.exec s ev)))) = true
   /\ _on_status_change (Cli._recorder (Cli.app (Cli.exec s ev))) = true
   /\ CliRuns.mirrored (Cli.app (Cli.exec s ev))).
Proof.
  intros [a th lg] ev. unfold CliRuns.mirrored.
  destruct a as [tg cp rc pr last r ctrl sp].
  destruct r as [[mic term] st fr cap scb ccb].
  cbn. intros (-> & -> & -> & ->).
  destruct ev as [[key|key|in_data]|tid reply]; unfold Cli.exec, Cli.step.
  - destruct key, tg, cap, pr, ctrl, sp; cbn; auto.
  - destruct key, tg, cap; cbn; auto.
  - destruct cap; cbn; auto.
  - cbn [Cli.threads Cli.app Cli.log].
    destruct (nth_error th tid) as [pc|]; [|cbn; auto].
    destruct pc as [| | |wav|wav|e0| | |e]; cbn; auto.
    all: try (destruct cap; cbn; now auto).
    all: try (destruct (1000 <? blen wav); cbn; now auto).
    all: destruct reply; cbn; now auto.
Qed.

(** X3: with a microphone that opens, in every state the terminal front end
    can reach, in either mode and under every interleaving of key events,
    audio chunks and worker steps, [_recording] equals the recorder's own
    recording flag and the input stream is open exactly while that flag is
    set. *)
Theorem recording_flag_mirrors_recorder :
  forall (device : PyAudio) (toggle copy : bool) (schedule : list Cli.Event),
    input_available device = true ->
    CliRuns.mirrored (Cli.app (Cli.run (Cli.boot device toggle copy) schedule)).
Proof.
  intros device toggle copy schedule Hmic.
  apply (@cli_run_invariant
           (fun s =>
              input_available (_audio (Cli._recorder (Cli.app s))) = true
              /\ _on_status_change (Cli._recorder (Cli.app s)) = true
              /\ CliRuns.mirrored (Cli.app s))).
  - apply mirrored_step.
  - unfold CliRuns.mirrored. cbn. auto.
Qed.

Lemma recording_flag_mirrors_recorder_witness :
  CliRuns.mirrored (Cli.app Examples.transcribing).
Proof.
  apply (@recording_flag_mirrors_recorder Examples.mic false true
                                          Examples.to_gateway).
  reflexivity.
Defined.

Lemma count_app : forall A (f : A -> bool) (l l' : list A),
  List.length (filter f (l ++ l'))
  = (List.length (filter f l) + List.length (filter f l'))%nat.
Proof. intros. now rewrite filter_app, length_app. Qed.

Lemma count_replace_nth : forall A (f : A -> bool) (l : list A) n x y,
  nth_error l n = Some x ->
  (List.length (filter f (Cli.replace_nth n y l)) + (if f x then 1 else 0)
   = List.length (filter f l) + (if f y then 1 else 0))%nat.
Proof.
  induction l as [|h t IH]; intros n x y Hn.
  - destruct n; discriminate.
  - destruct n as [|n]; cbn in Hn.
    + inversion Hn; subst. cbn. destruct (f x), (f y); cbn; lia.
    + cbn. specialize (IH n x y Hn). destruct (f h); cbn; lia.
Qed.

Lemma no_long_audio_in_spawned : forall effects,
  filter CliRuns.holds_long_audio (Cli.spawned effects) = [].
Proof.
  induction effects as [|e rest IH]; [reflexivity|].
  destruct e; cbn; exact IH.
Qed.

Lemma calls_step : forall s ev,
  (CliRuns.gateway_calls (Cli.log s) + CliRuns.about_to_transcribe s
   + CliRuns.capturing s <= CliRuns.start_calls (Cli.log s))%nat ->
  (CliRuns.gateway_calls (Cli.log (Cli.exec s ev))
   + CliRuns.about_to_transcribe (Cli.exec s ev)
   + CliRuns.capturing (Cli.exec s ev)
   <= CliRuns.start_calls (Cli.log (Cli.exec s ev)))%nat.
Proof.
  intros [a th lg] ev.
  unfold CliRuns.gateway_calls, CliRuns.start_calls,
    CliRuns.about_to_transcribe, CliRuns.capturing.
  destruct a as [tg cp rc pr last r ctrl sp].
  destruct r as [[mic term] st fr cap scb ccb].
  cbn [Cli.app Cli.threads Cli.log Cli._recorder _is_recording]. intro H.
  destruct ev as [[key|key|in_data]|tid reply]; unfold Cli.exec, Cli.step.
  - destruct key, tg, rc, pr, ctrl, sp, cap, mic, scb; cbn;
      rewrite ?count_app, ?no_long_audio_in_spawned, ?app_nil_r; cbn; lia.
  - destruct key, tg, rc; cbn;
      rewrite ?count_app, ?no_long_audio_in_spawned, ?app_nil_r; cbn; lia.
  - destruct cap; cbn; rewrite ?app_nil_r; lia.
  - cbn [Cli.threads Cli.app Cli.log].
    destruct (nth_error th tid) as [pc|] eqn:Hpc; [|cbn; lia].
    pose proof (fun y => @count_replace_nth _ CliRuns.holds_long_audio
                           th tid pc y Hpc) as Hth.
    destruct pc as [| | |wav|wav|e0| | |e].
    + specialize (Hth (if rc then Cli.AtSetProcessing else Cli.Finished)).
      destruct rc; cbn in *; rewrite ?count_app, ?app_nil_r; cbn; lia.
    + specialize (Hth Cli.AtStop). cbn in *.
      rewrite ?count_app, ?app_nil_r; cbn; lia.
    + destruct cap.
      * destruct st; cbn;
          match goal with
          | |- context [_frames_to_wav ?rec] =>
              destruct (_frames_to_wav rec) as [wav|e]
          end.
        all: try (specialize (Hth (Cli.AfterStop wav)); destruct scb;
                  cbn -[Z.ltb] in *; rewrite ?count_app; cbn -[Z.ltb];
                  destruct (1000 <? blen wav); cbn in *; lia).
        all: specialize (Hth (Cli.Died e)); destruct scb; cbn in *;
          rewrite ?count_app; cbn; lia.
      * specialize (Hth (Cli.AfterStop [])). cbn in *.
        rewrite ?count_app; cbn; lia.
    + destruct (1000 <? blen wav) eqn:L.
      * specialize (Hth (Cli.InGateway wav)). cbn -[Z.ltb] in *.
        rewrite L in *. cbn. rewrite ?count_app; cbn; lia.
      * specialize (Hth Cli.AtClear). cbn -[Z.ltb] in *.
        rewrite L in *. cbn. rewrite ?count_app, ?app_nil_r; cbn; lia.
    + destruct reply as [text|e].
      * specialize (Hth Cli.AtClear). cbn in *.
        destruct (cp && Cli.truthy text);
          rewrite ?count_app, ?app_nil_r; cbn; lia.
      * specialize (Hth (Cli.AtPrint e)). cbn in *.
        rewrite ?count_app, ?app_nil_r; cbn; lia.
    + destruct reply as [text|e].
      * specialize (Hth Cli.AtClear). cbn in *.
        rewrite ?count_app, ?app_nil_r; cbn; lia.
      * specialize (Hth (Cli.Died e)). cbn in *.
        rewrite ?count_app, ?app_nil_r; cbn; lia.
    + specialize (Hth Cli.Finished). cbn in *.
      rewrite ?count_app, ?app_nil_r; cbn; lia.
    + specialize (Hth Cli.Finished). cbn in *.
      rewrite ?count_app, ?app_nil_r; cbn; lia.
    + specialize (Hth (Cli.Died e)). cbn in *.
      rewrite ?count_app, ?app_nil_r; cbn; lia.
Qed.

(** X4: under every schedule, in either mode and whatever the microphone
    does, the terminal front end has entered the speech model at most as
    many times as it has called [recorder.start()]: no capture is ever
    transcribed twice, not even by workers racing for the same [stop()]. *)
Theorem no_more_transcriptions_than_starts :
  forall (device : PyAudio) (toggle copy : bool) (schedule : list Cli.Event),
    let s := Cli.run (Cli.boot device toggle copy) schedule in
    (CliRuns.gateway_calls (Cli.log s) <= CliRuns.start_calls (Cli.log s))%nat.
Proof.
  intros device toggle copy schedule s.
  assert (H : (CliRuns.gateway_calls (Cli.log s)
               + CliRuns.about_to_transcribe s + CliRuns.capturing s
               <= CliRuns.start_calls (Cli.log s))%nat).
  { subst s. apply (@cli_run_invariant _ calls_step). cbn. lia. }
  lia.
Qed.

Lemma fold_status_auto_copy : forall notes a,
  Cli.auto_copy (fold_left Cli._on_recording_status notes a)
  = Cli.auto_copy a.
Proof.
  induction notes as [|n rest IH]; intro a; [reflexivity|].
  cbn [fold_left]. now rewrite IH.
Qed.

Lemma tidy_step : forall copy s ev,
  Cli.auto_copy (Cli.app s) = copy
  /\ forallb (CliRuns.tidy copy) (Cli.log s) = true ->
  Cli.auto_copy (Cli.app (Cli.exec s ev)) = copy
  /\ forallb (CliRuns.tidy copy) (Cli.log (Cli.exec s ev)) = true.
Proof.
  intros copy [a th lg] ev.
  destruct a as [tg cp rc pr last r ctrl sp].
  cbn [Cli.app Cli.log Cli.auto_copy]. intros [-> Hlog].
  destruct ev as [[key|key|in_data]|tid reply]; unfold Cli.exec, Cli.step.
  - destruct key, tg, rc, pr, ctrl, sp; cbn; unfold Cli.settle_call;
      rewrite ?fold_status_auto_copy, ?forallb_app, ?Hlog, ?app_nil_r; auto.
  - destruct key, tg, rc; cbn;
      rewrite ?forallb_app, ?Hlog, ?app_nil_r; auto.
  - cbn. rewrite app_nil_r. auto.
  - cbn [Cli.threads Cli.app Cli.log].
    destruct (nth_error th tid) as [pc|]; [|cbn; auto].
    destruct pc as [| | |wav|wav|e0| | |e]; cbn -[Z.ltb];
      unfold Cli.settle_call;
      rewrite ?fold_status_auto_copy, ?forallb_app, ?Hlog, ?app_nil_r; auto.
    + destruct rc; cbn; rewrite ?forallb_app, ?Hlog, ?app_nil_r; auto.
    + destruct (1000 <? blen wav) eqn:L; cbn -[Z.ltb];
        rewrite ?forallb_app, ?Hlog, ?app_nil_r; cbn -[Z.ltb];
        rewrite ?L; auto.
    + destruct reply as [text|e]; cbn;
        [destruct (copy && Cli.truthy text) eqn:C|]; cbn;
        rewrite ?forallb_app, ?Hlog, ?app_nil_r; cbn; rewrite ?C; auto.
    + destruct reply as [text|e]; cbn;
        rewrite ?forallb_app, ?Hlog, ?app_nil_r; auto.
Qed.

(** X5: under every schedule of a terminal front end built with
    [auto_copy = copy], every payload handed to the speech model is longer
    than 1000 bytes, and the clipboard is written only when [copy] is set
    and then never with an empty text; with [--no-copy] it is never
    written. *)
Theorem log_stays_tidy :
  forall (device : PyAudio) (toggle copy : bool) (schedule : list Cli.Event)
         (e : Cli.Effect),
    In e (Cli.log (Cli.run (Cli.boot device toggle copy) schedule)) ->
    match e with
    | Cli.GatewayInvoked audio_data => 1000 < blen audio_data
    | Cli.Copied text => copy = true /\ text <> EmptyString
    | _ => True
    end.
Proof.
  intros device toggle copy schedule e Hin.
  assert (H : Cli.auto_copy
                (Cli.app (Cli.run (Cli.boot device toggle copy) schedule))
              = copy
              /\ forallb (CliRuns.tidy copy)
                   (Cli.log (Cli.run (Cli.boot device toggle copy) schedule))
                 = true).
  { apply (@cli_run_invariant
             (fun s => Cli.auto_copy (Cli.app s) = copy
                       /\ forallb (CliRuns.tidy copy) (Cli.log s) = true)).
    - apply tidy_step.
    - cbn. auto. }
  destruct H as [_ Hall].
  rewrite forallb_forall in Hall. specialize (Hall e Hin).
  destruct e as [o|o| |audio_data|text|text]; cbn in Hall; auto.
  - now apply Z.ltb_lt.
  - apply andb_true_iff in Hall as [Hc Ht]. split; [exact Hc|].
    intro Hempty. subst text. discriminate.
Qed.

Lemma log_stays_tidy_witness :
  exists audio_data,
    In (Cli.GatewayInvoked audio_data) (Cli.log Examples.transcribing)
    /\ 1000 < blen audio_data.
Proof.
  eexists. split.
  - vm_compute. do 3 right. left. reflexivity.
  - apply (@log_stays_tidy Examples.mic false true Examples.to_gateway
                           (Cli.GatewayInvoked _)).
    vm_compute. do 3 right. left. reflexivity.
Defined.

Lemma broken_mic_step : forall s ev,
  (input_available (_audio (Cli._recorder (Cli.app s))) = false
   /\ Cli._recording (Cli.app s) = false
   /\ Cli._processing (Cli.app s) = false
   /\ Cli.threads s = []
   /\ CliRuns.gateway_calls (Cli.log s) = 0%nat) ->
  (input_available (_audio (Cli._recorder (Cli.app (Cli.exec s ev)))) = false
   /\ Cli._recording (Cli.app (Cli.exec s ev)) = false
   /\ Cli._processing (Cli.app (Cli.exec s ev)) = false
   /\ Cli.threads (Cli.exec s ev) = []
   /\ CliRuns.gateway_calls (Cli.log (Cli.exec s ev)) = 0%nat).
Proof.
  intros [a th lg] ev. unfold CliRuns.gateway_calls.
  destruct a as [tg cp rc pr last r ctrl sp].
  destruct r as [[mic term] st fr cap scb ccb].
  cbn. intros (-> & -> & -> & -> & Hlog).
  destruct ev as [[key|key|in_data]|tid reply]; unfold Cli.exec, Cli.step.
  - destruct key, tg, ctrl, sp, cap; cbn;
      rewrite ?count_app, ?Hlog, ?app_nil_r; auto.
  - destruct key, tg; cbn; rewrite ?count_app, ?Hlog, ?app_nil_r; auto.
  - destruct cap; cbn; rewrite ?app_nil_r; auto.
  - cbn. destruct tid; cbn; auto.
Qed.

(** X6: with a microphone that cannot be opened, the terminal front end
    never leaves phase Idle: under every schedule and in either mode
    [_recording] and [_processing] stay clear, no worker thread is ever
    started and the speech model is never called. *)
Theorem broken_microphone_stays_idle :
  forall (device : PyAudio) (toggle copy : bool) (schedule : list Cli.Event),
    input_available device = false ->
    let s := Cli.run (Cli.boot device toggle copy) schedule in
    Cli.phase (Cli.app s) = Cli.Idle
    /\ Cli.threads s = []
    /\ CliRuns.gateway_calls (Cli.log s) = 0%nat.
Proof.
  intros device toggle copy schedule Hmic s.
  assert (H : input_available (_audio (Cli._recorder (Cli.app s))) = false
              /\ Cli._recording (Cli.app s) = false
              /\ Cli._processing (Cli.app s) = false
              /\ Cli.threads s = []
              /\ CliRuns.gateway_calls (Cli.log s) = 0%nat).
  { subst s. apply (@cli_run_invariant _ broken_mic_step). cbn. auto. }
  destruct H as (_ & Hr & Hp & Ht & Hg).
  unfold Cli.phase. rewrite Hr, Hp. auto.
Qed.

Lemma broken_microphone_stays_idle_witness :
  Cli.phase
    (Cli.app (Cli.run (Cli.boot (mkPyAudio false false) false true)
                      Examples.to_gateway))
  = Cli.Idle.
Proof.
  apply (@broken_microphone_stays_idle (mkPyAudio false false) false true
                                       Examples.to_gateway).
  reflexivity.
Defined.

(** ** Keys *)

(** X7: a key the handlers do not recognise is not ignored while Ctrl and
    Space are both held: its press does exactly what another press of Space
    does (it starts a capture if none runs and nothing is processing, and in
    toggle mode it launches the stop worker of a running capture).  When
    the chord is not complete, its press changes nothing; its release never
    does. *)
Theorem unknown_key_press_acts_as_chord :
  forall (a : Cli.ListenApp) (name : string),
    (Cli._ctrl_pressed a && Cli._space_pressed a = true ->
     Cli._on_key_press a (Cli.other_key name) = Cli._on_key_press a Cli.space)
    /\ (Cli._ctrl_pressed a && Cli._space_pressed a = false ->
        Cli._on_key_press a (Cli.other_key name) = (a, []))
    /\ Cli._on_key_release a (Cli.other_key name) = (a, []).
Proof.
  intros a name. destruct a as [tg cp rc pr last r ctrl sp]. cbn.
  split; [|split; [|reflexivity]].
  - intro H. apply andb_true_iff in H as [-> ->]. reflexivity.
  - intro H. unfold Cli._on_key_press. cbn. now rewrite H.
Qed.

Lemma unknown_key_press_acts_as_chord_witness :
  Cli._on_key_press
    (Cli.app (Cli.run Examples.hold_mode
                      [Cli.In (Cli.Press Cli.ctrl_l);
                       Cli.In (Cli.Press Cli.space)]))
    (Cli.other_key "a")
  = Cli._on_key_press
      (Cli.app (Cli.run Examples.hold_mode
                        [Cli.In (Cli.Press Cli.ctrl_l);
                         Cli.In (Cli.Press Cli.space)]))
      Cli.space
  /\ Cli._on_key_press (Cli.app Examples.hold_mode) (Cli.other_key "a")
     = (Cli.app Examples.hold_mode, []).
Proof.
  split.
  - destruct (@unknown_key_press_acts_as_chord
                (Cli.app (Cli.run Examples.hold_mode
                                  [Cli.In (Cli.Press Cli.ctrl_l);
                                   Cli.In (Cli.Press Cli.space)])) "a")
      as (Hheld & _).
    apply Hheld. reflexivity.
  - destruct (@unknown_key_press_acts_as_chord
                (Cli.app Examples.hold_mode) "a") as (_ & Hopen & _).
    apply Hopen. reflexivity.
Defined.

(** X8: in toggle mode a key release never stops or starts anything, and
    with Ctrl held every press of Space, the first one and each repeated
    one alike, flips the recording state once the worker it may start has
    run to its end, the console printing whatever error the speech model
    raises: a running capture is stopped and handed to the worker, an idle
    front end starts capturing. *)
Theorem toggle_mode_flips_on_every_press :
  forall (console : string -> outcome unit)
         (gateway : bytes -> outcome string) (a : Cli.ListenApp),
    (forall audio_data e,
        gateway audio_data = Raised e ->
        console (Cli.error_markup e) = Returned tt) ->
    Cli.toggle_mode a = true ->
    Cli._processing a = false ->
    Cli._ctrl_pressed a = true ->
    Cli._recording a = _is_recording (Cli._recorder a) ->
    input_available (_audio (Cli._recorder a)) = true ->
    _on_status_change (Cli._recorder a) = true ->
    36 + InputGate.buffered a <= Wave.RIFF_LIMIT ->
    let a' := fst (Cli.quiet_step console gateway a (Cli.Press Cli.space)) in
    Cli._recording a' = negb (Cli._recording a)
    /\ _is_recording (Cli._recorder a') = negb (Cli._recording a)
    /\ Cli._processing a' = false
    /\ (forall key,
           snd (Cli._on_key_release a key) = []
           /\ Cli._recording (fst (Cli._on_key_release a key))
              = Cli._recording a
           /\ Cli._recorder (fst (Cli._on_key_release a key))
              = Cli._recorder a).
Proof.
  intros console gateway a Hprint Htg Hpr Hctrl Hmir Hmic Hcb Hfit a'.
  split; [|split; [|split]].
  4: { intro key. unfold Cli._on_key_release.
       destruct key; cbn; rewrite ?Htg; cbn; auto. }
  all: subst a'; unfold Cli.quiet_step, Cli.handle, Cli._on_key_press.
  all: set (a1 := Cli.set_space_pressed true a).
  all: assert (H1 : Cli._ctrl_pressed a1 && Cli._space_pressed a1 = true)
      by (cbn; now rewrite Hctrl).
  all: rewrite H1; change (Cli.toggle_mode a1) with (Cli.toggle_mode a);
    rewrite Htg; change (Cli._recording a1) with (Cli._recording a).
  all: destruct (Cli._recording a) eqn:Hrec.
  all: try (destruct (@worker_runs_to_end console gateway a1)
              as (a2 & effects & Hrun & _ & _ & Hrc & Hp2 & Hr2 & _);
            [exact Hprint | exact Hrec | symmetry; exact Hmir | exact Hcb
            | unfold InputGate.buffered in Hfit; rewrite <- Hmir in Hfit;
              exact Hfit |];
            cbn [Cli.spawned fold_left fst snd]; rewrite Hrun;
            cbn [fst snd]).
  all: try (rewrite (@start_recording_idle a1);
            [| exact Hrec | exact Hpr | symmetry; exact Hmir | exact Hmic
             | exact Hcb];
            cbn [Cli.spawned fold_left fst snd]).
  - exact Hrc.
  - reflexivity.
  - rewrite Hr2.
    destruct (stop_while_recording (Cli._recorder a1)) as (_ & Hoff & _);
      [symmetry; exact Hmir | exact Hoff].
  - cbn. symmetry in Hmir.
    now destruct (start_when_idle _ Hmir) as (_ & Hon & _).
  - exact Hp2.
  - exact Hpr.
Qed.

Lemma toggle_mode_flips_on_every_press_witness :
  let held := Cli.set_ctrl_pressed true
                (Cli.__init__ Examples.mic true true) in
  let once := fst (Cli.quiet_step Examples.prints_all Examples.hears_hello held
                                  (Cli.Press Cli.space)) in
  Cli._recording once = true.
Proof.
  destruct (@toggle_mode_flips_on_every_press
              Examples.prints_all Examples.hears_hello
              (Cli.set_ctrl_pressed true
                 (Cli.__init__ Examples.mic true true)))
    as (Hflip & _).
  - reflexivity.
  - reflexivity.
  - reflexivity.
  - reflexivity.
  - reflexivity.
  - reflexivity.
  - reflexivity.
  - cbn. unfold Wave.RIFF_LIMIT. lia.
  - exact Hflip.
Defined.

(** ** One push-to-talk gesture from press to clipboard *)

Lemma quiet_run_app : forall console gateway l1 l2 a,
  Cli.quiet_run console gateway a (l1 ++ l2)
  = Cli.quiet_run console gateway a l1
    ++ Cli.quiet_run console gateway (CliRuns.quiet_end console gateway a l1) l2.
Proof.
  induction l1 as [|i rest IH]; intros l2 a; [reflexivity|].
  cbn [app Cli.quiet_run]. unfold CliRuns.quiet_end. cbn [fold_left].
  destruct (Cli.quiet_step console gateway a i) as [a' effects]. cbn [fst].
  now rewrite IH.
Qed.

Lemma quiet_end_app : forall console gateway l1 l2 a,
  CliRuns.quiet_end console gateway a (l1 ++ l2)
  = CliRuns.quiet_end console gateway (CliRuns.quiet_end console gateway a l1) l2.
Proof. intros. unfold CliRuns.quiet_end. apply fold_left_app. Qed.

Lemma quiet_step_frame : forall console gateway a c,
  _is_recording (Cli._recorder a) = true ->
  Cli.quiet_step console gateway a (Cli.Frame c)
  = (Cli.set_recorder
       (set_frames (_frames (Cli._recorder a) ++ [c]) (Cli._recorder a)) a,
     []).
Proof.
  intros console gateway a c Hrec.
  unfold Cli.quiet_step, Cli.handle, _audio_callback. now rewrite Hrec.
Qed.

(** Chunks arriving while a capture runs are buffered in order and have no
    other effect. *)
Lemma quiet_chunks : forall console gateway chunks a,
  _is_recording (Cli._recorder a) = true ->
  CliRuns.quiet_end console gateway a (map Cli.Frame chunks)
  = Cli.set_recorder
      (set_frames (_frames (Cli._recorder a) ++ chunks) (Cli._recorder a)) a
  /\ List.concat (Cli.quiet_run console gateway a (map Cli.Frame chunks)) = [].
Proof.
  induction chunks as [|c rest IH]; intros a Hrec.
  - cbn. rewrite app_nil_r. destruct a as [tg cp rc pr last r ctrl sp].
    destruct r. split; reflexivity.
  - cbn [map].
    change (CliRuns.quiet_end console gateway a (Cli.Frame c :: map Cli.Frame rest))
      with (CliRuns.quiet_end console gateway
              (fst (Cli.quiet_step console gateway a (Cli.Frame c)))
              (map Cli.Frame rest)).
    cbn [Cli.quiet_run]. rewrite (quiet_step_frame console gateway a c Hrec).
    cbn [fst].
    destruct (IH (Cli.set_recorder
                    (set_frames (_frames (Cli._recorder a) ++ [c])
                                (Cli._recorder a)) a)) as [Hend Hrun];
      [exact Hrec|].
    rewrite Hend. cbn [List.concat app]. rewrite Hrun.
    split; [|reflexivity]. cbn. now rewrite <- app_assoc.
Qed.

(** What a stop worker does, step by step, when it finds a capture long
    enough for the model, nothing interferes and the console prints the
    model's errors. *)
Lemma worker_on_long_capture : forall console gateway a h,
  (forall audio_data e,
      gateway audio_data = Raised e ->
      console (Cli.error_markup e) = Returned tt) ->
  Cli._recording a = true ->
  _is_recording (Cli._recorder a) = true ->
  _on_status_change (Cli._recorder a) = true ->
  36 + blen (join (_frames (Cli._recorder a))) <= Wave.RIFF_LIMIT ->
  Wave.write CHANNELS SAMPLE_SIZE SAMPLE_RATE (join (_frames (Cli._recorder a)))
  = Returned h ->
  1000 < blen h ->
  let stopped := Cli.set_recording false
                   (Cli.set_recorder (after (stop (Cli._recorder a)))
                      (Cli.set_processing true a)) in
  Cli._stop_recording_and_transcribe console gateway a
  = (Cli.set_processing false
       match gateway h with
       | Returned text => Cli.set_last_transcription text stopped
       | Raised _ => stopped
       end,
     Cli.Finished,
     [Cli.CalledStop (Returned h); Cli.GatewayInvoked h]
     ++ match gateway h with
        | Returned text =>
            if Cli.auto_copy a && Cli.truthy text
            then [Cli.Copied text] else []
        | Raised e => [Cli.Printed (Cli.error_markup e)]
        end).
Proof.
  intros console gateway a h Hprint Hrec Hcap Hcb Hfit Hw Hlong stopped.
  destruct (stop_while_recording _ Hcap)
    as (_ & _ & _ & _ & _ & Hres & Hnote).
  rewrite Hw in Hres. unfold _notify_status in Hnote. rewrite Hcb in Hnote.
  apply Z.ltb_lt in Hlong.
  unfold Cli._stop_recording_and_transcribe.
  cbn [Cli.drive Cli.worker_step]. rewrite Hrec.
  cbn [Cli.drive Cli.worker_step app Cli._recorder Cli.set_processing].
  rewrite Hres. unfold Cli.settle_call. rewrite Hnote.
  cbn [fold_left Cli._on_recording_status String.eqb Ascii.eqb Bool.eqb].
  cbn [Cli.drive Cli.worker_step app]. rewrite Hlong.
  cbn [Cli.drive Cli.worker_step app].
  destruct (gateway h) as [text|e] eqn:Hreply;
    cbn [Cli.drive Cli.worker_step app];
    try rewrite (Hprint h e Hreply);
    cbn [bind Cli.drive Cli.worker_step app];
    rewrite ?app_nil_r; reflexivity.
Qed.

Lemma quiet_release_while_recording : forall console gateway a,
  Cli.toggle_mode a = false ->
  Cli._recording a = true ->
  Cli.quiet_step console gateway a (Cli.Release Cli.space)
  = (fst (fst (Cli._stop_recording_and_transcribe console gateway
                 (Cli.set_space_pressed false a))),
     Cli.Spawned
     :: snd (Cli._stop_recording_and_transcribe console gateway
               (Cli.set_space_pressed false a))).
Proof.
  intros console gateway a Htg Hrec.
  unfold Cli.quiet_step, Cli.handle, Cli._on_key_release.
  change (Cli.toggle_mode (Cli.set_space_pressed false a))
    with (Cli.toggle_mode a).
  change (Cli._recording (Cli.set_space_pressed false a))
    with (Cli._recording a).
  rewrite Htg, Hrec. cbn [negb andb Cli.spawned fold_left fst snd].
  destruct (Cli._stop_recording_and_transcribe console gateway
              (Cli.set_space_pressed false a)) as [[a2 pc] more].
  reflexivity.
Qed.

(** X9: one push-to-talk gesture with a microphone that opens and each step
    left to finish: Ctrl down, Space down, any chunks totalling more than
    956 bytes, Space up.  The front end calls [start()] once, launches one
    worker, and the worker stops the recorder and hands the speech model
    exactly the 44-byte header followed by the chunks in order.  The
    model's text becomes [_last_transcription] and is copied when
    [auto_copy] is set and the text is not empty; if the model raises, the
    error is printed, by a console that accepts its markup, and the text
    stays empty.  Either way the phase is Idle again. *)
Theorem push_to_talk_gesture :
  forall (console : string -> outcome unit)
         (gateway : bytes -> outcome string) (device : PyAudio) (copy : bool)
         (chunks : list bytes),
    (forall audio_data e,
        gateway audio_data = Raised e ->
        console (Cli.error_markup e) = Returned tt) ->
    input_available device = true ->
    956 < blen (join chunks) ->
    36 + blen (join chunks) <= Wave.RIFF_LIMIT ->
    let inputs := [Cli.Press Cli.ctrl_l; Cli.Press Cli.space]
                  ++ map Cli.Frame chunks ++ [Cli.Release Cli.space] in
    let boot := Cli.__init__ device false copy in
    exists h,
      Wave.header CHANNELS SAMPLE_SIZE SAMPLE_RATE (blen (join chunks))
      = Returned h
      /\ List.concat (Cli.quiet_run console gateway boot inputs)
         = [Cli.CalledStart (Returned tt); Cli.Spawned;
            Cli.CalledStop (Returned (h ++ join chunks));
            Cli.GatewayInvoked (h ++ join chunks)]
           ++ match gateway (h ++ join chunks) with
              | Returned text =>
                  if copy && Cli.truthy text then [Cli.Copied text] else []
              | Raised e => [Cli.Printed (Cli.error_markup e)]
              end
      /\ Cli.phase (CliRuns.quiet_end console gateway boot inputs) = Cli.Idle
      /\ Cli._last_transcription (CliRuns.quiet_end console gateway boot inputs)
         = match gateway (h ++ join chunks) with
           | Returned text => text
           | Raised _ => EmptyString
           end.
Proof.
  intros console gateway [mic term] copy chunks Hprint Hmic Hlong Hfit
         inputs boot.
  cbn in Hmic. subst mic.
  destruct (write_fits (join chunks) Hfit) as (h & Hh & Hh44 & Hw).
  exists h. split; [exact Hh|].
  set (held := CliRuns.quiet_end console gateway boot
                 [Cli.Press Cli.ctrl_l; Cli.Press Cli.space]).
  assert (Hheld : _is_recording (Cli._recorder held) = true) by reflexivity.
  destruct (quiet_chunks console gateway chunks held Hheld) as [Hend Hquiet].
  set (full := CliRuns.quiet_end console gateway held (map Cli.Frame chunks)) in *.
  set (released := Cli.set_space_pressed false full).
  assert (Hfacts : Cli.toggle_mode full = false
                   /\ Cli._recording full = true
                   /\ _is_recording (Cli._recorder released) = true
                   /\ _on_status_change (Cli._recorder released) = true
                   /\ _frames (Cli._recorder released) = chunks
                   /\ Cli.auto_copy released = copy
                   /\ Cli._last_transcription released = EmptyString).
  { subst released. rewrite Hend. repeat split; reflexivity. }
  destruct Hfacts as (Htg & Hrec & Hcap & Hcb & Hfr & Hcp & Hlt).
  assert (Hworker := @worker_on_long_capture console gateway released
                       (h ++ join chunks)).
  rewrite Hfr, Hcp in Hworker.
  specialize (Hworker Hprint Hrec Hcap Hcb Hfit Hw).
  rewrite blen_app, Hh44 in Hworker. specialize (Hworker ltac:(lia)).
  cbn zeta in Hworker.
  assert (Hlast := @quiet_release_while_recording console gateway full Htg Hrec).
  fold released in Hlast. rewrite Hworker in Hlast. cbn [fst snd] in Hlast.
  subst inputs.
  rewrite (@quiet_run_app console gateway [Cli.Press Cli.ctrl_l; Cli.Press Cli.space]).
  rewrite (@quiet_end_app console gateway [Cli.Press Cli.ctrl_l; Cli.Press Cli.space]).
  fold held.
  rewrite quiet_run_app, quiet_end_app. fold full.
  rewrite !concat_app, Hquiet.
  change (CliRuns.quiet_end console gateway full [Cli.Release Cli.space])
    with (fst (Cli.quiet_step console gateway full (Cli.Release Cli.space))).
  assert (Hone : Cli.quiet_run console gateway full [Cli.Release Cli.space]
                 = [snd (Cli.quiet_step console gateway full
                                        (Cli.Release Cli.space))]).
  { cbn [Cli.quiet_run].
    now destruct (Cli.quiet_step console gateway full (Cli.Release Cli.space)). }
  rewrite Hone, Hlast. cbn [fst snd List.concat app].
  split; [|split].
  - rewrite app_nil_r. reflexivity.
  - unfold Cli.phase.
    destruct (gateway (h ++ join chunks)); reflexivity.
  - destruct (gateway (h ++ join chunks)); cbn; [reflexivity | exact Hlt].
Qed.

Lemma push_to_talk_gesture_witness :
  Cli._last_transcription
    (CliRuns.quiet_end Examples.prints_all Examples.hears_hello
       (Cli.__init__ Examples.mic false true)
       ([Cli.Press Cli.ctrl_l; Cli.Press Cli.space]
        ++ map Cli.Frame [Examples.loud] ++ [Cli.Release Cli.space]))
  = "hello"%string.
Proof.
  destruct (@push_to_talk_gesture Examples.prints_all Examples.hears_hello
                                  Examples.mic true [Examples.loud])
    as (h & _ & _ & _ & Hlast).
  - reflexivity.
  - reflexivity.
  - vm_compute. reflexivity.
  - unfold Wave.RIFF_LIMIT. cbn. lia.
  - exact Hlast.
Defined.

(** ** Every schedule of the window *)

Lemma gui_run_invariant : forall (P : GuiSystem.System -> Prop),
  (forall s ev, P s -> P (GuiSystem.exec s ev)) ->
  forall schedule s, P s -> P (GuiSystem.run s schedule).
Proof.
  intros P Hstep. induction schedule as [|ev rest IH]; intros s Hs.
  - exact Hs.
  - apply (IH (GuiSystem.exec s ev)). now apply Hstep.
Qed.

Lemma count_nth_positive : forall A (f : A -> bool) (l : list A) n x,
  nth_error l n = Some x -> f x = true ->
  (1 <= List.length (filter f l))%nat.
Proof.
  induction l as [|h t IH]; intros n x Hn Hx.
  - destruct n; discriminate.
  - destruct n as [|n]; cbn in Hn.
    + inversion Hn; subst. cbn. rewrite Hx. cbn. lia.
    + cbn. specialize (IH n x Hn Hx). destruct (f h); cbn; lia.
Qed.

Lemma count_le : forall A (f g : A -> bool) (l : list A),
  (forall x, f x = true -> g x = true) ->
  (List.length (filter f l) <= List.length (filter g l))%nat.
Proof.
  intros A f g l H. induction l as [|h t IH]; [cbn; lia|].
  cbn. destruct (f h) eqn:F.
  - rewrite (H h F). cbn. lia.
  - destruct (g h); cbn; lia.
Qed.

Lemma gui_step : forall s ev,
  ((GuiSystem.live s + List.length (GuiSystem.idle s) <= 1)%nat
   /\ (Gui._processing (GuiSystem.window s) = false ->
       (GuiSystem.live s + List.length (GuiSystem.idle s) = 0)%nat)) ->
  ((GuiSystem.live (GuiSystem.exec s ev)
    + List.length (GuiSystem.idle (GuiSystem.exec s ev)) <= 1)%nat
   /\ (Gui._processing (GuiSystem.window (GuiSystem.exec s ev)) = false ->
       (GuiSystem.live (GuiSystem.exec s ev)
        + List.length (GuiSystem.idle (GuiSystem.exec s ev)) = 0)%nat)).
Proof.
  intros [g th q lg] ev. unfold GuiSystem.live.
  destruct g as [cp r rc pr status res sens].
  cbn [GuiSystem.window GuiSystem.threads GuiSystem.idle Gui._processing].
  intros [Hle Hzero].
  destruct ev as [|in_data|tid reply|]; unfold GuiSystem.exec.
  - destruct pr, rc; cbn; rewrite ?count_app, ?app_nil_r; cbn;
      try (specialize (Hzero eq_refl)); split; intros; try discriminate; lia.
  - cbn. auto.
  - cbn [GuiSystem.window GuiSystem.threads GuiSystem.idle GuiSystem.log].
    destruct (nth_error th tid) as [pc|] eqn:Hpc; [|cbn; auto].
    pose proof (fun y => @count_replace_nth _ GuiSystem.alive th tid pc y Hpc)
      as Hth.
    pose proof (@count_nth_positive _ GuiSystem.alive th tid pc Hpc) as Hpos.
    destruct pc as [|wav|wav| |e].
    + cbn. destruct (result (stop r)) as [wav|e].
      * specialize (Hth (Gui.AfterStop wav)). cbn in *.
        rewrite ?length_app; cbn. split; [lia|]. intro Hp.
        specialize (Hzero Hp). specialize (Hpos eq_refl). lia.
      * specialize (Hth (Gui.Died e)). cbn in *.
        rewrite ?length_app; cbn. split; [lia|]. intro Hp.
        specialize (Hzero Hp). specialize (Hpos eq_refl). lia.
    + destruct (blen wav <? 1000) eqn:L; cbn -[Z.ltb]; rewrite L; cbn.
      * specialize (Hth Gui.Finished). cbn in *.
        rewrite ?length_app; cbn. split; [lia|]. intro Hp.
        specialize (Hzero Hp). specialize (Hpos eq_refl). lia.
      * specialize (Hth (Gui.InGateway wav)). cbn in *.
        rewrite ?length_app; cbn. split; [lia|]. intro Hp.
        specialize (Hzero Hp). specialize (Hpos eq_refl). lia.
    + specialize (Hth Gui.Finished).
      destruct reply as [text|e]; cbn in *;
        [destruct (cp && Cli.truthy (Gui.strip text))|]; cbn;
        rewrite ?length_app; cbn; (split; [lia|]); intro Hp;
        specialize (Hzero Hp); specialize (Hpos eq_refl); lia.
    + specialize (Hth Gui.Finished). cbn in *.
      rewrite ?length_app; cbn. split; [lia|]. intro Hp.
      specialize (Hzero Hp). lia.
    + specialize (Hth (Gui.Died e)). cbn in *.
      rewrite ?length_app; cbn. split; [lia|]. intro Hp.
      specialize (Hzero Hp). lia.
  - cbn [GuiSystem.idle]. destruct q as [|text rest]; [cbn; auto|].
    cbn in *. split; [lia|]. intros _. lia.
Qed.

(** X10: in the window, under every schedule of clicks, audio chunks, worker
    steps and idle callbacks, and from whatever state the window starts in,
    at most one worker is running or waiting for its completion callback,
    so at most one call of the speech model is in flight; and while one is,
    [_processing] is set. *)
Theorem window_is_single_flight :
  forall (g : Gui.ListenGUI) (schedule : list GuiSystem.Event),
    let s := GuiSystem.run (GuiSystem.boot g) schedule in
    (GuiSystem.live s + List.length (GuiSystem.idle s) <= 1)%nat
    /\ (GuiSystem.in_flight s <= 1)%nat
    /\ (GuiSystem.in_flight s = 1%nat ->
        Gui._processing (GuiSystem.window s) = true).
Proof.
  intros g schedule s.
  assert (H : (GuiSystem.live s + List.length (GuiSystem.idle s) <= 1)%nat
              /\ (Gui._processing (GuiSystem.window s) = false ->
                  (GuiSystem.live s + List.length (GuiSystem.idle s)
                   = 0)%nat)).
  { subst s. apply (@gui_run_invariant _ gui_step). cbn. split; intros; lia. }
  destruct H as [Hle Hzero].
  assert (Hin : (GuiSystem.in_flight s <= GuiSystem.live s)%nat).
  { unfold GuiSystem.in_flight, GuiSystem.live. apply count_le.
    intros pc Hpc. destruct pc; cbn in *; congruence. }
  split; [exact Hle|]. split; [lia|].
  intro Hone. destruct (Gui._processing (GuiSystem.window s)); [reflexivity|].
  specialize (Hzero eq_refl). lia.
Qed.

Transparent Wave.write.

(** ** What the window shows *)

(** X11: when the speech model raises, the window worker ends normally and
    queues the completion callback with the text "Error: " followed by the
    cause; the callback clears [_processing], makes the button sensitive
    again, sets the status to "Ready" and shows that text as it is, without
    quotes, in place of the previous result. *)
Theorem window_shows_model_error :
  forall (g : Gui.ListenGUI) (audio_data : bytes) (e : Exn),
    let text := ("Error: " ++ Cli.error_text e)%string in
    let done := Gui._on_transcription_complete g text in
    Gui.worker_step (Raised e) g (Gui.InGateway audio_data)
    = (g, Gui.Finished, [Gui.IdleAdd text])
    /\ Gui._processing done = false
    /\ Gui.record_button_sensitive done = true
    /\ Gui.status_label done = "Ready"%string
    /\ Gui.result_label done = text
    /\ Gui._recording done = Gui._recording g
    /\ Gui._recorder done = Gui._recorder g.
Proof.
  intros g audio_data e text done. repeat split; reflexivity.
Qed.

Lemma lstrip_blank : forall s,
  forallb Gui.is_space (list_ascii_of_string s) = true ->
  Gui.lstrip s = EmptyString.
Proof.
  induction s as [|c rest IH]; [reflexivity|].
  cbn [list_ascii_of_string forallb Gui.lstrip]. intro H.
  apply andb_true_iff in H as [Hc Hrest]. rewrite Hc. now apply IH.
Qed.

(** X12: when the speech model returns, the window worker strips the text,
    copies it if [auto_copy] is set and it is not empty, and queues the
    completion callback with it.  The callback clears [_processing]; a text
    that is empty, as every all-blank transcription is after stripping,
    leaves the result label empty with status "Ready"; a text that starts
    with "Error:" is shown without quotes under status "Ready" although it
    may have been copied; any other text is shown between quotes. *)
Theorem window_shows_transcription :
  forall (g : Gui.ListenGUI) (audio_data : bytes) (result_text : string),
    let text := Gui.strip result_text in
    let done := Gui._on_transcription_complete g text in
    Gui.worker_step (Returned result_text) g (Gui.InGateway audio_data)
    = (g, Gui.Finished,
       (if Gui.auto_copy g && Cli.truthy text then [Gui.Copied text] else [])
       ++ [Gui.IdleAdd text])
    /\ Gui._processing done = false
    /\ Gui.record_button_sensitive done = true
    /\ (forallb Gui.is_space (list_ascii_of_string result_text) = true ->
        text = EmptyString)
    /\ (text = EmptyString ->
        Gui.result_label done = EmptyString
        /\ Gui.status_label done = "Ready"%string)
    /\ (String.prefix "Error:" text = true ->
        Gui.result_label done = text
        /\ Gui.status_label done = "Ready"%string)
    /\ (text <> EmptyString -> String.prefix "Error:" text = false ->
        Gui.result_label done = (Gui.quote ++ text ++ Gui.quote)%string
        /\ Gui.status_label done
           = (if Gui.auto_copy g then "✓ Copied to clipboard"
              else "Ready")%string).
Proof.
  intros g audio_data result_text text done.
  split; [reflexivity|]. split; [|split].
  - subst done. unfold Gui._on_transcription_complete.
    destruct (Cli.truthy text && negb (String.prefix "Error:" text));
      reflexivity.
  - subst done. unfold Gui._on_transcription_complete.
    destruct (Cli.truthy text && negb (String.prefix "Error:" text));
      reflexivity.
  - split; [|split; [|split]].
    + intro Hblank. subst text. unfold Gui.strip.
      now rewrite (lstrip_blank _ Hblank).
    + intro Hempty. subst done. rewrite Hempty. split; reflexivity.
    + intro Herr. subst done. unfold Gui._on_transcription_complete.
      rewrite Herr, andb_false_r. split; reflexivity.
    + intros Hne Hok. subst done. unfold Gui._on_transcription_complete.
      rewrite Hok. destruct text; [contradiction|]. cbn.
      split; reflexivity.
Qed.

Lemma window_shows_transcription_witness :
  Gui.result_label
    (Gui._on_transcription_complete Examples.window_processing
                                    (Gui.strip "  hello world "))
  = (Gui.quote ++ "hello world" ++ Gui.quote)%string
  /\ Gui.strip "   " = EmptyString
  /\ Gui.result_label
       (Gui._on_transcription_complete Examples.window_processing
                                       (Gui.strip "Error: 404 "))
     = "Error: 404"%string
  /\ Gui.worker_step (Returned Examples.ideographic_space)
                     Examples.window_processing (Gui.InGateway [])
     = (Examples.window_processing, Gui.Finished,
        [Gui.IdleAdd EmptyString]).
Proof.
  split; [|split; [|split]].
  - destruct (@window_shows_transcription Examples.window_processing []
                                          "  hello world ")
      as (_ & _ & _ & _ & _ & _ & Hshown).
    destruct Hshown as [Hlabel _]; [discriminate | reflexivity |].
    exact Hlabel.
  - destruct (@window_shows_transcription Examples.window_processing []
                                          "   ")
      as (_ & _ & _ & Hblank & _).
    apply Hblank. reflexivity.
  - destruct (@window_shows_transcription Examples.window_processing []
                                          "Error: 404 ")
      as (_ & _ & _ & _ & _ & Herr & _).
    destruct Herr as [Hlabel _]; [reflexivity|]. exact Hlabel.
  - destruct (@window_shows_transcription Examples.window_processing []
                                          Examples.ideographic_space)
      as (Hstep & _).
    rewrite Hstep. reflexivity.
Defined.

(** X13: the window recovers from a microphone that cannot be opened.  The
    first click sets [_recording] and the failed [start()] leaves the
    recorder flagged as capturing; the second click then takes the stop
    path, the worker stops the recorder, gets the bare 44-byte header, calls
    no model and queues "(no audio captured)"; after the completion
    callback nothing is recording or processing and the button is
    sensitive. *)
Theorem window_recovers_from_failed_start :
  forall (g : Gui.ListenGUI) (reply reply' : outcome string),
    Gui._processing g = false ->
    Gui._recording g = false ->
    _is_recording (Gui._recorder g) = false ->
    input_available (_audio (Gui._recorder g)) = false ->
    let s := GuiSystem.run (GuiSystem.boot g)
               [GuiSystem.Click; GuiSystem.Click;
                GuiSystem.Step 0 reply; GuiSystem.Step 0 reply';
                GuiSystem.Idle] in
    exists h,
      blen h = 44
      /\ GuiSystem.log s
         = [Gui.CalledStart (Raised DeviceError); Gui.Spawned;
            Gui.CalledStop (Returned h); Gui.IdleAdd "(no audio captured)"]
      /\ Gui._recording (GuiSystem.window s) = false
      /\ Gui._processing (GuiSystem.window s) = false
      /\ _is_recording (Gui._recorder (GuiSystem.window s)) = false
      /\ Gui.record_button_sensitive (GuiSystem.window s) = true
      /\ Gui.result_label (GuiSystem.window s)
         = (Gui.quote ++ "(no audio captured)" ++ Gui.quote)%string
      /\ GuiSystem.threads s = [Gui.Finished]
      /\ GuiSystem.idle s = [].
Proof.
  intros g reply reply' Hpr Hrc Hcap Hmic s.
  destruct g as [cp r rc pr status res sens].
  destruct r as [[mic term] st fr cap scb ccb].
  cbn in Hpr, Hrc, Hcap, Hmic. subst pr rc cap mic.
  eexists. subst s.
  destruct st, scb, cp; vm_compute; repeat split; reflexivity.
Qed.

Lemma window_recovers_from_failed_start_witness :
  let dead := Gui.mkListenGUI true
                (Recorder.__init__ (mkPyAudio false false) true false)
                false false "Ready" EmptyString true in
  Gui._processing
    (GuiSystem.window
       (GuiSystem.run (GuiSystem.boot dead)
          [GuiSystem.Click; GuiSystem.Click;
           GuiSystem.Step 0 (Returned EmptyString);
           GuiSystem.Step 0 (Returned EmptyString); GuiSystem.Idle]))
  = false.
Proof.
  destruct (@window_recovers_from_failed_start
              (Gui.mkListenGUI true
                 (Recorder.__init__ (mkPyAudio false false) true false)
                 false false "Ready" EmptyString true)
              (Returned EmptyString) (Returned EmptyString))
    as (h & _ & _ & _ & Hpr & _).
  - reflexivity.
  - reflexivity.
  - reflexivity.
  - reflexivity.
  - exact Hpr.
Defined.

(** ** The waveform window *)

Lemma recent_absorbs : forall A (l l' : list A),
  Waveform.recent (Waveform.recent l ++ l') = Waveform.recent (l ++ l').
Proof.
  intros A l l'. unfold Waveform.recent, Waveform._max_samples.
  destruct (Nat.le_gt_cases (List.length l) 100) as [Hle|Hgt].
  - replace (List.length l - 100)%nat with 0%nat by lia. reflexivity.
  - rewrite !length_app, length_skipn.
    replace (List.length l - (List.length l - 100) + List.length l' - 100)%nat
      with (List.length l') by lia.
    replace (List.length l + List.length l' - 100)%nat
      with (List.length l' + (List.length l - 100))%nat by lia.
    rewrite <- skipn_skipn. f_equal.
    rewrite skipn_app.
    replace (List.length l - 100 - List.length l)%nat with 0%nat by lia.
    reflexivity.
Qed.

Lemma recent_length : forall A (l : list A),
  (List.length (Waveform.recent l) <= 100)%nat.
Proof.
  intros A l. unfold Waveform.recent, Waveform._max_samples.
  rewrite length_skipn. lia.
Qed.

Lemma recent_short : forall A (l : list A),
  (List.length l <= 100)%nat -> Waveform.recent l = l.
Proof.
  intros A l H. unfold Waveform.recent, Waveform._max_samples.
  replace (List.length l - 100)%nat with 0%nat by lia. reflexivity.
Qed.

Lemma add_samples_cases : forall A (normalized : list Z -> A) w c,
  Waveform.add_samples normalized w c
  = if Nat.even (List.length c)
    then Returned
           (if Waveform.shown c
            then Waveform.mkWaveform
                   (Waveform.recent
                      (Waveform._samples w
                       ++ [normalized (Waveform.samples_of c)]))
            else w)
    else Raised StructError.
Proof.
  intros A normalized w c. unfold Waveform.add_samples, Waveform.unpack_h,
    Waveform.shown.
  destruct (Nat.even (List.length c)) eqn:E; [|reflexivity].
  cbn [bind andb]. f_equal.
  destruct c as [|lo [|hi rest]]; [reflexivity | discriminate |].
  cbn [Waveform.samples_of List.length Nat.leb].
  set (grown := Waveform._samples w
                ++ [normalized (Waveform.sample lo hi
                                :: Waveform.samples_of rest)]).
  destruct (Nat.ltb_spec Waveform._max_samples (List.length grown)) as [H|H];
    [reflexivity|].
  rewrite recent_short; [reflexivity | exact H].
Qed.

(** X14: fed any run of chunks, the waveform widget holds the amplitudes of
    the chunks that carry a whole number of samples and at least one, in
    arrival order and cut to the latest 100; it never holds more than 100.
    A chunk with an odd number of bytes makes [add_samples] raise
    [struct.error] and an empty chunk adds nothing. *)
Theorem waveform_keeps_the_latest_hundred :
  forall (amplitude : Type) (normalized : list Z -> amplitude)
         (w : Waveform.WaveformDrawingArea amplitude) (chunks : list bytes),
    (List.length (Waveform._samples w) <= 100)%nat ->
    let w' := Waveform.feed normalized w chunks in
    Waveform._samples w'
    = Waveform.recent
        (Waveform._samples w
         ++ map (fun c => normalized (Waveform.samples_of c))
                (filter Waveform.shown chunks))
    /\ (List.length (Waveform._samples w') <= 100)%nat
    /\ (forall c, Nat.even (List.length c) = false ->
                  Waveform.add_samples normalized w c = Raised StructError)
    /\ Waveform.add_samples normalized w [] = Returned w.
Proof.
  intros amplitude normalized w chunks Hw w'.
  split; [|split; [|split]].
  - subst w'. revert w Hw.
    induction chunks as [|c rest IH]; intros w Hw.
    + cbn. rewrite app_nil_r. symmetry. now apply recent_short.
    + unfold Waveform.feed. cbn [fold_left filter].
      rewrite add_samples_cases.
      fold (Waveform.feed normalized).
      destruct (Nat.even (List.length c)) eqn:E.
      * destruct (Waveform.shown c) eqn:S.
        -- fold (Waveform.feed normalized
                   (Waveform.mkWaveform
                      (Waveform.recent
                         (Waveform._samples w
                          ++ [normalized (Waveform.samples_of c)]))) rest).
           rewrite IH by (cbn; apply recent_length).
           cbn [Waveform._samples map]. rewrite recent_absorbs.
           now rewrite <- app_assoc.
        -- now apply IH.
      * assert (S : Waveform.shown c = false)
          by (unfold Waveform.shown; now rewrite E).
        rewrite S. now apply IH.
  - subst w'. revert w Hw.
    induction chunks as [|c rest IH]; intros w Hw; [exact Hw|].
    unfold Waveform.feed. cbn [fold_left]. rewrite add_samples_cases.
    destruct (Nat.even (List.length c)); [destruct (Waveform.shown c)|];
      apply IH; cbn; try apply recent_length; exact Hw.
  - intros c Hodd. rewrite add_samples_cases. now rewrite Hodd.
  - reflexivity.
Qed.

Lemma waveform_keeps_the_latest_hundred_witness :
  Waveform._samples
    (Waveform.feed (fun samples => samples)
                   (Waveform.__init__ (list Z))
                   [[x01; x00; x02; x00]; [x07]; []; [xff; xff]])
  = [[1; 2]; [-1]].
Proof.
  destruct (@waveform_keeps_the_latest_hundred
              (list Z) (fun samples => samples) (Waveform.__init__ (list Z))
              [[x01; x00; x02; x00]; [x07]; []; [xff; xff]])
    as (Hshown & _).
  - cbn. lia.
  - rewrite Hshown. reflexivity.
Defined.

(** ** Choosing and loading the speech model *)

Lemma prefix_iff : forall n h,
  String.prefix n h = true <-> exists post, h = (n ++ post)%string.
Proof.
  induction n as [|a n IH]; intro h.
  - split; [intros _; now exists h|]. intros _. now destruct h.
  - destruct h as [|b h]; cbn.
    + split; [discriminate|]. intros [post H]. discriminate.
    + destruct (ascii_dec a b) as [->|Hne].
      * rewrite IH. split; intros [post H]; exists post.
        -- now rewrite H.
        -- now inversion H.
      * split; [discriminate|]. intros [post H]. congruence.
Qed.

(** [needle in haystack] is the substring test. *)
Lemma contains_iff : forall n h,
  Transcriber.contains n h = true
  <-> exists pre post, h = (pre ++ n ++ post)%string.
Proof.
  intros n h. induction h as [|b h IH].
  - cbn [Transcriber.contains]. rewrite orb_false_r, prefix_iff. split.
    + intros [post H]. now exists EmptyString, post.
    + intros (pre & post & H). destruct pre; [now exists post|discriminate].
  - cbn [Transcriber.contains]. rewrite orb_true_iff, prefix_iff, IH. split.
    + intros [[post H] | (pre & post & H)].
      * now exists EmptyString, post.
      * exists (String b pre), post. now rewrite H.
    + intros (pre & post & H). destruct pre as [|c pre].
      * left. now exists post.
      * right. inversion H. now exists pre, post.
Qed.

(** X15: with every argument left to choose and a model that loads, the
    transcriber runs on CUDA when [ctranslate2] reports at least one CUDA
    device or else [torch] sees CUDA, with the "base" model in float16;
    otherwise, failed imports included, it runs the "tiny" model on the CPU
    in int8. *)
Theorem automatic_choice_of_model :
  forall m : Transcriber.Machine,
    (forall size dev compute,
        Transcriber.load_error m size dev compute = None) ->
    let cuda :=
      match Transcriber.ctranslate2_cuda_devices m with
      | Some n => 0 <? n
      | None => false
      end
      || match Transcriber.torch_cuda_available m with
         | Some available => available
         | None => false
         end in
    Transcriber.__init__ m None "auto" None
    = Returned
        (if cuda
         then Transcriber.mkTranscriber
                "base" "cuda" "float16"
                (Transcriber.whisper "base" "cuda" "float16")
         else Transcriber.mkTranscriber
                "tiny" "cpu" "int8"
                (Transcriber.whisper "tiny" "cpu" "int8")).
Proof.
  intros [ct2 torch load] Hload. cbn in Hload. cbn zeta.
  unfold Transcriber.__init__, Transcriber.WhisperModel_new,
    Transcriber._detect_device.
  cbn [String.eqb Ascii.eqb Bool.eqb Transcriber.ctranslate2_cuda_devices
       Transcriber.torch_cuda_available Transcriber.load_error].
  destruct ct2 as [n|]; [destruct (0 <? n)|];
    destruct torch as [[|]|]; cbn; rewrite Hload; reflexivity.
Qed.

Lemma automatic_choice_of_model_witness :
  Transcriber.__init__
    (Transcriber.mkMachine None (Some true) (fun _ _ _ => None))
    None "auto" None
  = Returned (Transcriber.mkTranscriber
                "base" "cuda" "float16"
                (Transcriber.whisper "base" "cuda" "float16")).
Proof.
  apply (@automatic_choice_of_model
           (Transcriber.mkMachine None (Some true) (fun _ _ _ => None))).
  reflexivity.
Defined.

Lemma fallback_to_tiny_cpu :
  forall (m : Transcriber.Machine) (e : Exn) (word pre post : string)
         (size : option string) (dev : string) (compute : option string),
    word = "cuda"%string \/ word = "cublas"%string \/ word = "cudnn"%string ->
    Transcriber.lower (Cli.error_text e) = (pre ++ word ++ post)%string ->
    Transcriber.load_error m "tiny" "cpu" "int8" = None ->
    (forall s d c,
        (s, d, c) <> ("tiny", "cpu", "int8")%string ->
        Transcriber.load_error m s d c = Some e) ->
    Transcriber.__init__ m size dev compute
    = Returned (Transcriber.mkTranscriber
                  "tiny" "cpu" "int8"
                  (Transcriber.whisper "tiny" "cpu" "int8")).
Proof.
  intros m e word pre post size dev compute Hword Hmsg Hcpu Hothers.
  assert (Htest : Transcriber.contains "cuda"
                    (Transcriber.lower (Cli.error_text e))
                  || Transcriber.contains "cublas"
                       (Transcriber.lower (Cli.error_text e))
                  || Transcriber.contains "cudnn"
                       (Transcriber.lower (Cli.error_text e)) = true).
  { assert (Hin : Transcriber.contains word
                    (Transcriber.lower (Cli.error_text e)) = true)
      by (apply contains_iff; now exists pre, post).
    destruct Hword as [-> | [-> | ->]]; rewrite Hin;
      rewrite ?orb_true_r; reflexivity. }
  unfold Transcriber.__init__.
  set (dev' := if String.eqb dev "auto" then Transcriber._detect_device m
               else dev).
  set (size' := match size with
                | None => Transcriber.MODEL_RECOMMENDATIONS_get dev' "tiny"
                | Some s => s
                end).
  set (compute' := match compute with
                   | None => if String.eqb dev' "cuda"
                             then "float16"%string else "int8"%string
                   | Some c => c
                   end).
  assert (Hfallback :
            (model <- Transcriber.WhisperModel_new m
                        (Transcriber.MODEL_RECOMMENDATIONS_get "cpu" "tiny")
                        "cpu" "int8" ;;
             Returned (Transcriber.mkTranscriber
                         (Transcriber.MODEL_RECOMMENDATIONS_get "cpu" "tiny")
                         "cpu" "int8" model))
            = Returned (Transcriber.mkTranscriber
                          "tiny" "cpu" "int8"
                          (Transcriber.whisper "tiny" "cpu" "int8"))).
  { unfold Transcriber.WhisperModel_new. cbn. now rewrite Hcpu. }
  unfold Transcriber.WhisperModel_new at 1.
  destruct (string_dec size' "tiny") as [Hs|Hs];
    [destruct (string_dec dev' "cpu") as [Hd|Hd];
     [destruct (string_dec compute' "int8") as [Hc|Hc]|]|].
  - rewrite Hs, Hd, Hc, Hcpu. reflexivity.
  - rewrite Hothers by congruence. cbv zeta. rewrite Htest. exact Hfallback.
  - rewrite Hothers by congruence. cbv zeta. rewrite Htest. exact Hfallback.
  - rewrite Hothers by congruence. cbv zeta. rewrite Htest. exact Hfallback.
Qed.

(** X16: when the tiny int8 model loads on the CPU and every other load
    raises an error whose lower-cased message contains "cuda", "cublas" or
    "cudnn", the constructor returns the tiny int8 CPU transcriber whatever
    model size, device and compute type were asked for: the fallback
    replaces the caller's choices. *)
Theorem cuda_error_falls_back_to_tiny_cpu :
  forall (m : Transcriber.Machine) (e : Exn) (word pre post : string)
         (size : option string) (dev : string) (compute : option string),
    word = "cuda"%string \/ word = "cublas"%string \/ word = "cudnn"%string ->
    Transcriber.lower (Cli.error_text e) = (pre ++ word ++ post)%string ->
    Transcriber.load_error m "tiny" "cpu" "int8" = None ->
    (forall s d c,
        (s, d, c) <> ("tiny", "cpu", "int8")%string ->
        Transcriber.load_error m s d c = Some e) ->
    Transcriber.__init__ m size dev compute
    = Returned (Transcriber.mkTranscriber
                  "tiny" "cpu" "int8"
                  (Transcriber.whisper "tiny" "cpu" "int8")).
Proof. exact fallback_to_tiny_cpu. Qed.

Lemma cuda_error_falls_back_to_tiny_cpu_witness :
  Transcriber.__init__
    (Transcriber.mkMachine
       (Some 1) None
       (fun s d c =>
          if String.eqb s "tiny" && String.eqb d "cpu" && String.eqb c "int8"
          then None
          else Some (ModelError "Library libcublas.so.12 is not found")))
    (Some "large-v3"%string) "cuda" (Some "float16"%string)
  = Returned (Transcriber.mkTranscriber
                "tiny" "cpu" "int8"
                (Transcriber.whisper "tiny" "cpu" "int8")).
Proof.
  apply (@cuda_error_falls_back_to_tiny_cpu
           (Transcriber.mkMachine
              (Some 1) None
              (fun s d c =>
                 if String.eqb s "tiny" && String.eqb d "cpu"
                    && String.eqb c "int8"
                 then None
                 else Some (ModelError "Library libcublas.so.12 is not found")))
           (ModelError "Library libcublas.so.12 is not found")
           "cublas" "library lib" ".so.12 is not found").
  - right. left. reflexivity.
  - reflexivity.
  - reflexivity.
  - intros s d c Hne. simpl.
    destruct (String.eqb_spec s "tiny") as [->|Hs]; [|reflexivity].
    destruct (String.eqb_spec d "cpu") as [->|Hd]; [|reflexivity].
    destruct (String.eqb_spec c "int8") as [->|Hc]; [|reflexivity].
    now elim Hne.
Defined.

(** X17: an error that mentions none of "cuda", "cublas" and "cudnn" leaves
    the constructor as it was raised by the first load, whatever the CPU
    could have loaded: no second load is tried. *)
Theorem unrelated_load_error_propagates :
  forall (m : Transcriber.Machine) (e : Exn) (size dev compute : string),
    dev <> "auto"%string ->
    Transcriber.load_error m size dev compute = Some e ->
    Transcriber.contains "cuda" (Transcriber.lower (Cli.error_text e))
    = false ->
    Transcriber.contains "cublas" (Transcriber.lower (Cli.error_text e))
    = false ->
    Transcriber.contains "cudnn" (Transcriber.lower (Cli.error_text e))
    = false ->
    Transcriber.__init__ m (Some size) dev (Some compute) = Raised e.
Proof.
  intros m e size dev compute Hdev Hload H1 H2 H3.
  unfold Transcriber.__init__, Transcriber.WhisperModel_new.
  apply String.eqb_neq in Hdev. rewrite Hdev, Hload. cbv zeta.
  now rewrite H1, H2, H3.
Qed.

Lemma unrelated_load_error_propagates_witness :
  Transcriber.__init__
    (Transcriber.mkMachine
       None None
       (fun s d c => if String.eqb s "huge" then Some (ModelError "Invalid model size")
                     else None))
    (Some "huge"%string) "cpu" (Some "int8"%string)
  = Raised (ModelError "Invalid model size").
Proof.
  apply (@unrelated_load_error_propagates
           (Transcriber.mkMachine
              None None
              (fun s d c => if String.eqb s "huge"
                            then Some (ModelError "Invalid model size")
                            else None))
           (ModelError "Invalid model size") "huge" "cpu" "int8").
  - discriminate.
  - reflexivity.
  - reflexivity.
  - reflexivity.
  - reflexivity.
Defined.

(** X18: when the first load fails with an error that mentions CUDA and the
    tiny int8 model then fails on the CPU too, the constructor raises the
    second error; the first one is not reported. *)
Theorem failed_fallback_raises_second_error :
  forall (m : Transcriber.Machine) (e e' : Exn) (word pre post : string)
         (size dev compute : string),
    dev <> "auto"%string ->
    word = "cuda"%string \/ word = "cublas"%string \/ word = "cudnn"%string ->
    Transcriber.lower (Cli.error_text e) = (pre ++ word ++ post)%string ->
    Transcriber.load_error m size dev compute = Some e ->
    Transcriber.load_error m "tiny" "cpu" "int8" = Some e' ->
    Transcriber.__init__ m (Some size) dev (Some compute) = Raised e'.
Proof.
  intros m e e' word pre post size dev compute Hdev Hword Hmsg Hload Hcpu.
  assert (Hin : Transcriber.contains word
                  (Transcriber.lower (Cli.error_text e)) = true)
    by (apply contains_iff; now exists pre, post).
  unfold Transcriber.__init__, Transcriber.WhisperModel_new.
  apply String.eqb_neq in Hdev. rewrite Hdev, Hload. cbv zeta.
  replace (Transcriber.contains "cuda" (Transcriber.lower (Cli.error_text e))
           || Transcriber.contains "cublas"
                (Transcriber.lower (Cli.error_text e))
           || Transcriber.contains "cudnn"
                (Transcriber.lower (Cli.error_text e))) with true
    by (destruct Hword as [-> | [-> | ->]]; rewrite Hin;
        rewrite ?orb_true_r; reflexivity).
  cbn. now rewrite Hcpu.
Qed.

Lemma failed_fallback_raises_second_error_witness :
  Transcriber.__init__
    (Transcriber.mkMachine
       (Some 1) None
       (fun s d c => if String.eqb d "cuda"
                     then Some (ModelError "CUDA driver version is insufficient")
                     else Some (ModelError "model file not found")))
    (Some "base"%string) "cuda" (Some "float16"%string)
  = Raised (ModelError "model file not found").
Proof.
  apply (@failed_fallback_raises_second_error
           (Transcriber.mkMachine
              (Some 1) None
              (fun s d c =>
                 if String.eqb d "cuda"
                 then Some (ModelError "CUDA driver version is insufficient")
                 else Some (ModelError "model file not found")))
           (ModelError "CUDA driver version is insufficient")
           (ModelError "model file not found")
           "cuda" EmptyString " driver version is insufficient"
           "base" "cuda" "float16").
  - discriminate.
  - left. reflexivity.
  - reflexivity.
  - reflexivity.
  - reflexivity.
Defined.

(** X19: the earlier copy of the module, left to choose, loads the "tiny"
    model on every machine, in float16 on CUDA when [torch] sees it and in
    int8 on the CPU otherwise: its table is keyed by "gpu", a name the
    detected device never has, and what [ctranslate2] reports is not asked. *)
Theorem legacy_choice_is_always_tiny :
  forall m : Transcriber.Machine,
    (forall size dev compute,
        Transcriber.load_error m size dev compute = None) ->
    Transcriber.Legacy.__init__ m None "auto" None
    = Returned
        (match Transcriber.torch_cuda_available m with
         | Some true =>
             Transcriber.mkTranscriber
               "tiny" "cuda" "float16"
               (Transcriber.whisper "tiny" "cuda" "float16")
         | _ =>
             Transcriber.mkTranscriber
               "tiny" "cpu" "int8"
               (Transcriber.whisper "tiny" "cpu" "int8")
         end).
Proof.
  intros [ct2 torch load] Hload. cbn in Hload.
  unfold Transcriber.Legacy.__init__, Transcriber.WhisperModel_new,
    Transcriber.Legacy._detect_device.
  cbn [String.eqb Ascii.eqb Bool.eqb Transcriber.torch_cuda_available
       Transcriber.load_error].
  destruct torch as [[|]|]; cbn; rewrite Hload; reflexivity.
Qed.

Lemma legacy_choice_is_always_tiny_witness :
  Transcriber.Legacy.__init__
    (Transcriber.mkMachine (Some 2) (Some true) (fun _ _ _ => None))
    None "auto" None
  = Returned (Transcriber.mkTranscriber
                "tiny" "cuda" "float16"
                (Transcriber.whisper "tiny" "cuda" "float16")).
Proof.
  apply (@legacy_choice_is_always_tiny
           (Transcriber.mkMachine (Some 2) (Some true) (fun _ _ _ => None))).
  reflexivity.
Defined.

(** ** The recorder's test script *)

Lemma callbacks_while_recording : forall (during : list bytes) r,
  _is_recording r = true ->
  fold_left (fun r in_data => fst (_audio_callback r in_data)) during r
  = set_frames (_frames r ++ during) r.
Proof.
  induction during as [|chunk during IH]; intros r Hrec.
  - cbn. rewrite app_nil_r. now destruct r.
  - cbn [fold_left]. unfold _audio_callback at 2. rewrite Hrec. cbn [fst].
    rewrite IH by exact Hrec. unfold set_frames. cbn.
    now rewrite <- app_assoc.
Qed.

(** X20: however the test script ends, by printing a length, by failing to
    open the microphone or by failing to encode, the [with] block has
    terminated PyAudio and the recorder holds no stream. *)
Theorem test_script_releases_the_device :
  forall (device : PyAudio) (during : list bytes),
    terminated (_audio (snd (TestRecorder.script device during))) = true
    /\ _stream (snd (TestRecorder.script device during)) = None.
Proof.
  intros [avail term] during. unfold TestRecorder.script, start.
  cbn -[stop fold_left]. destruct avail; cbn -[stop fold_left].
  - rewrite callbacks_while_recording by reflexivity.
    cbn -[Wave.write]. unfold _frames_to_wav. cbn -[Wave.write].
    destruct (Wave.write _ _ _ _); cbn; split; reflexivity.
  - split; reflexivity.
Qed.

(** X21: with a microphone that opens and a capture that fits a RIFF
    container, the test script prints its five progress lines and then a
    length of 44 bytes more than the chunks delivered while it slept. *)
Theorem test_script_prints_container_length :
  forall (device : PyAudio) (during : list bytes),
    input_available device = true ->
    36 + blen (join during) <= Wave.RIFF_LIMIT ->
    fst (TestRecorder.script device during)
    = [TestRecorder.Text "Initializing Recorder...";
       TestRecorder.Text "Recorder Initialized.";
       TestRecorder.Text "Starting recording...";
       TestRecorder.Text "Recording for 2 seconds...";
       TestRecorder.Text "Stopping recording...";
       TestRecorder.Recorded (44 + blen (join during))].
Proof.
  intros [avail term] during Havail Hfit. cbn in Havail. subst avail.
  unfold TestRecorder.script, start. cbn -[stop fold_left Z.add].
  rewrite callbacks_while_recording by reflexivity.
  cbn -[Wave.write join Z.add]. unfold _frames_to_wav.
  cbn -[Wave.write join Z.add].
  destruct (write_fits (join during) Hfit) as (h & _ & Hlen & Hw).
  rewrite Hw. cbn -[Z.add blen join]. rewrite blen_app, Hlen. reflexivity.
Qed.

Lemma test_script_prints_container_length_witness :
  fst (TestRecorder.script (mkPyAudio true false)
                           [[x01; x02]; [x03; x04; x05; x06]])
  = [TestRecorder.Text "Initializing Recorder...";
     TestRecorder.Text "Recorder Initialized.";
     TestRecorder.Text "Starting recording...";
     TestRecorder.Text "Recording for 2 seconds...";
     TestRecorder.Text "Stopping recording...";
     TestRecorder.Recorded 50].
Proof.
  apply (@test_script_prints_container_length
           (mkPyAudio true false) [[x01; x02]; [x03; x04; x05; x06]]).
  - reflexivity.
  - unfold Wave.RIFF_LIMIT. cbn. lia.
Defined.

(** ** The status panel *)

(** X22: in auto-copy mode, after a capture whose container is not longer
    than 1000 bytes, the worker ends having copied nothing to the clipboard,
    yet the panel then shows "(no audio captured)" as the last transcription
    followed by "(copied to clipboard)", whatever the speech model would
    have answered. *)
Theorem panel_reports_a_copy_that_was_not_made :
  forall (console : string -> outcome unit)
         (gateway : bytes -> outcome string) (a : Cli.ListenApp),
    Cli.auto_copy a = true ->
    Cli._recording a = true ->
    _is_recording (Cli._recorder a) = true ->
    _on_status_change (Cli._recorder a) = true ->
    blen (join (_frames (Cli._recorder a))) <= 956 ->
    let done := Cli._stop_recording_and_transcribe console gateway a in
    snd (fst done) = Cli.Finished
    /\ (forall text, ~ In (Cli.Copied text) (snd done))
    /\ Display._get_display (fst (fst done))
       = (Display.Ready (if Cli.toggle_mode a then "Press" else "Hold"),
          [(Display.newline ++ Display.newline)%string;
           ("Last transcription:" ++ Display.newline)%string;
           (Gui.quote ++ "(no audio captured)" ++ Gui.quote)%string;
           " "%string; "(copied to clipboard)"%string]).
Proof.
  intros console gateway a Hcopy Hrec Hcap Hcb Hshort done.
  destruct (stop_while_recording _ Hcap)
    as (_ & _ & _ & _ & _ & Hres & Hnote).
  assert (Hfit : 36 + blen (join (_frames (Cli._recorder a)))
                 <= Wave.RIFF_LIMIT) by (unfold Wave.RIFF_LIMIT; lia).
  destruct (write_fits _ Hfit) as (h & _ & Hlen & Hw).
  rewrite Hw in Hres. unfold _notify_status in Hnote. rewrite Hcb in Hnote.
  assert (Hle : (1000 <? blen (h ++ join (_frames (Cli._recorder a))))
                = false) by (apply Z.ltb_ge; rewrite blen_app; lia).
  assert (Hdone :
            done
            = (Cli.set_processing false
                 (Cli.set_last_transcription Cli.NO_AUDIO
                    (Cli.set_recording false
                       (Cli.set_recorder (after (stop (Cli._recorder a)))
                          (Cli.set_processing true a)))),
               Cli.Finished,
               [Cli.CalledStop
                  (Returned (h ++ join (_frames (Cli._recorder a))))])).
  { unfold done, Cli._stop_recording_and_transcribe.
    cbn [Cli.drive Cli.worker_step]. rewrite Hrec.
    cbn [Cli.drive Cli.worker_step app Cli._recorder Cli.set_processing].
    rewrite Hres. unfold Cli.settle_call. rewrite Hnote.
    cbn [fold_left Cli._on_recording_status String.eqb Ascii.eqb Bool.eqb].
    cbn [Cli.drive Cli.worker_step app]. rewrite Hle.
    cbn [Cli.drive Cli.worker_step app]. reflexivity. }
  rewrite Hdone. cbn [fst snd]. split; [reflexivity|]. split.
  - intros text [Hin|[]]. discriminate.
  - unfold Display._get_display. cbn. rewrite Hcopy. reflexivity.
Qed.

Lemma panel_reports_a_copy_that_was_not_made_witness :
  Display._get_display
    (fst (fst (Cli._stop_recording_and_transcribe
                 Examples.prints_all Examples.hears_hello
                 (CliRuns.quiet_end
                    Examples.prints_all Examples.hears_hello
                    (Cli.app Examples.hold_mode)
                    [Cli.Press Cli.ctrl_l; Cli.Press Cli.space;
                     Cli.Frame Examples.brief]))))
  = (Display.Ready "Hold",
     [(Display.newline ++ Display.newline)%string;
      ("Last transcription:" ++ Display.newline)%string;
      (Gui.quote ++ "(no audio captured)" ++ Gui.quote)%string;
      " "%string; "(copied to clipboard)"%string]).
Proof.
  destruct (@panel_reports_a_copy_that_was_not_made
              Examples.prints_all Examples.hears_hello
              (CliRuns.quiet_end
                 Examples.prints_all Examples.hears_hello
                 (Cli.app Examples.hold_mode)
                 [Cli.Press Cli.ctrl_l; Cli.Press Cli.space;
                  Cli.Frame Examples.brief]))
    as (_ & _ & Hshown).
  - reflexivity.
  - reflexivity.
  - reflexivity.
  - reflexivity.
  - cbn. lia.
  - exact Hshown.
Defined.

(** ** The window at start-up *)

Lemma every_load_failing : forall (m : Transcriber.Machine) (e : Exn)
    (size : option string) (dev : string) (compute : option string),
  (forall s d c, Transcriber.load_error m s d c = Some e) ->
  Transcriber.__init__ m size dev compute = Raised e.
Proof.
  intros m e size dev compute Hall.
  unfold Transcriber.__init__, Transcriber.WhisperModel_new.
  rewrite Hall. cbv zeta.
  destruct (Transcriber.contains "cuda" _ || Transcriber.contains "cublas" _
            || Transcriber.contains "cudnn" _).
  - rewrite Hall. reflexivity.
  - reflexivity.
Qed.

(** X23: on a machine where only the tiny int8 model loads, on the CPU, and
    every other load fails for want of the CUDA libraries, the window ends
    start-up with its record button enabled and the status
    "Ready • tiny model on cpu", whatever model size it was started with. *)
Theorem window_reports_the_fallback_model :
  forall (m : Transcriber.Machine) (e : Exn) (word pre post : string)
         (model_size : option string) (mic : PyAudio) (copy : bool),
    word = "cuda"%string \/ word = "cublas"%string \/ word = "cudnn"%string ->
    Transcriber.lower (Cli.error_text e) = (pre ++ word ++ post)%string ->
    Transcriber.load_error m "tiny" "cpu" "int8" = None ->
    (forall s d c,
        (s, d, c) <> ("tiny", "cpu", "int8")%string ->
        Transcriber.load_error m s d c = Some e) ->
    let loaded := GuiStartup._load_model m model_size
                    (GuiStartup._on_activate mic copy) in
    Gui.status_label (fst loaded) = "Ready • tiny model on cpu"%string
    /\ Gui.record_button_sensitive (fst loaded) = true
    /\ snd loaded = Some (Transcriber.mkTranscriber
                            "tiny" "cpu" "int8"
                            (Transcriber.whisper "tiny" "cpu" "int8")).
Proof.
  intros m e word pre post model_size mic copy Hword Hmsg Hcpu Hothers loaded.
  unfold loaded, GuiStartup._load_model.
  rewrite (@fallback_to_tiny_cpu m e word pre post model_size "auto"%string None
             Hword Hmsg Hcpu Hothers).
  cbn. repeat split.
Qed.

Lemma window_reports_the_fallback_model_witness :
  Gui.status_label
    (fst (GuiStartup._load_model
            (Transcriber.mkMachine
               (Some 1) None
               (fun s d c =>
                  if String.eqb s "tiny" && String.eqb d "cpu"
                     && String.eqb c "int8"
                  then None
                  else Some (ModelError "libcudnn_ops.so.9 cannot be loaded")))
            (Some "small"%string)
            (GuiStartup._on_activate Examples.mic true)))
  = "Ready • tiny model on cpu"%string.
Proof.
  destruct (@window_reports_the_fallback_model
              (Transcriber.mkMachine
                 (Some 1) None
                 (fun s d c =>
                    if String.eqb s "tiny" && String.eqb d "cpu"
                       && String.eqb c "int8"
                    then None
                    else Some (ModelError "libcudnn_ops.so.9 cannot be loaded")))
              (ModelError "libcudnn_ops.so.9 cannot be loaded")
              "cudnn" "lib" "_ops.so.9 cannot be loaded"
              (Some "small"%string) Examples.mic true)
    as (Hstatus & _ & _).
  - right. right. reflexivity.
  - reflexivity.
  - reflexivity.
  - intros s d c Hne. simpl.
    destruct (String.eqb_spec s "tiny") as [->|Hs]; [|reflexivity].
    destruct (String.eqb_spec d "cpu") as [->|Hd]; [|reflexivity].
    destruct (String.eqb_spec c "int8") as [->|Hc]; [|reflexivity].
    now elim Hne.
  - exact Hstatus.
Defined.

(** X24: on a machine where no model loads, every attempt raising the same
    error, the window ends start-up with the status "Error: " followed by
    that error, no transcriber, and the record button still disabled,
    whether or not the error mentions CUDA. *)
Theorem window_stays_disabled_without_a_model :
  forall (m : Transcriber.Machine) (e : Exn) (model_size : option string)
         (mic : PyAudio) (copy : bool),
    (forall s d c, Transcriber.load_error m s d c = Some e) ->
    let loaded := GuiStartup._load_model m model_size
                    (GuiStartup._on_activate mic copy) in
    Gui.status_label (fst loaded) = ("Error: " ++ Cli.error_text e)%string
    /\ Gui.record_button_sensitive (fst loaded) = false
    /\ snd loaded = None.
Proof.
  intros m e model_size mic copy Hall loaded.
  unfold loaded, GuiStartup._load_model.
  rewrite (@every_load_failing m e model_size "auto"%string None Hall).
  cbn. repeat split.
Qed.

Lemma window_stays_disabled_without_a_model_witness :
  Gui.record_button_sensitive
    (fst (GuiStartup._load_model
            (Transcriber.mkMachine
               None None (fun _ _ _ => Some (ModelError "CUDA out of memory")))
            None (GuiStartup._on_activate Examples.mic true)))
  = false.
Proof.
  destruct (@window_stays_disabled_without_a_model
              (Transcriber.mkMachine
                 None None
                 (fun _ _ _ => Some (ModelError "CUDA out of memory")))
              (ModelError "CUDA out of memory") None Examples.mic true)
    as (_ & Hbutton & _).
  - reflexivity.
  - exact Hbutton.
Defined.

(** ** Blank transcriptions *)

Lemma strip_blank : forall s, blank s = true -> Gui.strip s = EmptyString.
Proof.
  intros s H. unfold Gui.strip. now rewrite (lstrip_blank s H).
Qed.

Lemma spaces_blank : forall n, blank (spaces n) = true.
Proof.
  induction n as [|n IH]; [reflexivity|].
  unfold blank, spaces in *. cbn [repeat string_of_list_ascii
    list_ascii_of_string forallb]. now rewrite IH.
Qed.

Lemma transcribe_blank : forall segments,
  forallb blank segments = true ->
  Transcriber.transcribe segments = spaces (pred (List.length segments)).
Proof.
  unfold Transcriber.transcribe.
  induction segments as [|s rest IH]; [reflexivity|].
  cbn [forallb]. intro H. apply andb_true_iff in H as [Hs Hrest].
  specialize (IH Hrest). cbn [map]. rewrite (strip_blank s Hs).
  destruct rest as [|s' rest]; [reflexivity|].
  cbn [map] in *.
  change (String.concat " " (EmptyString :: Gui.strip s' :: map Gui.strip rest))
    with (EmptyString ++ " "
          ++ String.concat " " (Gui.strip s' :: map Gui.strip rest))%string.
  rewrite IH. reflexivity.
Qed.

(** X25: when the speech model yields two or more segments and every one
    of them is blank, [transcribe] returns a text of one space less than
    there are segments.  In auto-copy mode the terminal worker takes it for
    speech, stores it and copies it to the clipboard; the window worker
    strips it, copies nothing and queues the completion callback with the
    empty text. *)
Theorem blank_segments_are_copied_by_the_terminal_only :
  forall (segments : list string) (a : Cli.ListenApp) (g : Gui.ListenGUI)
         (audio_data : bytes),
    (2 <= List.length segments)%nat ->
    forallb blank segments = true ->
    Cli.auto_copy a = true ->
    Gui.auto_copy g = true ->
    let text := Transcriber.transcribe segments in
    text = spaces (List.length segments - 1)
    /\ Cli.worker_step (Returned text) a (Cli.InGateway audio_data)
       = (Cli.set_last_transcription text a, Cli.AtClear, [Cli.Copied text])
    /\ Gui.worker_step (Returned text) g (Gui.InGateway audio_data)
       = (g, Gui.Finished, [Gui.IdleAdd EmptyString]).
Proof.
  intros segments a g audio_data Hlen Hblank Hcli Hgui text.
  assert (Htext : text = spaces (List.length segments - 1)).
  { unfold text. rewrite (transcribe_blank segments Hblank).
    f_equal. lia. }
  split; [exact Htext|]. rewrite Htext.
  destruct (List.length segments - 1)%nat as [|n] eqn:Hn; [lia|].
  split.
  - cbn [Cli.worker_step]. rewrite Hcli. reflexivity.
  - cbn [Gui.worker_step]. rewrite (strip_blank _ (spaces_blank (S n))).
    rewrite Hgui. reflexivity.
Qed.

Lemma blank_segments_are_copied_by_the_terminal_only_witness :
  snd (Cli.worker_step
         (Returned (Transcriber.transcribe [" "; EmptyString; "  "]%string))
         (Cli.app Examples.hold_mode) (Cli.InGateway Examples.loud))
  = [Cli.Copied "  "].
Proof.
  destruct (@blank_segments_are_copied_by_the_terminal_only
              [" "; EmptyString; "  "]%string
              (Cli.app Examples.hold_mode) Examples.window Examples.loud)
    as (_ & Hcli & _).
  - simpl. lia.
  - reflexivity.
  - reflexivity.
  - reflexivity.
  - rewrite Hcli. reflexivity.
Defined.

(** ** Key presses and failures while a transcription is processed *)

(** X26: while [_processing] is set, a key press in the terminal front end
    calls no [recorder.start()], leaves the recorder and the last
    transcription as they were and the phase at Processing.  It has no
    effect at all in push-to-talk mode and in toggle mode once [_recording]
    is clear; the one thing it can do, in toggle mode with [_recording]
    still set, is launch another stop worker.  In the window a click on the
    record button while [_processing] is set changes nothing. *)
Theorem press_while_processing_starts_no_capture :
  forall (a : Cli.ListenApp) (g : Gui.ListenGUI) (key : Cli.Key),
    Cli._processing a = true ->
    Gui._processing g = true ->
    let a1 := fst (Cli._on_key_press a key) in
    let effects := snd (Cli._on_key_press a key) in
    filter Cli.is_start effects = []
    /\ Cli._recorder a1 = Cli._recorder a
    /\ Cli._last_transcription a1 = Cli._last_transcription a
    /\ Cli.phase a1 = Cli.Processing
    /\ (Cli.toggle_mode a && Cli._recording a = false -> effects = [])
    /\ (effects <> [] ->
        effects = [Cli.Spawned]
        /\ Cli.toggle_mode a = true /\ Cli._recording a = true)
    /\ Gui._on_record_clicked g = (g, []).
Proof.
  intros a g key Ha Hg a1 effects.
  destruct (press_while_processing a key Ha) as (Hr & Hp & _ & Hl & Heff).
  fold a1 in Hr, Hp, Hl. fold effects in Heff.
  split; [destruct Heff as [-> | [-> _]]; reflexivity|].
  split; [exact Hr|]. split; [exact Hl|].
  split; [unfold Cli.phase; now rewrite Hp|].
  split; [|split].
  - intro Hnot. destruct Heff as [-> | [_ Hyes]]; [reflexivity|].
    rewrite Hyes in Hnot. discriminate.
  - intro Hsome. destruct Heff as [Hnone | [Hsp Hyes]]; [contradiction|].
    apply andb_true_iff in Hyes. tauto.
  - unfold Gui._on_record_clicked. now rewrite Hg.
Qed.

Lemma press_while_processing_starts_no_capture_witness :
  Cli._on_key_press (Cli.app Examples.transcribing) Cli.space
  = (Cli.set_space_pressed true (Cli.app Examples.transcribing), [])
  /\ Gui._on_record_clicked Examples.window_processing
     = (Examples.window_processing, []).
Proof.
  destruct (@press_while_processing_starts_no_capture
              (Cli.app Examples.transcribing) Examples.window_processing
              Cli.space)
    as (_ & _ & _ & _ & Hnone & _ & Hgui).
  - reflexivity.
  - reflexivity.
  - split; [|exact Hgui].
    specialize (Hnone ltac:(reflexivity)).
    destruct (Cli._on_key_press (Cli.app Examples.transcribing) Cli.space)
      as [a1 effects] eqn:E.
    cbn [snd] in Hnone. subst effects.
    vm_compute in E. inversion E. vm_compute. reflexivity.
Defined.

(** X27: a worker sits inside the speech model and the call raises.  The
    worker prints the error as console markup, the message spliced in
    unescaped.  When the console returns, the worker goes on to clear
    [_processing] and ends normally with [_last_transcription] as it was;
    with [_recording] clear the phase is Idle, and the next Ctrl+Space press
    calls [recorder.start()], which returns and puts the front end in phase
    Recording with an empty buffer.  When the console raises instead, the
    worker dies there and [_processing] stays set. *)
Theorem printed_failure_recovers :
  forall (a : Cli.ListenApp) (audio_data : bytes) (e e' : Exn)
         (text : string) (reply : outcome string) (key : Cli.Key),
    Cli._recording a = false ->
    _is_recording (Cli._recorder a) = false ->
    input_available (_audio (Cli._recorder a)) = true ->
    _on_status_change (Cli._recorder a) = true ->
    (Cli._ctrl_pressed a = true /\ key = Cli.space)
    \/ (Cli._space_pressed a = true
        /\ (key = Cli.ctrl_l \/ key = Cli.ctrl_r)) ->
    let idle := Cli.set_processing false a in
    let pressed := Cli._on_key_press idle key in
    Cli.worker_step (Raised e) a (Cli.InGateway audio_data)
    = (a, Cli.AtPrint e, [])
    /\ Cli.worker_step (Returned text) a (Cli.AtPrint e)
       = (a, Cli.AtClear,
          [Cli.Printed ("[red]Error: " ++ Cli.error_text e ++ "[/red]")])
    /\ Cli.worker_step (Raised e') a (Cli.AtPrint e) = (a, Cli.Died e', [])
    /\ Cli.worker_step reply a Cli.AtClear = (idle, Cli.Finished, [])
    /\ Cli.phase idle = Cli.Idle
    /\ Cli._last_transcription idle = Cli._last_transcription a
    /\ snd pressed = [Cli.CalledStart (Returned tt)]
    /\ Cli.phase (fst pressed) = Cli.Recording
    /\ _is_recording (Cli._recorder (fst pressed)) = true
    /\ _frames (Cli._recorder (fst pressed)) = [].
Proof.
  intros a audio_data e e' text reply key Hrec Hidle Hmic Hcb Hchord
         idle pressed.
  split; [reflexivity|]. split; [reflexivity|]. split; [reflexivity|].
  split; [reflexivity|].
  split; [unfold Cli.phase; cbn; now rewrite Hrec|].
  split; [reflexivity|].
  assert (Hpress : exists a1,
             Cli._on_key_press idle key = Cli._start_recording a1
             /\ Cli._recording a1 = false /\ Cli._processing a1 = false
             /\ Cli._recorder a1 = Cli._recorder a).
  { unfold Cli._on_key_press.
    destruct Hchord as [[Hc ->] | [Hs [-> | ->]]].
    - exists (Cli.set_space_pressed true idle). cbn. rewrite Hc, Hrec. cbn.
      destruct (Cli.toggle_mode a); auto.
    - exists (Cli.set_ctrl_pressed true idle). cbn. rewrite Hs, Hrec. cbn.
      destruct (Cli.toggle_mode a); auto.
    - exists (Cli.set_ctrl_pressed true idle). cbn. rewrite Hs, Hrec. cbn.
      destruct (Cli.toggle_mode a); auto. }
  destruct Hpress as (a1 & Hkey & Hr1 & Hp1 & Hrc1).
  subst pressed. rewrite Hkey.
  rewrite <- Hrc1 in Hidle, Hmic, Hcb.
  rewrite (start_recording_idle a1 Hr1 Hp1 Hidle Hmic Hcb). cbn.
  destruct (start_when_idle _ Hidle) as (Hf & Hr & _).
  unfold Cli.phase. cbn. rewrite Hp1. auto.
Qed.

Lemma printed_failure_recovers_witness :
  let a := Cli.app Examples.transcribing in
  Cli.worker_step (Returned EmptyString) a
                  (Cli.AtPrint (ModelError "out of memory"))
  = (a, Cli.AtClear, [Cli.Printed "[red]Error: out of memory[/red]"])
  /\ snd (Cli._on_key_press (Cli.set_processing false a) Cli.space)
     = [Cli.CalledStart (Returned tt)].
Proof.
  destruct (@printed_failure_recovers
              (Cli.app Examples.transcribing)
              Examples.loud (ModelError "out of memory")
              (MarkupError EmptyString) EmptyString
              (Returned EmptyString) Cli.space)
    as (_ & Hprint & _ & _ & _ & _ & Hstart & _).
  - vm_compute. reflexivity.
  - vm_compute. reflexivity.
  - vm_compute. reflexivity.
  - vm_compute. reflexivity.
  - left. split; [vm_compute|]; reflexivity.
  - split; [exact Hprint | exact Hstart].
Defined.
